(** * Work Hours Logger: a shallow embedding of [timelogger.py]

    The program keeps a JSON object that maps ISO dates to day entries
    (["start"], ["end"], ["hours_worked"], ["total_minutes"]) next to one
    ["settings"] object.  This file embeds the class [WorkLogger] method by
    method and proves properties of the time accounting, of the weekly
    roll-over and of the live projection.

    Modelling conventions.
    - [self.data] is a Python dict of dicts: a [gmap string (gmap string jval)].
      Every top-level value is a JSON object, as in every file the program
      writes itself.
    - Python numbers (int and float alike) are exact rationals [Q]; values the
      program stores are kept in lowest terms, so that equal numbers are
      equal terms.  Rounding to two decimals is then exact: on a whole number
      of minutes [100 * m / 60] is never half-way between two integers
      (lemma [round_half_even_thirds]), so binary floating point cannot tip
      the result.
    - An int and a float of the same value are the same rational.  The
      program tells them apart at one place, the format [02d] of the
      counter, which refuses a float: there a number stands for an int
      exactly when it is whole.  The lunch break is an int whenever the
      program wrote it; a data file edited by hand to hold a whole float
      there (30.0) is outside the model.
    - Text is ASCII.
    - The clock is one [datetime] sampled per command; [date.today()] is its
      date part.
    - The calendar is the proleptic Gregorian one of module [datetime];
      Python's [OverflowError] outside the years 1..9999 is not modelled and
      date arithmetic is total.
    - Uncaught exceptions are results [Raise e]; the state reached when the
      exception escapes is kept.
    - The counter, the views and the menu loop return what they show as a
      list of lines (module [Shell]); the wording of the messages, the
      listings of [edit_past_day] and [delete_day] and the formatting of
      the numbers shown, its failure on a float apart, are left out. *)

From Stdlib Require Import ZArith QArith Qround String Ascii List Lia Lqa.
From stdpp Require Import base option gmap strings fin_maps sorting.

Open Scope string_scope.
Open Scope Z_scope.

(** ** Python numbers *)

Module PyNum.

(** [int(x)] on a float: truncation towards zero. *)
Definition int_of (q : Q) : Z := Z.quot (Qnum q) (Zpos (Qden q)).

(** [x // 1]: the floor. *)
Definition floor (q : Q) : Z := Qfloor q.

Definition Qltb (a b : Q) : bool := negb (Qle_bool b a).
Definition Qleb (a b : Q) : bool := Qle_bool a b.

(** Round to the nearest integer, ties to the even neighbour. *)
Definition round_half_even (q : Q) : Z :=
  let f := Qfloor q in
  match Qcompare (q - inject_Z f) (1 # 2) with
  | Lt => f
  | Gt => f + 1
  | Eq => if Z.even f then f else f + 1
  end.

(** [round(x, 2)]. *)
Definition round2 (q : Q) : Q := Qred (round_half_even (q * 100) # 100).

(** The number an int stands for. *)
Definition of_Z (z : Z) : Q := inject_Z z.

End PyNum.

(** ** The calendar of module [datetime] *)

Module Calendar.

Record date := Date { year : Z; month : Z; day : Z }.

Record datetime := DateTime {
  dt_date : date;
  hour : Z;
  minute : Z;
  second : Z;
  microsecond : Z
}.

Global Instance date_eq_dec : EqDecision date.
Proof. solve_decision. Defined.

Global Instance datetime_eq_dec : EqDecision datetime.
Proof. solve_decision. Defined.

Definition is_leap (y : Z) : bool :=
  (y mod 4 =? 0) && (negb (y mod 100 =? 0) || (y mod 400 =? 0)).

Definition days_before_year (y : Z) : Z :=
  let y := y - 1 in y * 365 + y / 4 - y / 100 + y / 400.

Definition DAYS_IN_MONTH : list Z :=
  [-1; 31; 28; 31; 30; 31; 30; 31; 31; 30; 31; 30; 31].

Definition DAYS_BEFORE_MONTH : list Z :=
  [-1; 0; 31; 59; 90; 120; 151; 181; 212; 243; 273; 304; 334].

Definition days_in_month (y m : Z) : Z :=
  if (m =? 2) && is_leap y then 29 else nth (Z.to_nat m) DAYS_IN_MONTH (-1).

Definition days_before_month (y m : Z) : Z :=
  nth (Z.to_nat m) DAYS_BEFORE_MONTH (-1)
  + (if (2 <? m) && is_leap y then 1 else 0).

Definition ymd2ord (y m d : Z) : Z :=
  days_before_year y + days_before_month y m + d.

Definition DI400Y : Z := 146097.
Definition DI100Y : Z := 36524.
Definition DI4Y : Z := 1461.

(** The part of [_ord2ymd] after the 400-year cycle has been split off:
    [n] is the zero-based day within the cycle and [y400] the first year
    of the cycle. *)
Definition ord2ymd_cycle (y400 n : Z) : date :=
  let n100 := n / DI100Y in
  let n := n mod DI100Y in
  let n4 := n / DI4Y in
  let n := n mod DI4Y in
  let n1 := n / 365 in
  let n := n mod 365 in
  let y := y400 + n100 * 100 + n4 * 4 + n1 in
  if (n1 =? 4) || (n100 =? 4) then Date (y - 1) 12 31
  else
    let leapyear := (n1 =? 3) && (negb (n4 =? 24) || (n100 =? 3)) in
    let m := Z.shiftr (n + 50) 5 in
    let preceding :=
      nth (Z.to_nat m) DAYS_BEFORE_MONTH (-1)
      + (if (2 <? m) && leapyear then 1 else 0) in
    if n <? preceding then
      let m' := m - 1 in
      let preceding' :=
        preceding
        - (nth (Z.to_nat m') DAYS_IN_MONTH (-1)
           + (if (m' =? 2) && leapyear then 1 else 0)) in
      Date y m' (n - preceding' + 1)
    else Date y m (n - preceding + 1).

Definition ord2ymd (n : Z) : date :=
  let n := n - 1 in
  ord2ymd_cycle ((n / DI400Y) * 400 + 1) (n mod DI400Y).

Definition toordinal (d : date) : Z := ymd2ord (year d) (month d) (day d).
Definition fromordinal (n : Z) : date := ord2ymd n.

(** [date.weekday()]: Monday is 0. *)
Definition weekday (d : date) : Z := (toordinal d + 6) mod 7.

(** [d + timedelta(days=k)]. *)
Definition date_add_days (d : date) (k : Z) : date :=
  fromordinal (toordinal d + k).

(** The dates the constructor [date(y, m, d)] accepts. *)
Definition date_ok (d : date) : bool :=
  (1 <=? year d) && (year d <=? 9999) &&
  (1 <=? month d) && (month d <=? 12) &&
  (1 <=? day d) && (day d <=? days_in_month (year d) (month d)).

Definition time_ok (t : datetime) : bool :=
  (0 <=? hour t) && (hour t <? 24) &&
  (0 <=? minute t) && (minute t <? 60) &&
  (0 <=? second t) && (second t <? 60) &&
  (0 <=? microsecond t) && (microsecond t <? 1000000).

(** Microseconds since midnight. *)
Definition tod_us (t : datetime) : Z :=
  ((hour t * 60 + minute t) * 60 + second t) * 1000000 + microsecond t.

Definition DAY_US : Z := 86400000000.

(** [a - b] as a [timedelta], in microseconds. *)
Definition datetime_sub (a b : datetime) : Z :=
  (toordinal (dt_date a) - toordinal (dt_date b)) * DAY_US
  + (tod_us a - tod_us b).

(** [timedelta.total_seconds() / 60]. *)
Definition total_minutes_of (us : Z) : Q := us # 60000000.

(** [a < b]: the fields are compared in order. *)
Definition datetime_key (t : datetime) : list Z :=
  [year (dt_date t); month (dt_date t); day (dt_date t);
   hour t; minute t; second t; microsecond t].

Fixpoint lex_lt (a b : list Z) : bool :=
  match a, b with
  | x :: a', y :: b' => (x <? y) || ((x =? y) && lex_lt a' b')
  | [], _ :: _ => true
  | _, [] => false
  end.

Definition datetime_lt (a b : datetime) : bool :=
  lex_lt (datetime_key a) (datetime_key b).

(** [t + timedelta(microseconds=us)]. *)
Definition datetime_add (t : datetime) (us : Z) : datetime :=
  let total := tod_us t + us in
  let r := total mod DAY_US in
  DateTime (date_add_days (dt_date t) (total / DAY_US))
           (r / 3600000000) (r / 60000000 mod 60)
           (r / 1000000 mod 60) (r mod 1000000).

(** [timedelta(minutes=x)] for a number [x]: rounded to a microsecond. *)
Definition minutes_delta (x : Q) : Z :=
  PyNum.round_half_even (x * 60000000).

(** [t.replace(year=.., month=.., day=..)]. *)
Definition replace_date (t : datetime) (d : date) : datetime :=
  DateTime d (hour t) (minute t) (second t) (microsecond t).

End Calendar.

(** ** Exceptions *)

Inductive exn := ValueError | KeyError | TypeError.

Inductive result (A : Type) :=
| Ok (a : A)
| Raise (e : exn).
Arguments Ok {A} a.
Arguments Raise {A} e.

Global Instance exn_eq_dec : EqDecision exn.
Proof. solve_decision. Defined.

Global Instance result_eq_dec {A} `{EqDecision A} : EqDecision (result A).
Proof. solve_decision. Defined.

Definition rbind {A B} (r : result A) (k : A -> result B) : result B :=
  match r with Ok a => k a | Raise e => Raise e end.

(** ** [strptime] and [strftime]

    [datetime.strptime] turns the format into a regular expression, takes
    the first match of a backtracking search anchored at the start of the
    text, and fails when the match does not reach the end of the text.  The
    search is the list of all matches in the order a backtracking matcher
    finds them. *)

Module Strptime.
Import Calendar.

Inductive regex :=
| Range (lo hi : ascii)
| Spaces
| Seq (r1 r2 : regex)
| Alt (r1 r2 : regex)
| Group (name : ascii) (r : regex).

Definition in_range (lo hi c : ascii) : bool :=
  ((N_of_ascii lo <=? N_of_ascii c) && (N_of_ascii c <=? N_of_ascii hi))%N.

(** [\s] on str patterns. *)
Definition is_space (c : ascii) : bool :=
  let n := N_of_ascii c in
  ((9 <=? n) && (n <=? 13) || (28 <=? n) && (n <=? 32))%N.

(** A match: the text consumed, the named groups, the text left. *)
Definition found : Type := string * list (ascii * string) * string.

(** [\s+], greedy: the longest run first. *)
Fixpoint spaces (s : string) : list (string * string) :=
  match s with
  | String c s' =>
      if is_space c
      then (map (fun '(t, r) => (String c t, r)) (spaces s') ++ [(String c "", s')])%list
      else []
  | EmptyString => []
  end.

Fixpoint rmatch (r : regex) (s : string) : list found :=
  match r with
  | Range lo hi =>
      match s with
      | String c s' => if in_range lo hi c then [(String c "", [], s')] else []
      | EmptyString => []
      end
  | Spaces => map (fun '(t, s') => (t, [], s')) (spaces s)
  | Seq r1 r2 =>
      flat_map (fun '(t1, g1, s1) =>
        map (fun '(t2, g2, s2) => (t1 ++ t2, (g1 ++ g2)%list, s2)) (rmatch r2 s1))
        (rmatch r1 s)
  | Alt r1 r2 => (rmatch r1 s ++ rmatch r2 s)%list
  | Group name r =>
      map (fun '(t, g, s') => (t, (name, t) :: g, s')) (rmatch r s)
  end.

Definition lit (c : ascii) : regex := Range c c.
Definition digit_re : regex := Range "0" "9".

(** The expressions of [_strptime.TimeRE] for the directives in use. *)
Definition directive (c : ascii) : option regex :=
  if Ascii.eqb c "Y" then
    Some (Group "Y" (Seq digit_re (Seq digit_re (Seq digit_re digit_re))))
  else if Ascii.eqb c "m" then
    Some (Group "m" (Alt (Seq (lit "1") (Range "0" "2"))
                    (Alt (Seq (lit "0") (Range "1" "9"))
                         (Range "1" "9"))))
  else if Ascii.eqb c "d" then
    Some (Group "d" (Alt (Seq (lit "3") (Range "0" "1"))
                    (Alt (Seq (Range "1" "2") digit_re)
                    (Alt (Seq (lit "0") (Range "1" "9"))
                    (Alt (Range "1" "9")
                         (Seq (lit " ") (Range "1" "9")))))))
  else if Ascii.eqb c "H" then
    Some (Group "H" (Alt (Seq (lit "2") (Range "0" "3"))
                    (Alt (Seq (Range "0" "1") digit_re)
                         digit_re)))
  else if Ascii.eqb c "M" then
    Some (Group "M" (Alt (Seq (Range "0" "5") digit_re) digit_re))
  else None.

(** [TimeRE.pattern]: a directive becomes its expression, a run of white
    space becomes [\s+], any other character stands for itself.  [None]
    is a bad directive. *)
Fixpoint pattern (format : string) : option (list regex) :=
  match format with
  | EmptyString => Some []
  | String c rest =>
      if Ascii.eqb c "%" then
        match rest with
        | String x rest' =>
            r ← directive x; rs ← pattern rest'; Some (r :: rs)
        | EmptyString => None
        end
      else if is_space c then
        rs ← pattern rest;
        Some (match rs with Spaces :: _ => rs | _ => Spaces :: rs end)
      else rs ← pattern rest; Some (lit c :: rs)
  end.

Fixpoint sequence (rs : list regex) : list (ascii * string) * string
                                      -> list (list (ascii * string) * string) :=
  match rs with
  | [] => fun acc => [acc]
  | r :: rs' => fun '(g, s) =>
      flat_map (fun '(_, g1, s1) => sequence rs' ((g ++ g1)%list, s1)) (rmatch r s)
  end.

(** [int(text)] for the text of a group: decimal digits, blanks skipped. *)
Fixpoint int_digits (acc : Z) (t : string) : Z :=
  match t with
  | EmptyString => acc
  | String c t' =>
      if in_range "0" "9" c
      then int_digits (10 * acc + (Z.of_N (N_of_ascii c) - 48)) t'
      else int_digits acc t'
  end.

Fixpoint group (name : ascii) (g : list (ascii * string)) : option string :=
  match g with
  | [] => None
  | (n, t) :: g' => if Ascii.eqb n name then Some t else group name g'
  end.

Definition field (name : ascii) (dflt : Z) (g : list (ascii * string)) : Z :=
  match group name g with Some t => int_digits 0 t | None => dflt end.

Definition strptime (data_string format : string) : result datetime :=
  match pattern format with
  | None => Raise ValueError
  | Some rs =>
      match sequence rs ([], data_string) with
      | [] => Raise ValueError
      | (g, rest) :: _ =>
          match rest with
          | String _ _ => Raise ValueError
          | EmptyString =>
              let d := Date (field "Y" 1900 g) (field "m" 1 g) (field "d" 1 g) in
              if date_ok d
              then Ok (DateTime d (field "H" 0 g) (field "M" 0 g) 0 0)
              else Raise ValueError
          end
      end
  end.

Definition digit (n : Z) : ascii := ascii_of_N (48 + Z.to_N (n mod 10)).

Definition pad2 (n : Z) : string :=
  String (digit (n / 10)) (String (digit n) "").

Definition pad4 (n : Z) : string :=
  String (digit (n / 1000)) (String (digit (n / 100))
    (String (digit (n / 10)) (String (digit n) ""))).

(** [strftime] for the directives in use.  The year is written with four
    digits, as every year from 1000 on is; below 1000 the C library may drop
    the leading zeros. *)
Fixpoint strftime (t : datetime) (format : string) : string :=
  match format with
  | EmptyString => ""
  | String c rest =>
      if Ascii.eqb c "%" then
        match rest with
        | String x rest' =>
            (if Ascii.eqb x "Y" then pad4 (year (dt_date t))
             else if Ascii.eqb x "m" then pad2 (month (dt_date t))
             else if Ascii.eqb x "d" then pad2 (day (dt_date t))
             else if Ascii.eqb x "H" then pad2 (hour t)
             else if Ascii.eqb x "M" then pad2 (minute t)
             else String c (String x "")) ++ strftime t rest'
        | EmptyString => String c ""
        end
      else String c (strftime t rest)
  end.

(** [date.strftime]. *)
Definition date_strftime (d : date) (format : string) : string :=
  strftime (DateTime d 0 0 0 0) format.

End Strptime.

(** ** The store and the command monad *)

Inductive jval :=
| JStr (s : string)
| JNum (q : Q).

Global Instance Q_eq_dec : EqDecision Q.
Proof. solve_decision. Defined.

Global Instance jval_eq_dec : EqDecision jval.
Proof. solve_decision. Defined.

Abbreviation dict := (gmap string jval).
Abbreviation store := (gmap string (gmap string jval)).

(** What the program prints, one constructor per message that tells an
    outcome; listings and the formatted summaries are left out. *)
Inductive message :=
| MsgInvalidTimeFormat
| MsgWorkStartLogged (date_str time_str : string)
| MsgNoStartFound (date_str : string)
| MsgWorkEndLogged (date_str time_str : string)
| MsgWeeklyTotal (hours : Q)
| MsgEntriesCleared
| MsgRecalculated (count : nat)
| MsgLunchUpdated (minutes : Q)
| MsgInvalidDuration
| MsgInvalidNumber
| MsgConfigurationCancelled
| MsgInvalidChoice
| MsgNoLogsToEdit
| MsgInvalidDateFormat
| MsgCreatedEntry (date_str : string)
| MsgStartUpdated (time_str : string)
| MsgStartNotChanged
| MsgEndUpdated (time_str : string)
| MsgEndNotChanged
| MsgHoursRecalculated
| MsgChangesSaved (date_str : string)
| MsgNoLogsToDelete
| MsgNoEntryFound (date_str : string)
| MsgEntryDeleted (date_str : string)
| MsgDeletionCancelled.

Global Instance message_eq_dec : EqDecision message.
Proof. solve_decision. Defined.

(** [data] is [self.data]; [file] is what the data file holds, that is the
    argument of the last [json.dump]; [stdout] is what was printed. *)
Record WorkLogger := mkWorkLogger {
  data : store;
  file : store;
  stdout : list message
}.

Global Instance WorkLogger_eq_dec : EqDecision WorkLogger.
Proof. solve_decision. Defined.

Definition M (A : Type) : Type := WorkLogger -> result A * WorkLogger.

Definition ret {A} (a : A) : M A := fun self => (Ok a, self).

Definition bind {A B} (c : M A) (k : A -> M B) : M B := fun self =>
  match c self with
  | (Ok a, self') => k a self'
  | (Raise e, self') => (Raise e, self')
  end.

Notation "'let*' x ':=' c1 'in' c2" := (bind c1 (fun x => c2))
  (at level 10, x binder, c1 at level 100, c2 at level 200).

Definition raise {A} (e : exn) : M A := fun self => (Raise e, self).

Definition lift {A} (r : result A) : M A := fun self => (r, self).

Definition get_data : M store := fun self => (Ok (data self), self).

Definition put_data (d : store) : M unit := fun self =>
  (Ok tt, mkWorkLogger d (file self) (stdout self)).

Definition print (m : message) : M unit := fun self =>
  (Ok tt, mkWorkLogger (data self) (file self) (stdout self ++ [m])).

(** [try: c except ValueError: h]. *)
Definition try_except_ValueError {A} (c : M A) (h : M A) : M A := fun self =>
  match c self with
  | (Raise ValueError, self') => h self'
  | r => r
  end.

Definition when (b : bool) (c : M unit) : M unit := if b then c else ret tt.

(** [self.data[k1][k2] = v]. *)
Definition setitem2 (k1 k2 : string) (v : jval) : M unit :=
  let* d := get_data in
  match d !! k1 with
  | None => raise KeyError
  | Some e => put_data (<[k1 := <[k2 := v]> e]> d)
  end.

(** Truth value of a string: [if s:]. *)
Definition nonempty (s : string) : bool :=
  match s with EmptyString => false | String _ _ => true end.

Module WorkLoggerModel.
Import Calendar Strptime PyNum.

Definition default_settings : dict := {[ "lunch_break_minutes" := JNum 30 ]}.

(** [load_data]; [contents] is the parsed data file, [None] when the file is
    missing or is not JSON. *)
Definition load_data (contents : option store) : WorkLogger :=
  let d := default ∅ contents in
  let d :=
    match d !! "settings" with
    | None => <["settings" := default_settings]> d
    | Some s =>
        match s !! "lunch_break_minutes" with
        | None => <["settings" := <["lunch_break_minutes" := JNum 30]> s]> d
        | Some _ => d
        end
    end in
  mkWorkLogger d (default ∅ contents) [].

Definition save_data : M unit := fun self =>
  (Ok tt, mkWorkLogger (data self) (data self) (stdout self)).

(** A number read from the store.  Text where a number is expected makes
    Python raise [TypeError] at the first arithmetic on it; the model raises
    it where the value is read. *)
Definition number (v : jval) : result Q :=
  match v with JNum q => Ok q | JStr _ => Raise TypeError end.

Definition get_lunch_break_minutes : M Q :=
  let* d := get_data in
  match d !! "settings" with
  | None => raise KeyError
  | Some s =>
      match s !! "lunch_break_minutes" with
      | None => raise KeyError
      | Some v => lift (number v)
      end
  end.

Definition set_lunch_break_minutes (minutes : Q) : M unit :=
  let* _ := setitem2 "settings" "lunch_break_minutes" (JNum minutes) in
  save_data.

(** [strptime(f"{date_str} {value}", "%Y-%m-%d %H:%M")].  A number written
    out has no colon, so it never matches. *)
Definition entry_time (date_str : string) (v : jval) : result datetime :=
  match v with
  | JStr s => strptime (date_str ++ " " ++ s) "%Y-%m-%d %H:%M"
  | JNum _ => Raise ValueError
  end.

(** The computation shared, line for line, by [log_end],
    [recalculate_all_entries] and [edit_past_day]: the values stored under
    ["hours_worked"] and ["total_minutes"]. *)
Definition worked (start_datetime end_datetime : datetime) (lunch_minutes : Q)
  : Q * Z :=
  let end_datetime :=
    if datetime_lt end_datetime start_datetime
    then datetime_add end_datetime DAY_US
    else end_datetime in
  let total_minutes :=
    total_minutes_of (datetime_sub end_datetime start_datetime) in
  let worked_minutes := (total_minutes - lunch_minutes)%Q in
  let worked_hours := (worked_minutes / 60)%Q in
  (round2 worked_hours, int_of worked_minutes).

Definition store_worked (entry : dict) (w : Q * Z) : dict :=
  <["total_minutes" := JNum (of_Z (snd w))]>
    (<["hours_worked" := JNum (fst w)]> entry).

(** The body of the loop of [recalculate_all_entries] for one item:
    [Some] the entry as rewritten, [None] when the item is passed over. *)
Definition recalculate_entry (lunch_minutes : Q) (date_str : string)
  (entry : dict) : option dict :=
  if String.eqb date_str "settings" then None
  else
    match entry !! "start", entry !! "end" with
    | Some vs, Some ve =>
        match entry_time date_str vs with
        | Raise _ => None
        | Ok start_datetime =>
            match entry_time date_str ve with
            | Raise _ => None
            | Ok end_datetime =>
                Some (store_worked entry
                        (worked start_datetime end_datetime lunch_minutes))
            end
        end
    | _, _ => None
    end.

Definition recalculate_all_entries : M unit :=
  let* lunch_minutes := get_lunch_break_minutes in
  let* d := get_data in
  let recalculated_count :=
    size (map_imap (recalculate_entry lunch_minutes) d) in
  let* _ :=
    put_data (map_imap (fun date_str entry =>
      Some (default entry (recalculate_entry lunch_minutes date_str entry))) d) in
  if (0 <? recalculated_count)%nat
  then let* _ := save_data in print (MsgRecalculated recalculated_count)
  else ret tt.

(** [configure_lunch_break]; [choice] is the stripped menu input and
    [custom_input] the result of [int(input().strip())], [None] when that
    raises [ValueError]. *)
Definition configure_lunch_break (choice : string) (custom_input : option Z)
  : M unit :=
  let* current_minutes := get_lunch_break_minutes in
  let apply (new_minutes : Q) : M unit :=
    let* _ := set_lunch_break_minutes new_minutes in
    let* _ := print (MsgLunchUpdated new_minutes) in
    recalculate_all_entries in
  if String.eqb choice "1" then apply 0%Q
  else if String.eqb choice "2" then apply 15%Q
  else if String.eqb choice "3" then apply 30%Q
  else if String.eqb choice "4" then apply 45%Q
  else if String.eqb choice "5" then apply 60%Q
  else if String.eqb choice "6" then
    match custom_input with
    | Some custom_minutes =>
        if (0 <=? custom_minutes) && (custom_minutes <=? 120)
        then apply (of_Z custom_minutes)
        else print MsgInvalidDuration
    | None => print MsgInvalidNumber
    end
  else if String.eqb choice "7" then print MsgConfigurationCancelled
  else print MsgInvalidChoice.

Definition clear_previous_entries : M unit :=
  let* d := get_data in
  let settings := default default_settings (d !! "settings") in
  let* _ := put_data {[ "settings" := settings ]} in
  let* _ := save_data in
  print MsgEntriesCleared.

Definition is_first_monday_input (target_date : date) : M bool :=
  let* d := get_data in
  if negb (weekday target_date =? 0) then ret false
  else
    let date_str := date_strftime target_date "%Y-%m-%d" in
    ret (match d !! date_str with
         | None => true
         | Some entry => bool_decide (entry = ∅)
         end).

Definition get_week_start (d : date) : date :=
  date_add_days d (- weekday d).

(** One turn of the loop of [get_weekly_hours]. *)
Definition weekly_step (d : store) (week_start : date)
  (acc : result (Q * list string)) (i : nat) : result (Q * list string) :=
  rbind acc (fun '(total_hours, week_dates) =>
    let day_i := date_add_days week_start (Z.of_nat i) in
    let date_str := date_strftime day_i "%Y-%m-%d" in
    let week_dates := (week_dates ++ [date_str])%list in
    match d !! date_str with
    | Some entry =>
        rbind (number (default (JNum 0) (entry !! "hours_worked")))
          (fun hours => Ok ((total_hours + hours)%Q, week_dates))
    | None => Ok (total_hours, week_dates)
    end).

Definition get_weekly_hours (target_date : date) : M (Q * list string) :=
  let* d := get_data in
  let week_start := get_week_start target_date in
  lift (fold_left (weekly_step d week_start) (seq 0 7) (Ok (0%Q, []))).


(** The dictionary returned by [get_current_work_time]. *)
Record work_info := mkWorkInfo {
  start_time : jval;
  elapsed_hours : Z;
  elapsed_minutes : Z;
  work_hours : Z;
  work_minutes : Q;
  total_work_minutes : Q;
  weekly_hours : Q;
  current_day_hours : Q;
  remaining_weekly_hours : Q;
  lunch_minutes : Q;
  time_to_leave_7h : option string;
  hours_until_7h : Z;
  mins_until_7h : Q;
  daily_target_reached : bool;
  show_35h_target : bool;
  time_to_leave_35h : option string;
  hours_until_35h : Z;
  mins_until_35h : Z;
  weekly_target_reached : bool;
  minutes_needed_for_35h : Z
}.

Global Instance work_info_eq_dec : EqDecision work_info.
Proof. solve_decision. Defined.

(** [x // 60] and [x % 60] on numbers. *)
Definition floordiv60 (x : Q) : Z := floor (x / 60).
Definition mod60 (x : Q) : Q := (x - 60 * of_Z (floordiv60 x))%Q.

(** The body of the [try] block of [get_current_work_time] once the start
    time, the lunch setting and the weekly hours have been read. *)
Definition projection (start : jval) (start_datetime current_time : datetime)
  (lunch : Q) (weekly : Q) : work_info :=
  let elapsed := datetime_sub current_time start_datetime in
  let total_minutes := int_of (total_minutes_of elapsed) in
  let hours := total_minutes / 60 in
  let minutes := total_minutes mod 60 in
  let work_minutes :=
    (of_Z total_minutes - (if 240 <? total_minutes then lunch else 0))%Q in
  let work_hours := floordiv60 work_minutes in
  let work_mins_remainder := mod60 work_minutes in
  let current_day_hours := (work_minutes / 60)%Q in
  let target_total_minutes := (420 + lunch)%Q in
  let minutes_until_7h := (target_total_minutes - of_Z total_minutes)%Q in
  let '(time_to_leave_7h, hours_until_7h, mins_until_7h) :=
    if Qltb 0 minutes_until_7h then
      let leave_time_7h :=
        datetime_add start_datetime (minutes_delta target_total_minutes) in
      (Some (strftime leave_time_7h "%H:%M"),
       floordiv60 minutes_until_7h, mod60 minutes_until_7h)
    else (None, 0, 0%Q) in
  let remaining_weekly_hours := (35 - weekly)%Q in
  let remaining_weekly_minutes := (remaining_weekly_hours * 60)%Q in
  let minutes_needed_for_35h := (remaining_weekly_minutes - work_minutes)%Q in
  let show_35h_target := Qltb 27 weekly in
  let '(minutes_needed_for_35h, time_to_leave_35h, hours_until_35h,
        mins_until_35h) :=
    if show_35h_target && Qltb 0 minutes_needed_for_35h then
      let minutes_needed_for_35h :=
        if total_minutes <=? 240
        then (minutes_needed_for_35h + lunch)%Q
        else minutes_needed_for_35h in
      let total_minutes_for_35h :=
        (of_Z total_minutes + minutes_needed_for_35h)%Q in
      let leave_time_35h :=
        datetime_add start_datetime (minutes_delta total_minutes_for_35h) in
      (minutes_needed_for_35h, Some (strftime leave_time_35h "%H:%M"),
       int_of minutes_needed_for_35h / 60,
       int_of minutes_needed_for_35h mod 60)
    else (minutes_needed_for_35h, None, 0, 0) in
  {| start_time := start;
     elapsed_hours := hours;
     elapsed_minutes := minutes;
     work_hours := work_hours;
     work_minutes := work_mins_remainder;
     total_work_minutes := work_minutes;
     weekly_hours := weekly;
     current_day_hours := current_day_hours;
     remaining_weekly_hours := remaining_weekly_hours;
     lunch_minutes := lunch;
     time_to_leave_7h := time_to_leave_7h;
     hours_until_7h := hours_until_7h;
     mins_until_7h := mins_until_7h;
     daily_target_reached := Qleb minutes_until_7h 0;
     show_35h_target := show_35h_target;
     time_to_leave_35h := time_to_leave_35h;
     hours_until_35h := hours_until_35h;
     mins_until_35h := mins_until_35h;
     weekly_target_reached := Qleb remaining_weekly_hours current_day_hours;
     minutes_needed_for_35h := Z.max 0 (int_of minutes_needed_for_35h) |}.

Definition get_current_work_time (now : datetime) : M (option work_info) :=
  let today := date_strftime (dt_date now) "%Y-%m-%d" in
  let* d := get_data in
  match d !! today with
  | None => ret None
  | Some entry =>
      match entry !! "start", entry !! "end" with
      | None, _ => ret None
      | Some _, Some _ => ret None
      | Some start, None =>
          try_except_ValueError
            (let* start_datetime := lift (entry_time today start) in
             let* lunch := get_lunch_break_minutes in
             let* weekly := get_weekly_hours (dt_date now) in
             ret (Some (projection start start_datetime now lunch (fst weekly))))
            (ret None)
      end
  end.

(** The time a logging command refers to: the argument read as [%H:%M] on
    today's date, or the clock when the argument is absent or empty. *)
Definition command_time (time_str : option string) (now : datetime)
  : result datetime :=
  match time_str with
  | Some s =>
      if nonempty s
      then rbind (strptime s "%H:%M")
             (fun t => Ok (replace_date t (dt_date now)))
      else Ok now
  | None => Ok now
  end.

Definition log_start (time_str : option string) (now : datetime) : M bool :=
  let* first := is_first_monday_input (dt_date now) in
  let* _ := when first clear_previous_entries in
  let* parsed :=
    try_except_ValueError
      (let* t := lift (command_time time_str now) in ret (Some t))
      (let* _ := print MsgInvalidTimeFormat in ret None) in
  match parsed with
  | None => ret false
  | Some start_time =>
      let date_str := strftime start_time "%Y-%m-%d" in
      let* d := get_data in
      let* _ :=
        match d !! date_str with
        | None => put_data (<[date_str := ∅]> d)
        | Some _ => ret tt
        end in
      let* _ :=
        setitem2 date_str "start" (JStr (strftime start_time "%H:%M")) in
      let* _ := save_data in
      let* _ :=
        print (MsgWorkStartLogged date_str (strftime start_time "%H:%M")) in
      ret true
  end.

Definition log_end (time_str : option string) (now : datetime) : M bool :=
  let* first := is_first_monday_input (dt_date now) in
  let* _ := when first clear_previous_entries in
  let* parsed :=
    try_except_ValueError
      (let* t := lift (command_time time_str now) in ret (Some t))
      (let* _ := print MsgInvalidTimeFormat in ret None) in
  match parsed with
  | None => ret false
  | Some end_time =>
      let date_str := strftime end_time "%Y-%m-%d" in
      let* d := get_data in
      let* _ :=
        match d !! date_str with
        | None => put_data (<[date_str := ∅]> d)
        | Some _ => ret tt
        end in
      let* d := get_data in
      match d !! date_str ≫= (.!! "start") with
      | None => let* _ := print (MsgNoStartFound date_str) in ret false
      | Some start =>
          let* _ :=
            setitem2 date_str "end" (JStr (strftime end_time "%H:%M")) in
          let* start_datetime := lift (entry_time date_str start) in
          let* lunch_minutes := get_lunch_break_minutes in
          let w := worked start_datetime end_time lunch_minutes in
          let* _ := setitem2 date_str "hours_worked" (JNum (fst w)) in
          let* _ := setitem2 date_str "total_minutes" (JNum (of_Z (snd w))) in
          let* _ := save_data in
          let* _ :=
            print (MsgWorkEndLogged date_str (strftime end_time "%H:%M")) in
          let* weekly := get_weekly_hours (dt_date now) in
          let* _ := print (MsgWeeklyTotal (fst weekly)) in
          ret true
      end
  end.

(** The entries other than the settings: [work_entries]. *)
Definition work_entries (d : store) : store := delete "settings" d.

(** [edit_past_day]; the three arguments are the stripped answers to the
    three prompts. *)
Definition edit_past_day (date_input new_start new_end : string) : M unit :=
  let* d := get_data in
  if bool_decide (work_entries d = ∅) then print MsgNoLogsToEdit
  else if negb (nonempty date_input) then ret tt
  else
    match strptime date_input "%Y-%m-%d" with
    | Raise _ => print MsgInvalidDateFormat
    | Ok _ =>
        let* _ :=
          match d !! date_input with
          | None =>
              let* _ := put_data (<[date_input := ∅]> d) in
              print (MsgCreatedEntry date_input)
          | Some _ => ret tt
          end in
        let* _ :=
          if nonempty new_start then
            match strptime new_start "%H:%M" with
            | Ok _ =>
                let* _ := setitem2 date_input "start" (JStr new_start) in
                print (MsgStartUpdated new_start)
            | Raise _ => print MsgStartNotChanged
            end
          else ret tt in
        let* _ :=
          if nonempty new_end then
            match strptime new_end "%H:%M" with
            | Ok _ =>
                let* _ := setitem2 date_input "end" (JStr new_end) in
                print (MsgEndUpdated new_end)
            | Raise _ => print MsgEndNotChanged
            end
          else ret tt in
        let* d := get_data in
        let* _ :=
          match d !! date_input ≫= (.!! "start"),
                d !! date_input ≫= (.!! "end") with
          | Some start_str, Some end_str =>
              let* start_datetime := lift (entry_time date_input start_str) in
              let* end_datetime := lift (entry_time date_input end_str) in
              let* lunch_minutes := get_lunch_break_minutes in
              let w := worked start_datetime end_datetime lunch_minutes in
              let* _ := setitem2 date_input "hours_worked" (JNum (fst w)) in
              let* _ :=
                setitem2 date_input "total_minutes" (JNum (of_Z (snd w))) in
              print MsgHoursRecalculated
          | _, _ => ret tt
          end in
        let* _ := save_data in
        print (MsgChangesSaved date_input)
    end.

(** [delete_day]; [confirm] is the answer to the confirmation prompt,
    stripped and in lower case. *)
Definition delete_day (date_input confirm : string) : M unit :=
  let* d := get_data in
  if bool_decide (work_entries d = ∅) then print MsgNoLogsToDelete
  else if negb (nonempty date_input) then ret tt
  else if bool_decide (d !! date_input = None) || String.eqb date_input "settings"
  then print (MsgNoEntryFound date_input)
  else if String.eqb confirm "y" || String.eqb confirm "yes" then
    let* _ := put_data (delete date_input d) in
    let* _ := save_data in
    print (MsgEntryDeleted date_input)
  else print MsgDeletionCancelled.

End WorkLoggerModel.

(** ** The counter, the views and the menu

    These methods read the store and print.  What they print is returned
    as a list of lines, one constructor per line, with the values shown
    as arguments and the wording left out; the lines printed before an
    exception escapes are not kept. *)

Module Shell.
Import Calendar Strptime PyNum WorkLoggerModel.

(** What follows the work time on its line. *)
Inductive lunch_note :=
| LunchDeducted (lunch_minutes : Q)
| LunchWillBeDeducted (lunch_minutes : Q)
| NoLunchBreak.

Inductive line :=
| LSessionActive
| LStarted (start : jval)
| LElapsed (hours minutes : Z)
| LWorkTime (hours : Z) (minutes : Q) (note : lunch_note)
| LWeeklyProgress (weekly remaining : Q)
| LWeeklyTargetReached
| LDailyTargetReached
| LLeaveFor35h (leave_at : option string) (hours minutes : Z)
| LLeaveDaily (leave_at : option string) (hours minutes : Z)
| LLeaveWeekly (leave_at : option string) (hours minutes : Z)
| LWeeklyAlreadyReached
| LBlank
| LTodayHeader (date_str : string)
| LStart (start : jval)
| LEnd (end_ : jval)
| LHoursWorked (hours : jval)
| LWeeklyTotal (hours : Q)
| LNoLogToday (date_str : string)
| LWeekHeader (date_str : string)
| LDay (worked : bool) (day_name : Z) (date_str : string) (hours : Q)
| LDayNoLog (day_name : Z) (date_str : string)
| LWeekTotal (hours : Q)
| LRemaining (hours : Q)
| LTargetReached
| LLunchSetting (lunch_minutes : Q)
| LLunchDisabled
| LNoLogs
| LAllHeader
| LWeekOf (date_str : string)
| LWeekSubtotal (hours : Q)
| LEntry (date_str : string) (start end_ : jval) (hours : Q)
| LGrandTotal (hours : Q)
| LGoodbye
| LInvalidChoice.

Global Instance lunch_note_eq_dec : EqDecision lunch_note.
Proof. solve_decision. Defined.

Global Instance line_eq_dec : EqDecision line.
Proof. solve_decision. Defined.

(** Truth value of a text or [None]. *)
Definition truthy (s : option string) : bool :=
  match s with Some s => nonempty s | None => false end.

(** Python tells an int from a float, the rationals of this model do not.
    The counter depends on the difference at one place: the format [02d]
    takes an int and raises [ValueError] for a float.  There a number
    stands for an int exactly when it is whole. *)
Definition is_int (x : Q) : bool := Qnum x mod Zpos (Qden x) =? 0.

(** [format(x, "02d")]: the int that is shown. *)
Definition format_02d (x : Q) : result Z :=
  if is_int x then Ok (floor x) else Raise ValueError.

(** The lines of [display_work_counter] for an active session.  The
    countdowns are shown with the format [02d].  The hours and minutes to
    the weekly target are ints in every case ([int(..) // 60] and
    [int(..) % 60], or the literal 0).  Those to the daily target are the
    quotient and the remainder of [minutes_until_7h] by 60, ints or floats
    together; the record keeps the quotient as an integer, so the format is
    applied to the remainder. *)
Definition counter_lines (work_info : work_info) : result (list line) :=
  let head :=
    ([LSessionActive; LStarted (start_time work_info);
      LElapsed (elapsed_hours work_info) (elapsed_minutes work_info)]
     ++ (if Qltb 0 (total_work_minutes work_info) then
           [LWorkTime (work_hours work_info) (work_minutes work_info)
              (if Qltb 0 (lunch_minutes work_info) then
                 if Qltb 240 (total_work_minutes work_info)
                 then LunchDeducted (lunch_minutes work_info)
                 else LunchWillBeDeducted (lunch_minutes work_info)
               else NoLunchBreak)]
         else [])
     ++ [LWeeklyProgress (weekly_hours work_info)
           (remaining_weekly_hours work_info)])%list in
  rbind
    (if weekly_target_reached work_info then Ok [LWeeklyTargetReached]
     else if daily_target_reached work_info then
       Ok (LDailyTargetReached ::
           (if show_35h_target work_info && truthy (time_to_leave_35h work_info)
            then [LLeaveFor35h (time_to_leave_35h work_info)
                    (hours_until_35h work_info) (mins_until_35h work_info)]
            else []))
     else
       rbind (format_02d (mins_until_7h work_info)) (fun mins =>
         Ok (LLeaveDaily (time_to_leave_7h work_info)
               (hours_until_7h work_info) mins ::
             (if show_35h_target work_info then
                if truthy (time_to_leave_35h work_info)
                then [LLeaveWeekly (time_to_leave_35h work_info)
                        (hours_until_35h work_info) (mins_until_35h work_info)]
                else [LWeeklyAlreadyReached]
              else []))))
    (fun rule => Ok (head ++ rule ++ [LBlank])%list).

Definition display_work_counter (now : datetime) : M (list line) :=
  let* work_info := get_current_work_time now in
  match work_info with
  | Some work_info => lift (counter_lines work_info)
  | None => ret []
  end.

Definition view_today (now : datetime) : M (list line) :=
  let today := date_strftime (dt_date now) "%Y-%m-%d" in
  let* d := get_data in
  match d !! today with
  | Some entry =>
      let* weekly := get_weekly_hours (dt_date now) in
      ret ([LTodayHeader today;
            LStart (default (JStr "Not logged") (entry !! "start"));
            LEnd (default (JStr "Not logged") (entry !! "end"))]
           ++ match entry !! "hours_worked" with
              | Some hours => [LHoursWorked hours]
              | None => []
              end
           ++ [LWeeklyTotal (fst weekly); LBlank])%list
  | None => ret [LNoLogToday today]
  end.

(** The lines that show the lunch setting at the foot of a view. *)
Definition lunch_line (lunch_minutes : Q) : line :=
  if Qltb 0 lunch_minutes then LLunchSetting lunch_minutes else LLunchDisabled.

(** One turn of the loop of [view_week]; [%A] is given as the number of
    the weekday. *)
Definition view_week_step (d : store) (week_start : date)
  (acc : result (Q * list line)) (i : nat) : result (Q * list line) :=
  rbind acc (fun '(total_hours, lines) =>
    let day_i := date_add_days week_start (Z.of_nat i) in
    let date_str := date_strftime day_i "%Y-%m-%d" in
    let day_name := weekday day_i in
    match d !! date_str with
    | Some entry =>
        rbind (number (default (JNum 0) (entry !! "hours_worked")))
          (fun hours =>
             Ok ((total_hours + hours)%Q,
                 (lines ++ [LDay (Qltb 0 hours) day_name date_str hours])%list))
    | None => Ok (total_hours, (lines ++ [LDayNoLog day_name date_str])%list)
    end).

Definition view_week (now : datetime) : M (list line) :=
  let week_start := get_week_start (dt_date now) in
  let* d := get_data in
  let* week :=
    lift (fold_left (view_week_step d week_start) (seq 0 7) (Ok (0%Q, []))) in
  let total_hours := fst week in
  let remaining := (35 - total_hours)%Q in
  let* lunch_minutes := get_lunch_break_minutes in
  ret ([LWeekHeader (date_strftime week_start "%Y-%m-%d")]
       ++ snd week
       ++ [LWeekTotal total_hours;
           if Qltb 0 remaining then LRemaining remaining else LTargetReached;
           lunch_line lunch_minutes; LBlank])%list.

(** [sorted(work_entries.keys())] with the entry of each key: text is
    ordered character by character. *)
Definition key_le (a b : string * dict) : Prop :=
  String.leb (fst a) (fst b) = true.

Global Instance key_le_dec a b : Decision (key_le a b).
Proof. unfold key_le. apply _. Defined.

Definition sorted_items (entries : store) : list (string * dict) :=
  merge_sort key_le (map_to_list entries).

(** The variables of the loop of [view_all]. *)
Record all_state := mkAllState {
  total_hours : Q;
  current_week_start : option date;
  week_total : Q;
  lines : list line
}.

Definition view_all_step (acc : result all_state) (item : string * dict)
  : result all_state :=
  rbind acc (fun st =>
    let '(date_str, entry) := item in
    rbind (number (default (JNum 0) (entry !! "hours_worked"))) (fun hours =>
    rbind (strptime date_str "%Y-%m-%d") (fun date_obj =>
      let week_start := get_week_start (dt_date date_obj) in
      let new_week :=
        negb (bool_decide (current_week_start st = Some week_start)) in
      let closing :=
        if new_week then
          (match current_week_start st with
           | Some _ => [LWeekSubtotal (week_total st)]
           | None => []
           end ++ [LWeekOf (date_strftime week_start "%Y-%m-%d")])%list
        else [] in
      Ok {| total_hours := (total_hours st + hours)%Q;
            current_week_start := Some week_start;
            week_total := ((if new_week then 0 else week_total st) + hours)%Q;
            lines :=
              (lines st ++ closing
               ++ [LEntry date_str
                     (default (JStr "N/A") (entry !! "start"))
                     (default (JStr "N/A") (entry !! "end")) hours])%list |}))).

Definition view_all : M (list line) :=
  let* d := get_data in
  let entries := work_entries d in
  if bool_decide (entries = ∅) then ret [LNoLogs]
  else
    let* st :=
      lift (fold_left view_all_step (sorted_items entries)
              (Ok (mkAllState 0 None 0 []))) in
    let* lunch_minutes := get_lunch_break_minutes in
    ret ([LAllHeader] ++ lines st
         ++ match current_week_start st with
            | Some _ => [LWeekSubtotal (week_total st)]
            | None => []
            end
         ++ [LGrandTotal (total_hours st); lunch_line lunch_minutes; LBlank])%list.

(** What the user types during one turn of the menu: the choice and the
    answers to the prompts that the chosen command may show, stripped (and
    the confirmation in lower case) as the program reads them;
    [custom_input] is [int] of the custom duration, [None] when that is no
    number. *)
Record answers := mkAnswers {
  choice : string;
  time_input : string;
  date_input : string;
  new_start : string;
  new_end : string;
  confirm : string;
  lunch_choice : string;
  custom_input : option Z
}.

(** The command chosen in one turn of the loop of [main], after the
    counter has been shown: the lines shown in the turn and whether the
    loop goes on. *)
Definition run_choice (now : datetime) (a : answers) (counter : list line)
  : M (list line * bool) :=
  if String.eqb (choice a) "1" then
    let* _ :=
      if nonempty (time_input a)
      then log_start (Some (time_input a)) now
      else log_start None now in
    ret (counter, true)
  else if String.eqb (choice a) "2" then
    let* _ :=
      if nonempty (time_input a)
      then log_end (Some (time_input a)) now
      else log_end None now in
    ret (counter, true)
  else if String.eqb (choice a) "3" then
    let* shown := view_today now in ret ((counter ++ shown)%list, true)
  else if String.eqb (choice a) "4" then
    let* shown := view_week now in ret ((counter ++ shown)%list, true)
  else if String.eqb (choice a) "5" then
    let* shown := view_all in ret ((counter ++ shown)%list, true)
  else if String.eqb (choice a) "6" then
    let* _ := edit_past_day (date_input a) (new_start a) (new_end a) in
    ret (counter, true)
  else if String.eqb (choice a) "7" then
    let* _ := delete_day (date_input a) (confirm a) in
    ret (counter, true)
  else if String.eqb (choice a) "8" then
    let* _ := configure_lunch_break (lunch_choice a) (custom_input a) in
    ret (counter, true)
  else if String.eqb (choice a) "9" then ret ((counter ++ [LGoodbye])%list, false)
  else ret ((counter ++ [LInvalidChoice])%list, true).

(** One turn of the loop of [main] at the clock [now]. *)
Definition menu_turn (now : datetime) (a : answers) : M (list line * bool) :=
  let* counter := display_work_counter now in
  run_choice now a counter.

(** How a run of [main] over a given list of turns ends. *)
Inductive outcome := Exited | AwaitingInput.

Global Instance outcome_eq_dec : EqDecision outcome.
Proof. solve_decision. Defined.

Fixpoint main_loop (turns : list (datetime * answers)) : M outcome :=
  match turns with
  | [] => ret AwaitingInput
  | (now, a) :: rest =>
      let* shown := menu_turn now a in
      if snd shown then main_loop rest else ret Exited
  end.

(** [main]: the store is loaded, then the menu runs. *)
Definition main (contents : option store) (turns : list (datetime * answers))
  : result outcome * WorkLogger :=
  main_loop turns (load_data contents).

End Shell.

(** ** The data file as any JSON value

    [json.load] returns whatever JSON value the data file holds, and
    [load_data] goes on with it.  The rest of the program is embedded on
    stores, objects of objects; [load_data] is embedded here a second time
    on every JSON value, with the operations of Python that it applies to
    the value: [in], [x[key]] and [x[key] = v], each for a key that is a
    text. *)

Module RawData.
Import WorkLoggerModel.

#[warnings="-register-all"] Inductive json :=
| JNull
| JBool (b : bool)
| JNumber (q : Q)
| JString (s : string)
| JArray (l : list json)
| JObject (m : gmap string json).

Definition is_string (key : string) (x : json) : bool :=
  match x with JString s => String.eqb key s | _ => false end.

(** [p in s] for two texts: [p] occurs in [s]. *)
Fixpoint is_substring (p s : string) : bool :=
  String.prefix p s
  || match s with
     | EmptyString => false
     | String _ s' => is_substring p s'
     end.

(** [key in x]: a key of a dict, an element of a list, a part of a text;
    [None], a bool and a number are not iterable. *)
Definition contains (key : string) (x : json) : result bool :=
  match x with
  | JObject m => Ok (match m !! key with Some _ => true | None => false end)
  | JArray l => Ok (existsb (is_string key) l)
  | JString s => Ok (is_substring key s)
  | JNull | JBool _ | JNumber _ => Raise TypeError
  end.

(** [x[key]]: only a dict takes a text as index. *)
Definition getitem (key : string) (x : json) : result json :=
  match x with
  | JObject m =>
      match m !! key with Some v => Ok v | None => Raise KeyError end
  | _ => Raise TypeError
  end.

(** [x[key] = v]. *)
Definition setitem (key : string) (v x : json) : result json :=
  match x with
  | JObject m => Ok (JObject (<[key := v]> m))
  | _ => Raise TypeError
  end.

(** [load_data]: [contents] is the value parsed from the data file, [None]
    when the file is missing or is not JSON; the result is [self.data]. *)
Definition load_data_json (contents : option json) : result json :=
  let data := default (JObject ∅) contents in
  rbind (contains "settings" data) (fun has_settings =>
    if negb has_settings then
      setitem "settings" (JObject {[ "lunch_break_minutes" := JNumber 30 ]}) data
    else
      rbind (getitem "settings" data) (fun settings =>
      rbind (contains "lunch_break_minutes" settings) (fun has_lunch =>
        if negb has_lunch then
          rbind (setitem "lunch_break_minutes" (JNumber 30) settings)
            (fun settings => setitem "settings" settings data)
        else Ok data))).

(** A store as a JSON value. *)
Definition of_jval (v : jval) : json :=
  match v with JStr s => JString s | JNum q => JNumber q end.

Definition of_dict (e : dict) : json := JObject (of_jval <$> e).

Definition of_store (d : store) : json := JObject (of_dict <$> d).

(** The values on which [load_data] returns: a dict whose settings, if
    any, are a dict, or a list or a text that holds the name of the lunch
    setting. *)
Definition loadable (x : json) : bool :=
  match x with
  | JObject m =>
      match m !! "settings" with
      | None => true
      | Some (JObject _) => true
      | Some (JArray l) => existsb (is_string "lunch_break_minutes") l
      | Some (JString s) => is_substring "lunch_break_minutes" s
      | Some _ => false
      end
  | _ => false
  end.

End RawData.

(** ** Facts about the calendar *)

Module CalendarFacts.
Import Calendar.

Definition cycle_ok (n : Z) : bool :=
  let d := ord2ymd_cycle 1 n in
  ymd2ord (year d) (month d) (day d) =? n + 1.

(** [test] on every integer of [lo, lo + len), by halving. *)
Fixpoint all_range (test : Z -> bool) (fuel : nat) (lo len : Z) : bool :=
  match fuel with
  | O => (len <=? 0) || ((len =? 1) && test lo)
  | S fuel' =>
      let h := len / 2 in
      all_range test fuel' lo h && all_range test fuel' (lo + h) (len - h)
  end.

Lemma all_range_sound test fuel : forall lo len,
  all_range test fuel lo len = true ->
  forall n, lo <= n < lo + len -> test n = true.
Proof.
  induction fuel as [|fuel IH]; intros lo len H n Hn; cbn in H.
  - apply orb_prop in H as [H|H]; [lia|].
    apply andb_prop in H as [H1 H2]. apply Z.eqb_eq in H1.
    replace n with lo by lia. exact H2.
  - apply andb_prop in H as [H1 H2].
    destruct (Z_lt_ge_dec n (lo + len / 2)).
    + apply (IH _ _ H1). lia.
    + apply (IH _ _ H2). lia.
Qed.

Lemma cycle_checked : all_range cycle_ok 18 0 DI400Y = true.
Proof. vm_compute. reflexivity. Qed.

Lemma cycle_ok_all n : 0 <= n < DI400Y -> cycle_ok n = true.
Proof. apply (all_range_sound _ _ _ _ cycle_checked). Qed.

Lemma is_leap_period y q : is_leap (y + 400 * q) = is_leap y.
Proof.
  unfold is_leap.
  replace ((y + 400 * q) mod 4) with (y mod 4)
    by (replace (y + 400 * q) with (y + (100 * q) * 4) by lia;
        now rewrite Z.mod_add by lia).
  replace ((y + 400 * q) mod 100) with (y mod 100)
    by (replace (y + 400 * q) with (y + (4 * q) * 100) by lia;
        now rewrite Z.mod_add by lia).
  replace ((y + 400 * q) mod 400) with (y mod 400)
    by (replace (y + 400 * q) with (y + q * 400) by lia;
        now rewrite Z.mod_add by lia).
  reflexivity.
Qed.

Lemma ymd2ord_period y m d q :
  ymd2ord (y + 400 * q) m d = ymd2ord y m d + DI400Y * q.
Proof.
  unfold ymd2ord, days_before_month, days_before_year, DI400Y.
  rewrite is_leap_period. cbv zeta.
  replace (y + 400 * q - 1) with (y - 1 + 400 * q) by lia.
  replace ((y - 1 + 400 * q) / 4) with ((y - 1) / 4 + 100 * q)
    by (replace (y - 1 + 400 * q) with (y - 1 + (100 * q) * 4) by lia;
        now rewrite Z.div_add by lia).
  replace ((y - 1 + 400 * q) / 100) with ((y - 1) / 100 + 4 * q)
    by (replace (y - 1 + 400 * q) with (y - 1 + (4 * q) * 100) by lia;
        now rewrite Z.div_add by lia).
  replace ((y - 1 + 400 * q) / 400) with ((y - 1) / 400 + q)
    by (replace (y - 1 + 400 * q) with (y - 1 + q * 400) by lia;
        now rewrite Z.div_add by lia).
  lia.
Qed.

Lemma ord2ymd_cycle_year y400 n :
  ord2ymd_cycle y400 n =
  let d := ord2ymd_cycle 1 n in Date (year d + (y400 - 1)) (month d) (day d).
Proof.
  unfold ord2ymd_cycle. cbv zeta.
  repeat match goal with
         | |- context [if ?b then _ else _] => destruct b
         end; cbn [year month day]; f_equal; lia.
Qed.

(** [date.fromordinal] and [date.toordinal] are inverse. *)
Lemma toordinal_fromordinal n : toordinal (fromordinal n) = n.
Proof.
  unfold toordinal, fromordinal, ord2ymd. cbv zeta.
  rewrite ord2ymd_cycle_year. cbv zeta. cbn [year month day].
  pose proof (Z.mod_pos_bound (n - 1) DI400Y ltac:(unfold DI400Y; lia)) as Hr.
  pose proof (cycle_ok_all _ Hr) as Hc. unfold cycle_ok in Hc.
  apply Z.eqb_eq in Hc.
  replace ((n - 1) / DI400Y * 400 + 1 - 1) with (400 * ((n - 1) / DI400Y)) by lia.
  rewrite ymd2ord_period, Hc.
  pose proof (Z.div_mod (n - 1) DI400Y ltac:(unfold DI400Y; lia)). lia.
Qed.

Lemma toordinal_add_days d k :
  toordinal (date_add_days d k) = toordinal d + k.
Proof. apply toordinal_fromordinal. Qed.

(** The start of the week is a Monday. *)
Lemma weekday_week_start d : weekday (date_add_days d (- weekday d)) = 0.
Proof.
  unfold weekday at 1. rewrite toordinal_add_days. unfold weekday.
  pose proof (Z.div_mod (toordinal d + 6) 7 ltac:(lia)).
  replace (toordinal d + - ((toordinal d + 6) mod 7) + 6)
    with (0 + ((toordinal d + 6) / 7) * 7) by lia.
  now rewrite Z.mod_add by lia.
Qed.

(** Adding whole days leaves the time of day alone. *)
Lemma tod_us_bounds t : time_ok t = true -> 0 <= tod_us t < DAY_US.
Proof.
  unfold time_ok, tod_us, DAY_US. intros H.
  repeat (apply andb_prop in H as [H ?]). lia.
Qed.

Lemma datetime_add_days t k :
  time_ok t = true ->
  datetime_add t (k * DAY_US) =
  DateTime (date_add_days (dt_date t) k) (hour t) (minute t) (second t)
           (microsecond t).
Proof.
  intros H. pose proof (tod_us_bounds t H) as Hb.
  unfold time_ok in H. repeat (apply andb_prop in H as [H ?]).
  unfold datetime_add. cbv zeta.
  assert (Hq : (tod_us t + k * DAY_US) / DAY_US = k).
  { rewrite Z.div_add by (unfold DAY_US; lia).
    rewrite Z.div_small by lia. lia. }
  assert (Hr : (tod_us t + k * DAY_US) mod DAY_US = tod_us t).
  { rewrite Z.mod_add by (unfold DAY_US; lia). now apply Z.mod_small. }
  rewrite Hq, Hr. unfold tod_us.
  f_equal; (Z.to_euclidean_division_equations; lia).
Qed.

End CalendarFacts.

(** ** Facts about [strptime] and [strftime] *)

Module StrptimeFacts.
Import Calendar Strptime.

Lemma append_cons c s t : String c s ++ t = String c (s ++ t).
Proof. reflexivity. Qed.

Lemma append_nil t : "" ++ t = t.
Proof. reflexivity. Qed.

Ltac append_norm := rewrite ?append_cons, ?append_nil; cbn [app].

Lemma in_range_spec lo hi c :
  in_range lo hi c = true <->
  (N_of_ascii lo <= N_of_ascii c <= N_of_ascii hi)%N.
Proof.
  unfold in_range. rewrite andb_true_iff, !N.leb_le. tauto.
Qed.

Lemma in_rmatch_range lo hi s x :
  In x (rmatch (Range lo hi) s) ->
  exists c s', s = String c s' /\ in_range lo hi c = true /\
               x = (String c "", [], s').
Proof.
  destruct s as [|c s']; cbn; [tauto|].
  destruct (in_range lo hi c) eqn:E; cbn; [|tauto].
  intros [<-|[]]. eauto.
Qed.

Lemma in_rmatch_seq r1 r2 s x :
  In x (rmatch (Seq r1 r2) s) ->
  exists t1 g1 s1 t2 g2 s2,
    In (t1, g1, s1) (rmatch r1 s) /\ In (t2, g2, s2) (rmatch r2 s1) /\
    x = (t1 ++ t2, (g1 ++ g2)%list, s2).
Proof.
  cbn. rewrite in_flat_map. intros [[[t1 g1] s1] [H1 H2]].
  apply in_map_iff in H2 as [[[t2 g2] s2] [<- H2]].
  repeat eexists; eauto.
Qed.

Lemma in_rmatch_alt r1 r2 s x :
  In x (rmatch (Alt r1 r2) s) -> In x (rmatch r1 s) \/ In x (rmatch r2 s).
Proof. cbn. apply in_app_or. Qed.

Lemma in_rmatch_group n r s x :
  In x (rmatch (Group n r) s) ->
  exists t g s', In (t, g, s') (rmatch r s) /\ x = (t, (n, t) :: g, s').
Proof.
  cbn. intros H. apply in_map_iff in H as [[[t g] s'] [<- H]].
  repeat eexists; eauto.
Qed.

Ltac inv_rmatch :=
  repeat match goal with
    | H : In _ (rmatch (lit _) _) |- _ => unfold lit in H
    | H : In _ (rmatch digit_re _) |- _ => unfold digit_re in H
    | H : In _ (rmatch (Range _ _) _) |- _ =>
        apply in_rmatch_range in H as (? & ? & ? & ? & ?)
    | H : In _ (rmatch (Seq _ _) _) |- _ =>
        apply in_rmatch_seq in H as (? & ? & ? & ? & ? & ? & ? & ? & ?)
    | H : In _ (rmatch (Alt _ _) _) |- _ =>
        apply in_rmatch_alt in H as [H|H]
    | H : In _ (rmatch (Group _ _) _) |- _ =>
        apply in_rmatch_group in H as (? & ? & ? & ? & ?)
    | H : (_, _, _) = (_, _, _) |- _ => inversion H; clear H
    | H : String _ _ = String _ _ |- _ => inversion H; clear H
    end; subst.

Lemma in_range_bounds lo hi c a b :
  in_range lo hi c = true -> N_of_ascii lo = a -> N_of_ascii hi = b ->
  (a <= N_of_ascii c <= b)%N.
Proof. intros H <- <-. now apply in_range_spec. Qed.

Ltac range_facts :=
  repeat match goal with
    | H : in_range _ _ _ = true |- _ =>
        eapply in_range_bounds in H;
        [| vm_compute; reflexivity | vm_compute; reflexivity]
    end.

Definition re_H : regex :=
  Group "H" (Alt (Seq (lit "2") (Range "0" "3"))
            (Alt (Seq (Range "0" "1") digit_re) digit_re)).
Definition re_M : regex :=
  Group "M" (Alt (Seq (Range "0" "5") digit_re) digit_re).

Lemma digit_step acc c t :
  (48 <= N_of_ascii c <= 57)%N ->
  int_digits acc (String c t) =
  int_digits (10 * acc + (Z.of_N (N_of_ascii c) - 48)) t.
Proof.
  intros H. cbn [int_digits].
  replace (in_range "0" "9" c) with true; [reflexivity|].
  symmetry. apply in_range_spec. cbn. lia.
Qed.

Lemma rmatch_H_inv s t g rest :
  In (t, g, rest) (rmatch re_H s) ->
  g = [("H"%char, t)] /\ 0 <= int_digits 0 t < 24 /\ s = t ++ rest /\
  exists c t', t = String c t' /\ in_range "0" "9" c = true.
Proof.
  unfold re_H. intros H. inv_rmatch; range_facts; append_norm;
    (split; [reflexivity|]); (split; [|split; [reflexivity|]]).
  all: try (do 2 eexists; (split; [reflexivity|]); apply in_range_spec; cbn; lia).
  all: rewrite ?digit_step by lia; cbn [int_digits]; lia.
Qed.

Lemma rmatch_M_inv s t g rest :
  In (t, g, rest) (rmatch re_M s) ->
  g = [("M"%char, t)] /\ 0 <= int_digits 0 t < 60 /\ s = t ++ rest.
Proof.
  unfold re_M. intros H. inv_rmatch; range_facts; append_norm;
    (split; [reflexivity|]); (split; [|reflexivity]);
    rewrite ?digit_step by lia; cbn [int_digits]; lia.
Qed.

(** *** The search over a whole format *)

Lemma in_sequence_cons r rs g0 s x :
  In x (sequence (r :: rs) (g0, s)) ->
  exists t g1 s1, In (t, g1, s1) (rmatch r s) /\
                  In x (sequence rs ((g0 ++ g1)%list, s1)).
Proof.
  cbn. rewrite in_flat_map. intros [[[t g1] s1] [H1 H2]]. eauto 6.
Qed.

Lemma sequence_head r rs g0 s t g1 s1 l x :
  rmatch r s = (t, g1, s1) :: l ->
  (exists l', sequence rs ((g0 ++ g1)%list, s1) = x :: l') ->
  exists l'', sequence (r :: rs) (g0, s) = x :: l''.
Proof. intros H1 [l' H2]. cbn. rewrite H1. cbn. rewrite H2. eauto. Qed.

Lemma sequence_acc rs : forall g0 s,
  sequence rs (g0, s) =
  map (fun '(g, r) => ((g0 ++ g)%list, r)) (sequence rs ([], s)).
Proof.
  induction rs as [|r rs IH]; intros g0 s.
  - cbn. now rewrite app_nil_r.
  - cbn. induction (rmatch r s) as [|[[t g1] s1] l IHl]; [reflexivity|].
    cbn. rewrite map_app, <- IHl. f_equal.
    rewrite (IH (g0 ++ g1)%list), (IH g1), map_map.
    apply map_ext. intros [g r']. now rewrite app_assoc.
Qed.

Lemma pattern_hm : pattern "%H:%M" = Some [re_H; lit ":"; re_M].
Proof. reflexivity. Qed.

(** What a successful [strptime(s, "%H:%M")] tells. *)
Lemma strptime_hm_inv s t :
  strptime s "%H:%M" = Ok t ->
  exists g l,
    sequence [re_H; lit ":"; re_M] ([], s) = (g, "") :: l /\
    t = DateTime (Date 1900 1 1) (field "H" 0 g) (field "M" 0 g) 0 0 /\
    0 <= hour t < 24 /\ 0 <= minute t < 60 /\
    exists c s', s = String c s' /\ in_range "0" "9" c = true.
Proof.
  unfold strptime. rewrite pattern_hm.
  destruct (sequence _ _) as [|[g rest] l] eqn:E; [discriminate|].
  destruct rest; [|discriminate].
  assert (Hin : In (g, "") (sequence [re_H; lit ":"; re_M] ([], s)))
    by (rewrite E; now left).
  apply in_sequence_cons in Hin as (th & gh & s1 & Hh & Hin).
  apply in_sequence_cons in Hin as (tc & gc & s2 & Hc & Hin).
  apply in_sequence_cons in Hin as (tm & gm & s3 & Hm & Hin).
  cbn in Hin. destruct Hin as [Hin|[]]. inversion Hin; subst; clear Hin.
  apply rmatch_H_inv in Hh as (-> & Hhr & -> & c & t' & -> & Hd).
  apply rmatch_M_inv in Hm as (-> & Hmr & ->).
  inv_rmatch. cbn [app] in *.
  change (date_ok _) with true. cbv iota.
  intros [= <-]. exists [("H"%char, String c t'); ("M"%char, tm)], l.
  split; [reflexivity|]. split; [reflexivity|].
  cbn [hour minute].
  change (field "H" 0 [("H"%char, String c t'); ("M"%char, tm)])
    with (int_digits 0 (String c t')).
  change (field "M" 0 [("H"%char, String c t'); ("M"%char, tm)])
    with (int_digits 0 tm).
  repeat split; try lia.
  rewrite append_cons. eauto.
Qed.

(** *** Reading back what [strftime] wrote *)

Lemma N_of_digit n : N_of_ascii (digit n) = (48 + Z.to_N (n mod 10))%N.
Proof.
  unfold digit. apply N_ascii_embedding.
  pose proof (Z.mod_pos_bound n 10 ltac:(lia)). lia.
Qed.

Lemma in_range_digit n : in_range "0" "9" (digit n) = true.
Proof.
  apply in_range_spec. rewrite N_of_digit. cbn.
  pose proof (Z.mod_pos_bound n 10 ltac:(lia)). lia.
Qed.

Lemma int_digits_digit acc n t :
  int_digits acc (String (digit n) t) = int_digits (10 * acc + n mod 10) t.
Proof.
  cbn [int_digits]. rewrite in_range_digit, N_of_digit. f_equal.
  pose proof (Z.mod_pos_bound n 10 ltac:(lia)). lia.
Qed.

Lemma int_pad2 n : 0 <= n < 100 -> int_digits 0 (pad2 n) = n.
Proof.
  intros H. unfold pad2. rewrite !int_digits_digit. cbn [int_digits].
  Z.to_euclidean_division_equations; lia.
Qed.

Lemma int_pad4 n : 0 <= n < 10000 -> int_digits 0 (pad4 n) = n.
Proof.
  intros H. unfold pad4. rewrite !int_digits_digit. cbn [int_digits].
  Z.to_euclidean_division_equations; lia.
Qed.

Definition re_Y : regex :=
  Group "Y" (Seq digit_re (Seq digit_re (Seq digit_re digit_re))).
Definition re_m : regex :=
  Group "m" (Alt (Seq (lit "1") (Range "0" "2"))
            (Alt (Seq (lit "0") (Range "1" "9")) (Range "1" "9"))).
Definition re_d : regex :=
  Group "d" (Alt (Seq (lit "3") (Range "0" "1"))
            (Alt (Seq (Range "1" "2") digit_re)
            (Alt (Seq (lit "0") (Range "1" "9"))
            (Alt (Range "1" "9") (Seq (lit " ") (Range "1" "9")))))).

Lemma pattern_ymd_hm :
  pattern "%Y-%m-%d %H:%M" =
  Some [re_Y; lit "-"; re_m; lit "-"; re_d; Spaces; re_H; lit ":"; re_M].
Proof. reflexivity. Qed.

Lemma pattern_ymd :
  pattern "%Y-%m-%d" = Some [re_Y; lit "-"; re_m; lit "-"; re_d].
Proof. reflexivity. Qed.

Lemma rmatch_Y n rest :
  rmatch re_Y (pad4 n ++ rest) = [(pad4 n, [("Y"%char, pad4 n)], rest)].
Proof.
  unfold pad4. rewrite !append_cons, append_nil.
  cbn [rmatch re_Y digit_re flat_map map app].
  repeat (rewrite in_range_digit; cbn [flat_map map app]).
  now rewrite ?append_cons, ?append_nil.
Qed.

Lemma rmatch_lit c rest : rmatch (lit c) (String c rest) = [(String c "", [], rest)].
Proof.
  cbn. replace (in_range c c c) with true; [reflexivity|].
  symmetry. apply in_range_spec. lia.
Qed.

(** A property of every integer of [lo, lo + k), one conjunct each. *)
Fixpoint all_from (P : Z -> Prop) (lo : Z) (k : nat) : Prop :=
  match k with
  | O => True
  | S k' => P lo /\ all_from P (lo + 1) k'
  end.

Lemma all_from_spec P k : forall lo,
  all_from P lo k -> forall n, lo <= n < lo + Z.of_nat k -> P n.
Proof.
  induction k as [|k IH]; intros lo H n Hn; [lia|].
  destruct H as [H0 H]. destruct (Z.eq_dec n lo) as [->|Hne]; [exact H0|].
  apply (IH (lo + 1) H). lia.
Qed.

Lemma rmatch_m n rest :
  1 <= n <= 12 ->
  exists l, rmatch re_m (pad2 n ++ rest) = (pad2 n, [("m"%char, pad2 n)], rest) :: l.
Proof.
  intros H. pattern n. apply (all_from_spec _ 12 1); [|lia].
  cbv [all_from]. repeat split; eexists; reflexivity.
Qed.

Lemma rmatch_d n rest :
  1 <= n <= 31 ->
  exists l, rmatch re_d (pad2 n ++ rest) = (pad2 n, [("d"%char, pad2 n)], rest) :: l.
Proof.
  intros H. pattern n. apply (all_from_spec _ 31 1); [|lia].
  cbv [all_from]. repeat split; eexists; reflexivity.
Qed.

Lemma rmatch_one_space c rest :
  in_range "0" "9" c = true ->
  rmatch Spaces (String " " (String c rest)) = [(" ", [], String c rest)].
Proof.
  intros H. cbn.
  replace (is_space c) with false; [reflexivity|].
  symmetry. unfold is_space. range_facts.
  apply orb_false_iff. split; apply andb_false_iff.
  - right. apply N.leb_gt. lia.
  - right. apply N.leb_gt. lia.
Qed.

Lemma days_in_month_le y m : days_in_month y m <= 31.
Proof.
  unfold days_in_month. destruct (_ && _); [lia|].
  destruct (Z.to_nat m) as [|[|[|[|[|[|[|[|[|[|[|[|[|k]]]]]]]]]]]]];
    cbn; try lia. destruct k; cbn; lia.
Qed.

Lemma date_ok_bounds d :
  date_ok d = true ->
  1 <= year d <= 9999 /\ 1 <= month d <= 12 /\ 1 <= day d <= 31.
Proof.
  unfold date_ok. intros H. repeat (apply andb_prop in H as [H ?]).
  pose proof (days_in_month_le (year d) (month d)). lia.
Qed.

(** A time that reads as [%H:%M], written after the date as [strftime]
    prints it, reads as [%Y-%m-%d %H:%M] with the same hour and minute
    on that date. *)
Lemma strptime_on_date d s t :
  date_ok d = true ->
  strptime s "%H:%M" = Ok t ->
  strptime (date_strftime d "%Y-%m-%d" ++ " " ++ s) "%Y-%m-%d %H:%M"
  = Ok (replace_date t d).
Proof.
  intros Hd Ht. pose proof (date_ok_bounds d Hd) as (Hy & Hm & Hdd).
  apply strptime_hm_inv in Ht as (g & l & Hs & -> & _ & _ & c & s' & -> & Hc).
  unfold strptime. rewrite pattern_ymd_hm.
  assert (exists l',
    sequence [re_Y; lit "-"; re_m; lit "-"; re_d; Spaces; re_H; lit ":"; re_M]
      ([], date_strftime d "%Y-%m-%d" ++ " " ++ String c s') =
    (([("Y"%char, pad4 (year d)); ("m"%char, pad2 (month d));
       ("d"%char, pad2 (day d))] ++ g)%list, "") :: l') as [l' ->].
  { change (date_strftime d "%Y-%m-%d" ++ " " ++ String c s')
      with (pad4 (year d) ++ String "-" (pad2 (month d) ++
              String "-" (pad2 (day d) ++ String " " (String c s')))).
    destruct (rmatch_m (month d)
                (String "-" (pad2 (day d) ++ String " " (String c s'))) Hm)
      as [lm Em].
    destruct (rmatch_d (day d) (String " " (String c s')) Hdd) as [ld Ed].
    eapply sequence_head; [apply rmatch_Y|].
    eapply sequence_head; [apply rmatch_lit|].
    eapply sequence_head; [exact Em|].
    eapply sequence_head; [apply rmatch_lit|].
    eapply sequence_head; [exact Ed|].
    eapply sequence_head; [apply rmatch_one_space; exact Hc|].
    cbn [app]. rewrite sequence_acc, Hs. cbn [map]. eauto. }
  cbn [app].
  change (field "Y" 1900 _) with (int_digits 0 (pad4 (year d))).
  change (field "m" 1 (_ :: _ :: _ :: g)) with (int_digits 0 (pad2 (month d))).
  change (field "d" 1 (_ :: _ :: _ :: g)) with (int_digits 0 (pad2 (day d))).
  change (field "H" 0 (_ :: _ :: _ :: g)) with (field "H" 0 g).
  change (field "M" 0 (_ :: _ :: _ :: g)) with (field "M" 0 g).
  rewrite int_pad4, !int_pad2 by lia.
  destruct d as [y m dd]. cbn [year month day] in *. rewrite Hd.
  reflexivity.
Qed.

(** *** Times written by [strftime] read back *)

Lemma rmatch_H_pad2 n rest :
  0 <= n < 24 ->
  exists l, rmatch re_H (pad2 n ++ rest) = (pad2 n, [("H"%char, pad2 n)], rest) :: l.
Proof.
  intros H. pattern n. apply (all_from_spec _ 24 0); [|lia].
  cbv [all_from]. repeat split; eexists; reflexivity.
Qed.

Lemma rmatch_M_pad2 n rest :
  0 <= n < 60 ->
  exists l, rmatch re_M (pad2 n ++ rest) = (pad2 n, [("M"%char, pad2 n)], rest) :: l.
Proof.
  intros H. pattern n. apply (all_from_spec _ 60 0); [|lia].
  cbv [all_from]. repeat split; eexists; reflexivity.
Qed.

Lemma strptime_strftime_hm t :
  time_ok t = true ->
  strptime (strftime t "%H:%M") "%H:%M"
  = Ok (DateTime (Date 1900 1 1) (hour t) (minute t) 0 0).
Proof.
  intros H. unfold time_ok in H. repeat (apply andb_prop in H as [H ?]).
  assert (Hh : 0 <= hour t < 24) by lia.
  assert (Hm : 0 <= minute t < 60) by lia.
  unfold strptime. rewrite pattern_hm.
  assert (exists l,
    sequence [re_H; lit ":"; re_M] ([], strftime t "%H:%M") =
    ([("H"%char, pad2 (hour t)); ("M"%char, pad2 (minute t))], "") :: l)
    as [l ->].
  { change (strftime t "%H:%M")
      with (pad2 (hour t) ++ String ":" (pad2 (minute t) ++ "")).
    destruct (rmatch_H_pad2 (hour t) (String ":" (pad2 (minute t) ++ "")) Hh)
      as [lh Eh].
    destruct (rmatch_M_pad2 (minute t) "" Hm) as [lm Em].
    eapply sequence_head; [exact Eh|].
    eapply sequence_head; [apply rmatch_lit|].
    eapply sequence_head; [exact Em|].
    cbn. eauto. }
  change (date_ok _) with true. cbv iota.
  change (field "H" 0 _) with (int_digits 0 (pad2 (hour t))).
  change (field "M" 0 _) with (int_digits 0 (pad2 (minute t))).
  now rewrite !int_pad2 by lia.
Qed.

(** What [log_start] and [log_end] write under ["start"] and ["end"] reads
    back as that time on the date of the entry. *)
Lemma logged_time_reads_back d t :
  date_ok d = true -> time_ok t = true ->
  strptime (date_strftime d "%Y-%m-%d" ++ " " ++ strftime t "%H:%M")
    "%Y-%m-%d %H:%M"
  = Ok (DateTime d (hour t) (minute t) 0 0).
Proof.
  intros Hd Ht.
  now rewrite (strptime_on_date d _ _ Hd (strptime_strftime_hm t Ht)).
Qed.

(** No formatted date is the key of the settings. *)
Lemma date_strftime_not_settings d : date_strftime d "%Y-%m-%d" <> "settings".
Proof.
  change (date_strftime d "%Y-%m-%d")
    with (pad4 (year d) ++ String "-" (pad2 (month d) ++ String "-" (pad2 (day d)))).
  unfold pad4. rewrite !append_cons, append_nil. intros H.
  inversion H.
Qed.

Lemma strftime_replace_date t d fmt :
  strftime (replace_date t d) fmt =
  strftime (DateTime d (hour t) (minute t) (second t) (microsecond t)) fmt.
Proof. reflexivity. Qed.

End StrptimeFacts.

(** ** More facts about [strptime] *)

Module StrptimeMore.
Import Calendar Strptime.
Import StrptimeFacts.

Lemma in_range_false lo hi c :
  in_range lo hi c = false ->
  (N_of_ascii c < N_of_ascii lo \/ N_of_ascii hi < N_of_ascii c)%N.
Proof.
  unfold in_range. rewrite andb_false_iff, !N.leb_gt. tauto.
Qed.

Lemma in_range_false_bounds lo hi c a b :
  in_range lo hi c = false -> N_of_ascii lo = a -> N_of_ascii hi = b ->
  (N_of_ascii c < a \/ b < N_of_ascii c)%N.
Proof. intros H <- <-. now apply in_range_false. Qed.

Ltac range_all :=
  repeat match goal with
    | H : in_range _ _ _ = true |- _ =>
        eapply in_range_bounds in H;
        [| vm_compute; reflexivity | vm_compute; reflexivity]
    | H : in_range _ _ _ = false |- _ =>
        eapply in_range_false_bounds in H;
        [| vm_compute; reflexivity | vm_compute; reflexivity]
    end.

(** The head of a search is settled by the tests on the characters read. *)
Ltac head_by_cases :=
  cbn [rmatch re_Y re_m re_d re_H re_M lit digit_re flat_map map app];
  repeat match goal with
    | |- context [in_range ?lo ?hi ?c] =>
        let E := fresh "E" in
        destruct (in_range lo hi c) eqn:E;
        cbn [flat_map map app]
    end;
  first [ eexists; reflexivity | exfalso; range_all; cbn in *; lia ].

Lemma rmatch_Y_digits a b c d rest :
  in_range "0" "9" a = true -> in_range "0" "9" b = true ->
  in_range "0" "9" c = true -> in_range "0" "9" d = true ->
  exists l, rmatch re_Y (String a (String b (String c (String d rest)))) =
    (String a (String b (String c (String d ""))), [("Y"%char, String a (String b (String c (String d ""))))], rest) :: l.
Proof. intros Ha Hb Hc Hd. head_by_cases. Qed.

(** A date that reads as [%Y-%m-%d], as the search finds it. *)
Lemma strptime_ymd_inv k dk :
  strptime k "%Y-%m-%d" = Ok dk ->
  exists g l,
    sequence [re_Y; lit "-"; re_m; lit "-"; re_d] ([], k) = (g, "") :: l /\
    date_ok (Date (field "Y" 1900 g) (field "m" 1 g) (field "d" 1 g)) = true /\
    dk = DateTime (Date (field "Y" 1900 g) (field "m" 1 g) (field "d" 1 g))
           (field "H" 0 g) (field "M" 0 g) 0 0.
Proof.
  unfold strptime. rewrite pattern_ymd.
  destruct (sequence _ _) as [|[g rest] l] eqn:E; [discriminate|].
  destruct rest; [|discriminate].
  destruct (date_ok _) eqn:Hd; [|discriminate].
  intros [= <-]. eauto.
Qed.

Lemma head_unique {A} (x y : A) l l' : x :: l = y :: l' -> x = y.
Proof. now intros [= -> _]. Qed.


Section Shapes.
Variables (a b x : ascii) (rest : string).

Lemma rmatch_m_ten :
  in_range "1" "1" a = true -> in_range "0" "2" b = true ->
  exists l, rmatch re_m (String a (String b rest)) =
    (String a (String b ""), [("m"%char, String a (String b ""))], rest) :: l.
Proof. intros Ha Hb. cbv zeta. head_by_cases. Qed.

Lemma rmatch_m_zero :
  in_range "0" "0" a = true -> in_range "1" "9" b = true ->
  exists l, rmatch re_m (String a (String b rest)) =
    (String a (String b ""), [("m"%char, String a (String b ""))], rest) :: l.
Proof. intros Ha Hb. cbv zeta. head_by_cases. Qed.

Lemma rmatch_m_one :
  in_range "1" "9" a = true -> in_range "-" "-" x = true ->
  exists l, rmatch re_m (String a (String x rest)) =
    (String a "", [("m"%char, String a "")], String x rest) :: l.
Proof. intros Ha Hx. cbv zeta. head_by_cases. Qed.

Lemma rmatch_d_thirty :
  in_range "3" "3" a = true -> in_range "0" "1" b = true ->
  exists l, rmatch re_d (String a (String b rest)) =
    (String a (String b ""), [("d"%char, String a (String b ""))], rest) :: l.
Proof. intros Ha Hb. cbv zeta. head_by_cases. Qed.

Lemma rmatch_d_ten :
  in_range "1" "2" a = true -> in_range "0" "9" b = true ->
  exists l, rmatch re_d (String a (String b rest)) =
    (String a (String b ""), [("d"%char, String a (String b ""))], rest) :: l.
Proof. intros Ha Hb. cbv zeta. head_by_cases. Qed.

Lemma rmatch_d_zero :
  in_range "0" "0" a = true -> in_range "1" "9" b = true ->
  exists l, rmatch re_d (String a (String b rest)) =
    (String a (String b ""), [("d"%char, String a (String b ""))], rest) :: l.
Proof. intros Ha Hb. cbv zeta. head_by_cases. Qed.

Lemma rmatch_d_one :
  in_range "1" "9" a = true ->
  exists l, rmatch re_d (String a (String " " rest)) =
    (String a "", [("d"%char, String a "")], String " " rest) :: l.
Proof. intros Ha. cbv zeta. head_by_cases. Qed.

Lemma rmatch_d_blank :
  in_range " " " " a = true -> in_range "1" "9" b = true ->
  exists l, rmatch re_d (String a (String b rest)) =
    (String a (String b ""), [("d"%char, String a (String b ""))], rest) :: l.
Proof. intros Ha Hb. cbv zeta. head_by_cases. Qed.

Lemma rmatch_dash :
  in_range "-" "-" x = true ->
  rmatch (lit "-") (String x rest) = [(String x "", [], rest)].
Proof. intros Hx. cbn. now rewrite Hx. Qed.

End Shapes.

Lemma sequence_head_ex r rs g0 s t g1 s1 x :
  (exists l, rmatch r s = (t, g1, s1) :: l) ->
  (exists l', sequence rs ((g0 ++ g1)%list, s1) = x :: l') ->
  exists l'', sequence (r :: rs) (g0, s) = x :: l''.
Proof. intros [l H]. now apply sequence_head with (t := t) (l := l). Qed.

Ltac head_step lem :=
  eapply sequence_head_ex; [eapply lem; eassumption|].

Ltac month_head :=
  first [ head_step rmatch_m_ten | head_step rmatch_m_zero | head_step rmatch_m_one ].
Ltac day_head :=
  first [ head_step rmatch_d_thirty | head_step rmatch_d_ten | head_step rmatch_d_zero
        | head_step rmatch_d_one | head_step rmatch_d_blank ].

(** A key that reads as a date, followed by a blank and a text that reads
    as a time, reads as that time on that date. *)
Lemma strptime_date_time k s dk t :
  strptime k "%Y-%m-%d" = Ok dk ->
  strptime s "%H:%M" = Ok t ->
  strptime (k ++ " " ++ s) "%Y-%m-%d %H:%M" = Ok (replace_date t (dt_date dk)).
Proof.
  intros Hk Ht.
  apply strptime_ymd_inv in Hk as (g & l & Hg & Hok & ->).
  apply strptime_hm_inv in Ht as (gt & lt & Hs & -> & _ & _ & c & s' & -> & Hc).
  assert (Hin : In (g, "") (sequence [re_Y; lit "-"; re_m; lit "-"; re_d] ([], k)))
    by (rewrite Hg; now left).
  clear Hg.
  apply in_sequence_cons in Hin as (t1 & g1 & s1 & H1 & Hin).
  apply in_sequence_cons in Hin as (t2 & g2 & s2 & H2 & Hin).
  apply in_sequence_cons in Hin as (t3 & g3 & s3 & H3 & Hin).
  apply in_sequence_cons in Hin as (t4 & g4 & s4 & H4 & Hin).
  apply in_sequence_cons in Hin as (t5 & g5 & s5 & H5 & Hin).
  cbn in Hin. destruct Hin as [Hin|[]]. inversion Hin; subst; clear Hin.
  unfold re_Y, re_m, re_d in H1, H3, H5.
  inv_rmatch.
  all: cbn [app] in *; rewrite ?append_cons, ?append_nil in *.
  all: unfold strptime; rewrite pattern_ymd_hm.
  all: match goal with
       | |- context [sequence ?rs ([], ?K)] =>
           match type of Hok with
           | date_ok (Date (field _ _ ?g) _ _) = true =>
               assert (exists l', sequence rs ([], K) = ((g ++ gt)%list, "") :: l')
                 as [l' ->]
           end
       end.
  all: try (head_step rmatch_Y_digits;
            (eapply sequence_head; [apply rmatch_dash; eassumption|]);
            month_head;
            (eapply sequence_head; [apply rmatch_dash; eassumption|]);
            day_head;
            (eapply sequence_head; [apply rmatch_one_space; exact Hc|]);
            cbn [app]; rewrite sequence_acc, Hs; cbn [map app]; eauto).
  all: cbn [app dt_date].
  all: change (field "H" 0 (_ :: _ :: _ :: gt)) with (field "H" 0 gt).
  all: change (field "M" 0 (_ :: _ :: _ :: gt)) with (field "M" 0 gt).
  all: match type of Hok with
       | date_ok (Date ?y ?m ?d) = true =>
           change (field "Y" 1900 (_ :: _ :: _ :: gt)) with y;
           change (field "m" 1 (_ :: _ :: _ :: gt)) with m;
           change (field "d" 1 (_ :: _ :: _ :: gt)) with d
       end.
  all: rewrite Hok; reflexivity.
Qed.

(** The key [strftime] writes for a date reads back as that date. *)
Lemma strptime_date_key d :
  date_ok d = true ->
  strptime (date_strftime d "%Y-%m-%d") "%Y-%m-%d" = Ok (DateTime d 0 0 0 0).
Proof.
  intros Hd. pose proof (date_ok_bounds d Hd) as (Hy & Hm & Hdd).
  unfold strptime. rewrite pattern_ymd.
  assert (exists l',
    sequence [re_Y; lit "-"; re_m; lit "-"; re_d]
      ([], date_strftime d "%Y-%m-%d") =
    ([("Y"%char, pad4 (year d)); ("m"%char, pad2 (month d));
      ("d"%char, pad2 (day d))], "") :: l') as [l' ->].
  { change (date_strftime d "%Y-%m-%d")
      with (pad4 (year d) ++ String "-" (pad2 (month d) ++
              String "-" (pad2 (day d) ++ ""))).
    destruct (rmatch_m (month d) (String "-" (pad2 (day d) ++ "")) Hm) as [lm Em].
    destruct (rmatch_d (day d) "" Hdd) as [ld Ed].
    eapply sequence_head; [apply rmatch_Y|].
    eapply sequence_head; [apply rmatch_lit|].
    eapply sequence_head; [exact Em|].
    eapply sequence_head; [apply rmatch_lit|].
    eapply sequence_head; [exact Ed|].
    cbn. eauto. }
  change (field "Y" 1900 _) with (int_digits 0 (pad4 (year d))).
  change (field "m" 1 _) with (int_digits 0 (pad2 (month d))).
  change (field "d" 1 _) with (int_digits 0 (pad2 (day d))).
  change (field "H" 0 _) with 0.
  change (field "M" 0 _) with 0.
  rewrite int_pad4, !int_pad2 by lia.
  destruct d as [y m dd]. cbn [year month day] in *. now rewrite Hd.
Qed.

End StrptimeMore.

(** ** Facts about numbers *)

Module PyNumFacts.
Import PyNum.

Lemma round_half_even_proper q1 q2 :
  q1 == q2 -> round_half_even q1 = round_half_even q2.
Proof.
  intros H. unfold round_half_even.
  rewrite (Qfloor_comp _ _ H).
  assert (E : q1 - inject_Z (Qfloor q2) == q2 - inject_Z (Qfloor q2))
    by now rewrite H.
  now rewrite (Qcompare_comp _ _ E (1 # 2) (1 # 2) (Qeq_refl _)).
Qed.

Lemma round2_proper q1 q2 : q1 == q2 -> round2 q1 = round2 q2.
Proof.
  intros H. unfold round2.
  rewrite (round_half_even_proper (q1 * 100) (q2 * 100)); [reflexivity|].
  now rewrite H.
Qed.

Lemma int_of_integer q k : q == inject_Z k -> int_of q = k.
Proof.
  unfold Qeq, int_of. cbn. intros H. rewrite Z.mul_1_r in H. rewrite H.
  apply Z.quot_mul. lia.
Qed.

(** A whole number of minutes, in hundredths of an hour, is never half-way
    between two integers: the rounding mode plays no part. *)
Lemma round_half_even_thirds (m : Z) :
  let q := (inject_Z m / 60 * 100)%Q in
  Qcompare (q - inject_Z (Qfloor q)) (1 # 2) <> Eq.
Proof.
  cbv zeta. intros H. apply Qeq_alt in H.
  set (f := Qfloor (inject_Z m / 60 * 100)) in *.
  assert (E : inject_Z (10 * m) == inject_Z (6 * f + 3)).
  { rewrite !inject_Z_plus, !inject_Z_mult.
    assert (E : inject_Z m / 60 * 100 == inject_Z f + (1 # 2)).
    { rewrite <- H. ring. }
    assert (E2 : inject_Z m == (inject_Z f + (1 # 2)) * (60 # 100)).
    { rewrite <- E. field. }
    rewrite E2. ring. }
  unfold Qeq in E. cbn in E. lia.
Qed.
End PyNumFacts.

(** ** The computation of the hours worked *)

Module WorkedFacts.
Import Calendar Strptime PyNum WorkLoggerModel CalendarFacts PyNumFacts.

(** Minutes since midnight on the wall clock. *)
Definition wall_minutes (t : datetime) : Z := hour t * 60 + minute t.

(** From [start] to [end] in minutes, an end before the start being on
    the next day. *)
Definition span_minutes (start_t end_t : datetime) : Z :=
  let span := wall_minutes end_t - wall_minutes start_t in
  if span <? 0 then span + 1440 else span.

Definition whole_minute (t : datetime) : Prop :=
  time_ok t = true /\ second t = 0 /\ microsecond t = 0.

Lemma total_minutes_whole k : total_minutes_of (k * 60000000) == inject_Z k.
Proof. unfold total_minutes_of, Qeq. cbn. lia. Qed.

Lemma datetime_lt_same_day a b :
  dt_date a = dt_date b -> whole_minute a -> whole_minute b ->
  datetime_lt a b = (wall_minutes a <? wall_minutes b).
Proof.
  intros Hd (Ha & Ha1 & Ha2) (Hb & Hb1 & Hb2).
  unfold time_ok in Ha, Hb.
  repeat (apply andb_prop in Ha as [Ha ?]).
  repeat (apply andb_prop in Hb as [Hb ?]).
  unfold datetime_lt, datetime_key, wall_minutes.
  rewrite Hd, Ha1, Ha2, Hb1, Hb2. cbn [lex_lt].
  rewrite !Z.ltb_irrefl, !Z.eqb_refl. cbn [orb andb].
  destruct (Z.ltb_spec (hour a) (hour b)), (Z.eqb_spec (hour a) (hour b)),
    (Z.ltb_spec (minute a) (minute b)), (Z.eqb_spec (minute a) (minute b));
    cbn; symmetry; try (apply Z.ltb_lt; lia); try (apply Z.ltb_ge; lia).
Qed.

Lemma tod_us_whole t : whole_minute t -> tod_us t = wall_minutes t * 60000000.
Proof. intros (_ & H1 & H2). unfold tod_us, wall_minutes. lia. Qed.

Lemma worked_span start_t end_t lunch :
  dt_date start_t = dt_date end_t ->
  whole_minute start_t -> whole_minute end_t ->
  worked start_t end_t lunch =
  (round2 ((inject_Z (span_minutes start_t end_t) - lunch) / 60),
   int_of (total_minutes_of (span_minutes start_t end_t * 60000000) - lunch)).
Proof.
  intros Hd Hs He. unfold worked.
  rewrite (datetime_lt_same_day end_t start_t) by auto.
  assert (Hus :
    datetime_sub
      (if wall_minutes end_t <? wall_minutes start_t
       then datetime_add end_t DAY_US else end_t) start_t
    = span_minutes start_t end_t * 60000000).
  { unfold span_minutes. cbv zeta.
    destruct (Z.ltb_spec (wall_minutes end_t) (wall_minutes start_t)) as [Hlt|Hge].
    - replace (wall_minutes end_t - wall_minutes start_t <? 0) with true
        by (symmetry; apply Z.ltb_lt; lia).
      change DAY_US with (1 * DAY_US) at 1.
      rewrite datetime_add_days by apply He.
      unfold datetime_sub. cbn [dt_date]. rewrite toordinal_add_days, Hd.
      change (tod_us (DateTime ?d (hour end_t) (minute end_t) (second end_t)
                        (microsecond end_t))) with (tod_us end_t).
      rewrite !tod_us_whole by auto. unfold DAY_US. lia.
    - replace (wall_minutes end_t - wall_minutes start_t <? 0) with false
        by (symmetry; apply Z.ltb_ge; lia).
      unfold datetime_sub. rewrite Hd, !tod_us_whole by auto. lia. }
  rewrite Hus. f_equal. apply round2_proper.
  now rewrite total_minutes_whole.
Qed.

(** With an integer lunch break the stored values are the span less the
    break, and that number of minutes in hours to two decimals. *)
Lemma worked_whole start_t end_t (L : Z) :
  dt_date start_t = dt_date end_t ->
  whole_minute start_t -> whole_minute end_t ->
  worked start_t end_t (inject_Z L) =
  (round2 (inject_Z (span_minutes start_t end_t - L) / 60),
   span_minutes start_t end_t - L).
Proof.
  intros Hd Hs He. rewrite worked_span by auto. f_equal.
  - apply round2_proper. unfold Zminus. rewrite inject_Z_plus, inject_Z_opp. reflexivity.
  - apply int_of_integer. rewrite total_minutes_whole.
    unfold Zminus. rewrite inject_Z_plus, inject_Z_opp. reflexivity.
Qed.
End WorkedFacts.

(** ** The commands, run on an arbitrary state *)

Module CommandFacts.
Import Calendar Strptime PyNum WorkLoggerModel.
Import CalendarFacts StrptimeFacts PyNumFacts WorkedFacts.

#[local] Arguments strftime : simpl never.
#[local] Arguments date_strftime : simpl never.
#[local] Arguments strptime : simpl never.
#[local] Arguments worked : simpl never.
#[local] Arguments weekday : simpl never.
#[local] Arguments get_weekly_hours : simpl never.

Ltac unfold_m :=
  unfold bind, ret, raise, lift, get_data, put_data, print, when,
    try_except_ValueError, setitem2, save_data in *.

(** The key of a date in the store. *)
Definition key_of (d : date) : string := date_strftime d "%Y-%m-%d".

(** The test of [is_first_monday_input] as a function of the store. *)
Definition rollover_due (d : store) (today : date) : bool :=
  (weekday today =? 0) &&
  match d !! key_of today with
  | None => true
  | Some entry => bool_decide (entry = ∅)
  end.

Lemma is_first_monday_input_eq today self :
  is_first_monday_input today self = (Ok (rollover_due (data self) today), self).
Proof.
  unfold is_first_monday_input, rollover_due, key_of. unfold_m.
  destruct (weekday today =? 0); reflexivity.
Qed.

Lemma command_time_date time_str now t :
  command_time time_str now = Ok t -> dt_date t = dt_date now.
Proof.
  unfold command_time. destruct time_str as [s|]; [|now intros [= <-]].
  destruct (nonempty s); [|now intros [= <-]].
  destruct (strptime s "%H:%M"); cbn; [|discriminate]. now intros [= <-].
Qed.

Lemma strftime_date t : strftime t "%Y-%m-%d" = key_of (dt_date t).
Proof. reflexivity. Qed.

Lemma key_not_settings d : key_of d <> "settings".
Proof. apply date_strftime_not_settings. Qed.

Definition cleared (d : store) : store :=
  {[ "settings" := default default_settings (d !! "settings") ]}.

Lemma command_time_run (time_str : option string) now t self :
  command_time time_str now = Ok t ->
  try_except_ValueError
    (let* t := lift (command_time time_str now) in ret (Some t))
    (let* _ := print MsgInvalidTimeFormat in ret None) self
  = (Ok (Some t), self).
Proof. intros H. unfold_m. now rewrite H. Qed.

Lemma rollover_due_true d today :
  rollover_due d today = true <->
  weekday today = 0 /\ (d !! key_of today = None \/ d !! key_of today = Some ∅).
Proof.
  unfold rollover_due. rewrite andb_true_iff, Z.eqb_eq.
  destruct (d !! key_of today) as [e|]; [|intuition].
  rewrite bool_decide_eq_true. intuition congruence.
Qed.

Lemma rollover_due_false d today :
  rollover_due d today = false <->
  weekday today <> 0 \/ exists e, d !! key_of today = Some e /\ e <> ∅.
Proof.
  unfold rollover_due. rewrite andb_false_iff, Z.eqb_neq.
  destruct (d !! key_of today) as [e|].
  - rewrite bool_decide_eq_false. split.
    + intros [H|H]; [left; exact H|right; eauto].
    + intros [H|(e' & [= <-] & H)]; auto.
  - split.
    + intros [H|H]; [auto|discriminate].
    + intros [H|(e' & H & _)]; [auto|discriminate].
Qed.

(** The state that [log_start] and [log_end] reach before they look at their
    argument. *)
Definition after_rollover (self : WorkLogger) (today : date) : WorkLogger :=
  if rollover_due (data self) today
  then mkWorkLogger (cleared (data self)) (cleared (data self))
         (stdout self ++ [MsgEntriesCleared])
  else self.

Lemma rollover_run today self :
  (let* first := is_first_monday_input today in
   when first clear_previous_entries) self
  = (Ok tt, after_rollover self today).
Proof.
  unfold bind at 1. rewrite is_first_monday_input_eq.
  unfold after_rollover, clear_previous_entries. unfold_m.
  destruct (rollover_due (data self) today); reflexivity.
Qed.

Lemma log_start_run self time_str now start_time :
  command_time time_str now = Ok start_time ->
  let today := key_of (dt_date now) in
  let base := after_rollover self (dt_date now) in
  let hm := strftime start_time "%H:%M" in
  let d' := <[today := <["start" := JStr hm]> (default ∅ (data base !! today))]>
              (data base) in
  log_start time_str now self =
  (Ok true,
   mkWorkLogger d' d' (stdout base ++ [MsgWorkStartLogged today hm])).
Proof.
  intros Ht. cbv zeta. unfold log_start.
  pose proof (command_time_date _ _ _ Ht) as Hd.
  unfold bind at 1. rewrite is_first_monday_input_eq.
  unfold after_rollover, clear_previous_entries. unfold_m. rewrite Ht.
  rewrite strftime_date, Hd.
  destruct (rollover_due (data self) (dt_date now)); cbn.
  - unfold cleared.
    rewrite !lookup_singleton_ne by (apply not_eq_sym, key_not_settings).
    cbn. rewrite lookup_insert_eq. cbn. rewrite insert_insert_eq. reflexivity.
  - destruct (data self !! key_of (dt_date now)) as [e|] eqn:E; cbn.
    + rewrite E. reflexivity.
    + rewrite lookup_insert_eq. cbn. rewrite insert_insert_eq. reflexivity.
Qed.

(** With a time that does not read as [%H:%M] the command stops after the
    roll-over: on the first input of a Monday the store has been cleared
    all the same. *)
Lemma log_start_invalid_time self s now :
  nonempty s = true -> strptime s "%H:%M" = Raise ValueError ->
  log_start (Some s) now self =
  (Ok false,
   let base := after_rollover self (dt_date now) in
   mkWorkLogger (data base) (file base) (stdout base ++ [MsgInvalidTimeFormat])).
Proof.
  intros Hn Hs. unfold log_start.
  unfold bind at 1. rewrite is_first_monday_input_eq.
  unfold after_rollover, clear_previous_entries, command_time. unfold_m.
  rewrite Hn, Hs. cbn.
  destruct (rollover_due (data self) (dt_date now)); reflexivity.
Qed.

Lemma log_end_missing_start_run self time_str now end_time :
  command_time time_str now = Ok end_time ->
  data self !! key_of (dt_date now) ≫= (.!! "start") = None ->
  log_end time_str now self =
  (Ok false,
   let base := after_rollover self (dt_date now) in
   mkWorkLogger
     (match data base !! key_of (dt_date now) with
      | None => <[key_of (dt_date now) := ∅]> (data base)
      | Some _ => data base
      end)
     (file base)
     (stdout base ++ [MsgNoStartFound (key_of (dt_date now))])).
Proof.
  intros Ht Hs. unfold log_end.
  unfold bind at 1. rewrite is_first_monday_input_eq.
  pose proof (command_time_date _ _ _ Ht) as Hd.
  unfold after_rollover, clear_previous_entries. unfold_m. rewrite Ht.
  rewrite strftime_date, Hd.
  destruct (rollover_due (data self) (dt_date now)); cbn.
  - unfold cleared.
    rewrite !lookup_singleton_ne by (apply not_eq_sym, key_not_settings).
    cbn. rewrite lookup_insert_eq. cbn. rewrite lookup_empty. reflexivity.
  - destruct (data self !! key_of (dt_date now)) as [e|] eqn:E; cbn.
    + rewrite E. cbn. cbn in Hs. rewrite Hs. reflexivity.
    + rewrite lookup_insert_eq. cbn. rewrite lookup_empty. reflexivity.
Qed.

(** The lunch setting as a function of the store. *)
Definition lunch_of (d : store) : option jval :=
  d !! "settings" ≫= (.!! "lunch_break_minutes").

Lemma get_lunch_break_minutes_eq self q :
  lunch_of (data self) = Some (JNum q) ->
  get_lunch_break_minutes self = (Ok q, self).
Proof.
  unfold lunch_of, get_lunch_break_minutes. unfold_m.
  destruct (data self !! "settings") as [s|]; cbn; [|discriminate].
  destruct (s !! "lunch_break_minutes") as [v|]; cbn; [|discriminate].
  now intros [= ->].
Qed.

(** The weekly total as a function of the store. *)
Definition weekly_hours_of (d : store) (target_date : date)
  : result (Q * list string) :=
  fold_left (weekly_step d (get_week_start target_date)) (seq 0 7) (Ok (0%Q, [])).

#[local] Arguments weekly_hours_of : simpl never.

Lemma get_weekly_hours_eq target_date self :
  get_weekly_hours target_date self = (weekly_hours_of (data self) target_date, self).
Proof. reflexivity. Qed.

Definition is_text (v : option jval) : bool :=
  match v with Some (JStr _) => true | _ => false end.

(** No entry holds text under ["hours_worked"]. *)
Definition numeric_hours (d : store) : Prop :=
  map_Forall (fun _ (e : dict) => is_text (e !! "hours_worked") = false) d.

Global Instance numeric_hours_dec d : Decision (numeric_hours d).
Proof. unfold numeric_hours. apply _. Defined.

Lemma weekly_step_ok d week_start acc i :
  numeric_hours d ->
  (exists w, acc = Ok w) -> exists w, weekly_step d week_start acc i = Ok w.
Proof.
  intros Hn [[total dates] ->]. unfold weekly_step. cbn [rbind].
  destruct (d !! _) as [e|] eqn:E; [|eauto].
  pose proof (Hn _ _ E) as Ht. cbn in Ht.
  destruct (e !! "hours_worked") as [[s|q]|]; cbn; eauto. discriminate.
Qed.

Lemma weekly_hours_of_ok d target_date :
  numeric_hours d -> exists w, weekly_hours_of d target_date = Ok w.
Proof.
  intros Hn. unfold weekly_hours_of.
  generalize (seq 0 7). intros l.
  assert (H : exists w : Q * list string, Ok (0%Q, []) = Ok w) by eauto.
  revert H. generalize (Ok (A:=Q * list string) (0%Q, [])).
  induction l as [|i l IH]; intros acc H; cbn [fold_left]; [exact H|].
  apply IH. now apply weekly_step_ok.
Qed.

Lemma entry_with_start_no_rollover d today e v :
  d !! key_of today = Some e -> e !! "start" = Some v ->
  rollover_due d today = false.
Proof.
  intros He Hv. apply rollover_due_false. right. exists e. split; [exact He|].
  intros ->. now rewrite lookup_empty in Hv.
Qed.

(** [log_end] when today's entry has a start that reads on today's date. *)
Lemma log_end_run self time_str now end_time e start_v start_datetime lunch :
  command_time time_str now = Ok end_time ->
  data self !! key_of (dt_date now) = Some e ->
  e !! "start" = Some start_v ->
  entry_time (key_of (dt_date now)) start_v = Ok start_datetime ->
  lunch_of (data self) = Some (JNum lunch) ->
  let today := key_of (dt_date now) in
  let hm := strftime end_time "%H:%M" in
  let e' := store_worked (<["end" := JStr hm]> e)
              (worked start_datetime end_time lunch) in
  let d' := <[today := e']> (data self) in
  log_end time_str now self =
  match weekly_hours_of d' (dt_date now) with
  | Ok weekly =>
      (Ok true,
       mkWorkLogger d' d'
         (stdout self ++ [MsgWorkEndLogged today hm; MsgWeeklyTotal (fst weekly)]))
  | Raise x =>
      (Raise x, mkWorkLogger d' d' (stdout self ++ [MsgWorkEndLogged today hm]))
  end.
Proof.
  intros Ht He Hv Hs Hl. cbv zeta. unfold log_end.
  pose proof (command_time_date _ _ _ Ht) as Hd.
  unfold bind at 1. rewrite is_first_monday_input_eq.
  rewrite (entry_with_start_no_rollover _ _ _ _ He Hv).
  unfold lunch_of in Hl.
  destruct (data self !! "settings") as [s|] eqn:Es; cbn in Hl; [|discriminate].
  unfold get_lunch_break_minutes. unfold_m. rewrite Ht.
  rewrite !strftime_date, Hd.
  repeat (progress (cbn;
    rewrite ?He, ?Hv, ?Hs, ?Es, ?Hl, ?lookup_insert_eq, ?insert_insert_eq,
      ?(lookup_insert_ne _ _ _ _ (key_not_settings (dt_date now))))).
  rewrite get_weekly_hours_eq. unfold store_worked. cbn.
  destruct (weekly_hours_of _ _); cbn; rewrite <- ?app_assoc; reflexivity.
Qed.

(** The store after the loop of [recalculate_all_entries]. *)
Definition recalculated (lunch : Q) (d : store) : store :=
  map_imap (fun date_str entry =>
    Some (default entry (recalculate_entry lunch date_str entry))) d.

Definition recalculated_count (lunch : Q) (d : store) : nat :=
  size (map_imap (recalculate_entry lunch) d).

Lemma lookup_recalculated lunch d k :
  recalculated lunch d !! k =
  (fun e => default e (recalculate_entry lunch k e)) <$> d !! k.
Proof.
  unfold recalculated. rewrite map_lookup_imap.
  now destruct (d !! k).
Qed.

Lemma recalculated_none lunch d :
  recalculated_count lunch d = 0%nat -> recalculated lunch d = d.
Proof.
  unfold recalculated_count. intros H. apply map_size_empty_iff in H.
  apply map_eq. intros k. rewrite lookup_recalculated.
  destruct (d !! k) as [e|] eqn:E; [|reflexivity]. cbn.
  assert (Hk : map_imap (recalculate_entry lunch) d !! k = None)
    by (rewrite H; apply lookup_empty).
  rewrite map_lookup_imap, E in Hk. cbn in Hk. now rewrite Hk.
Qed.

Lemma recalculate_all_entries_run self lunch :
  lunch_of (data self) = Some (JNum lunch) ->
  recalculate_all_entries self =
  (Ok tt,
   let d' := recalculated lunch (data self) in
   let n := recalculated_count lunch (data self) in
   if (0 <? n)%nat
   then mkWorkLogger d' d' (stdout self ++ [MsgRecalculated n])
   else mkWorkLogger d' (file self) (stdout self)).
Proof.
  intros Hl. unfold recalculate_all_entries.
  unfold bind at 1. rewrite (get_lunch_break_minutes_eq _ _ Hl).
  unfold_m. cbn. fold (recalculated lunch (data self)).
  fold (recalculated_count lunch (data self)).
  destruct (recalculated_count lunch (data self)); reflexivity.
Qed.

(** The value chosen in the menu of [configure_lunch_break]. *)
Definition new_minutes (choice : string) (custom_input : option Z) : option Z :=
  if String.eqb choice "1" then Some 0
  else if String.eqb choice "2" then Some 15
  else if String.eqb choice "3" then Some 30
  else if String.eqb choice "4" then Some 45
  else if String.eqb choice "5" then Some 60
  else if String.eqb choice "6" then
    match custom_input with
    | Some m => if (0 <=? m) && (m <=? 120) then Some m else None
    | None => None
    end
  else None.

Lemma configure_lunch_break_run self choice custom_input L s q0 :
  new_minutes choice custom_input = Some L ->
  data self !! "settings" = Some s ->
  s !! "lunch_break_minutes" = Some (JNum q0) ->
  let d1 := <["settings" := <["lunch_break_minutes" := JNum (inject_Z L)]> s]>
              (data self) in
  configure_lunch_break choice custom_input self =
  recalculate_all_entries
    (mkWorkLogger d1 d1 (stdout self ++ [MsgLunchUpdated (inject_Z L)])).
Proof.
  intros Hn Hs Hq. cbv zeta. unfold configure_lunch_break.
  unfold bind at 1.
  rewrite (get_lunch_break_minutes_eq self q0)
    by (unfold lunch_of; rewrite Hs; exact Hq).
  unfold new_minutes in Hn. unfold set_lunch_break_minutes.
  repeat match type of Hn with
         | (if ?b then _ else _) = _ => destruct b
         end;
    try (destruct custom_input as [m|]; [destruct (_ && _)|]);
    try discriminate; injection Hn as <-;
    unfold_m; cbn; rewrite Hs; reflexivity.
Qed.

Lemma get_current_work_time_run self now e start_v start_datetime lunch weekly :
  data self !! key_of (dt_date now) = Some e ->
  e !! "start" = Some start_v -> e !! "end" = None ->
  entry_time (key_of (dt_date now)) start_v = Ok start_datetime ->
  lunch_of (data self) = Some (JNum lunch) ->
  weekly_hours_of (data self) (dt_date now) = Ok weekly ->
  get_current_work_time now self =
  (Ok (Some (projection start_v start_datetime now lunch (fst weekly))), self).
Proof.
  intros He Hv Hn Hs Hl Hw. unfold get_current_work_time.
  fold (key_of (dt_date now)). unfold bind at 1. unfold get_data at 1.
  rewrite He, Hv, Hn. unfold try_except_ValueError, bind, lift, ret.
  rewrite Hs, (get_lunch_break_minutes_eq _ _ Hl), get_weekly_hours_eq, Hw.
  reflexivity.
Qed.

Lemma strptime_ymd_nonempty s d :
  strptime s "%Y-%m-%d" = Ok d -> nonempty s = true.
Proof. destruct s; [discriminate|reflexivity]. Qed.

Lemma delete_day_absent_run self date_input confirm :
  data self !! date_input = None ->
  delete_day date_input confirm self =
  (Ok tt,
   mkWorkLogger (data self) (file self)
     (if bool_decide (work_entries (data self) = ∅)
      then stdout self ++ [MsgNoLogsToDelete]
      else if nonempty date_input
           then stdout self ++ [MsgNoEntryFound date_input]
           else stdout self)).
Proof.
  intros Hd. unfold delete_day. unfold_m. cbn.
  destruct (bool_decide (work_entries (data self) = ∅)); [reflexivity|].
  destruct (nonempty date_input); cbn; [|now destruct self].
  rewrite Hd. rewrite bool_decide_eq_true_2 by reflexivity. reflexivity.
Qed.

Lemma edit_past_day_no_logs self date_input new_start new_end :
  work_entries (data self) = ∅ ->
  edit_past_day date_input new_start new_end self =
  (Ok tt, mkWorkLogger (data self) (file self) (stdout self ++ [MsgNoLogsToEdit])).
Proof.
  intros H. unfold edit_past_day. unfold_m. cbn.
  now rewrite bool_decide_eq_true_2.
Qed.

(** [edit_past_day] on a date without entry, both prompts left empty. *)
Lemma edit_past_day_absent_run self date_input d :
  work_entries (data self) <> ∅ ->
  strptime date_input "%Y-%m-%d" = Ok d ->
  data self !! date_input = None ->
  edit_past_day date_input "" "" self =
  (Ok tt,
   mkWorkLogger (<[date_input := ∅]> (data self)) (<[date_input := ∅]> (data self))
     (stdout self ++ [MsgCreatedEntry date_input; MsgChangesSaved date_input])).
Proof.
  intros Hw Hd Hn. unfold edit_past_day. unfold_m. cbn.
  rewrite bool_decide_eq_false_2 by exact Hw.
  rewrite (strptime_ymd_nonempty _ _ Hd), Hd, Hn. cbn.
  rewrite lookup_insert_eq. cbn. rewrite lookup_empty. cbn.
  rewrite <- app_assoc. reflexivity.
Qed.


#[local] Arguments entry_time : simpl never.

Ltac has_match t :=
  match t with context [match _ with _ => _ end] => idtac end.

(** Case analysis on a scrutinee of the goal that holds no other match. *)
Ltac split_innermost :=
  match goal with
  | |- context [match ?scrutinee with _ => _ end] =>
      tryif has_match scrutinee then fail else destruct scrutinee eqn:?
  end.

(** [edit_past_day] on a date without entry, whatever is typed at the two
    prompts: the date has an entry afterwards. *)
Lemma edit_past_day_absent_creates self date_input new_start new_end d :
  work_entries (data self) <> ∅ ->
  strptime date_input "%Y-%m-%d" = Ok d ->
  data self !! date_input = None ->
  is_Some (data (snd (edit_past_day date_input new_start new_end self)) !! date_input).
Proof.
  intros Hw Hd Hn. unfold edit_past_day, get_lunch_break_minutes. unfold_m. cbn.
  rewrite bool_decide_eq_false_2 by exact Hw.
  rewrite (strptime_ymd_nonempty _ _ Hd), Hd, Hn. cbn.
  repeat first
    [ rewrite lookup_insert_eq | rewrite insert_insert_eq | progress cbn
    | split_innermost ];
  eauto.
Qed.

End CommandFacts.

(** ** Concrete stores and clocks *)

Module Samples.
Import Calendar WorkLoggerModel.

Definition day_entry (start_str end_str : string) (hours : Q) (minutes : Z) : dict :=
  {[ "start" := JStr start_str; "end" := JStr end_str;
     "hours_worked" := JNum hours; "total_minutes" := JNum (inject_Z minutes) ]}.

(** A store of the week before Monday 2024-01-01. *)
Definition last_week : store :=
  {[ "settings" := default_settings;
     "2023-12-28" := day_entry "09:00" "17:00" (15 # 2) 450;
     "2023-12-29" := day_entry "09:00" "16:30" 7 420 ]}.

Definition logger (d : store) : WorkLogger := mkWorkLogger d d [].

Definition at_time (y m d h mi : Z) : datetime := DateTime (Date y m d) h mi 0 0.

(** Closed decidable statements are settled by evaluation. *)
Ltac by_evaluation := apply (bool_decide_unpack _); vm_compute; exact I.

End Samples.


(** ** The claims of the specification *)

Module Claims.
Import Calendar Strptime PyNum WorkLoggerModel.
Import CalendarFacts StrptimeFacts StrptimeMore PyNumFacts WorkedFacts.
Import CommandFacts Samples.

#[local] Arguments strftime : simpl never.
#[local] Arguments date_strftime : simpl never.
#[local] Arguments strptime : simpl never.

(** C2.  A start logged on a Monday whose entry is absent or empty removes
    every stored entry, keeps the settings, and then creates the entry of
    that Monday: the store holds the settings and the new entry and nothing
    else.  A start logged on another day, or on a Monday that has a
    non-empty entry, removes no key.  The command is taken with a time that
    reads as HH:MM or with none. *)
Theorem log_start_weekly_rollover self time_str now start_time :
  command_time time_str now = Ok start_time ->
  let today := key_of (dt_date now) in
  let hm := strftime start_time "%H:%M" in
  exists self',
    log_start time_str now self = (Ok true, self') /\
    file self' = data self' /\
    ((weekday (dt_date now) = 0 /\
      (data self !! today = None \/ data self !! today = Some ∅)) ->
     data self' =
       {[ today := {[ "start" := JStr hm ]};
          "settings" := default default_settings (data self !! "settings") ]} /\
     (forall s, data self !! "settings" = Some s -> data self' !! "settings" = Some s) /\
     (forall k, k <> "settings" -> k <> today -> data self' !! k = None)) /\
    ((weekday (dt_date now) <> 0 \/
      exists e, data self !! today = Some e /\ e <> ∅) ->
     forall k, is_Some (data self !! k) -> is_Some (data self' !! k)).
Proof.
  intros Ht. cbv zeta. eexists. split; [apply (log_start_run _ _ _ _ Ht)|].
  cbn [data file]. split; [reflexivity|]. split.
  - intros Hr. apply rollover_due_true in Hr.
    unfold after_rollover. rewrite Hr. cbn [data]. unfold cleared.
    rewrite lookup_singleton_ne by (apply not_eq_sym, key_not_settings).
    cbn [default]. split; [reflexivity|]. split.
    + intros s Hs. rewrite Hs. cbn.
      rewrite lookup_insert_ne by (apply key_not_settings).
      apply lookup_singleton_eq.
    + intros k Hk1 Hk2. rewrite lookup_insert_ne by congruence.
      apply lookup_singleton_ne. congruence.
  - intros Hr. apply rollover_due_false in Hr.
    unfold after_rollover. rewrite Hr. intros k Hk.
    destruct (decide (key_of (dt_date now) = k)) as [<-|Hne].
    + rewrite lookup_insert_eq. eauto.
    + now rewrite lookup_insert_ne.
Qed.

Lemma log_start_weekly_rollover_witness :
  let self := logger last_week in
  let now := DateTime (Date 2024 1 1) 8 55 12 0 in
  command_time (Some "09:00") now = Ok (at_time 2024 1 1 9 0) /\
  exists self',
    log_start (Some "09:00") now self = (Ok true, self') /\
    data self' = {[ "2024-01-01" := {[ "start" := JStr "09:00" ]};
                    "settings" := default_settings ]}.
Proof.
  cbv zeta. split; [by_evaluation|].
  destruct (log_start_weekly_rollover (logger last_week) (Some "09:00")
              (DateTime (Date 2024 1 1) 8 55 12 0) (at_time 2024 1 1 9 0))
    as (self' & Hrun & _ & Hroll & _); [by_evaluation|].
  exists self'. split; [exact Hrun|].
  destruct Hroll as (Hd & _ & _).
  - split; [by_evaluation|]. left. by_evaluation.
  - rewrite Hd. by_evaluation.
Defined.

(** C3 (as amended).  When [log_end] fails for want of a start, the store
    it leaves is the store after the Monday roll-over (all entries cleared
    and the cleared store saved, when the command is the first input of a
    Monday), with an empty entry created in memory for the date when it had
    none; the data file is written by the roll-over only.  The store is
    exactly as before when no roll-over is due and the date has an entry. *)
Theorem log_end_missing_start self time_str now end_time :
  command_time time_str now = Ok end_time ->
  data self !! key_of (dt_date now) ≫= (.!! "start") = None ->
  let today := key_of (dt_date now) in
  let base := after_rollover self (dt_date now) in
  exists self',
    log_end time_str now self = (Ok false, self') /\
    stdout self' = (stdout base ++ [MsgNoStartFound today])%list /\
    file self' = file base /\
    data self' = match data base !! today with
                 | None => <[today := ∅]> (data base)
                 | Some _ => data base
                 end /\
    (rollover_due (data self) (dt_date now) = false ->
     is_Some (data self !! today) ->
     data self' = data self /\ file self' = file self).
Proof.
  intros Ht Hs. cbv zeta. eexists.
  split; [apply (log_end_missing_start_run _ _ _ _ Ht Hs)|].
  cbn [data file stdout]. repeat (split; [reflexivity|]).
  intros Hr [e He]. unfold after_rollover. rewrite Hr, He. auto.
Qed.

Lemma log_end_missing_start_witness :
  let self := logger (<["2024-01-02" := {[ "end" := JStr "17:00" ]}]> last_week) in
  let now := at_time 2024 1 2 17 0 in
  exists self',
    log_end (Some "17:30") now self = (Ok false, self') /\
    data self' = data self /\ file self' = file self.
Proof.
  cbv zeta.
  destruct (log_end_missing_start
              (logger (<["2024-01-02" := {[ "end" := JStr "17:00" ]}]> last_week))
              (Some "17:30") (at_time 2024 1 2 17 0) (at_time 2024 1 2 17 30))
    as (self' & Hrun & _ & _ & _ & Hsame); [by_evaluation | by_evaluation |].
  exists self'. split; [exact Hrun|].
  apply Hsame; [by_evaluation|].
  exists {[ "end" := JStr "17:00" ]}. by_evaluation.
Defined.

(** C3, as stated, fails: on Monday 2024-01-01, with last week's entries in
    the store and none for the Monday, [log_end] reports the missing start
    after it has cleared the store, in memory and in the data file, and has
    created an empty entry in memory. *)
Lemma log_end_missing_start_clears_store :
  let self := logger last_week in
  let r := log_end (Some "17:00") (at_time 2024 1 1 17 0) self in
  fst r = Ok false /\
  stdout (snd r) = [MsgEntriesCleared; MsgNoStartFound "2024-01-01"] /\
  data self !! "2023-12-28" = Some (day_entry "09:00" "17:00" (15 # 2) 450) /\
  data (snd r) = {[ "2024-01-01" := ∅; "settings" := default_settings ]} /\
  file (snd r) = {[ "settings" := default_settings ]} /\
  data (snd r) <> data self.
Proof.
  cbv zeta. repeat split; by_evaluation.
Qed.

(** C9 (as amended).  On a date that reads as a date and has no entry,
    [delete_day] leaves the store and the data file as they are and
    reports that there is no entry (or that there are no logs at all);
    [edit_past_day] changes nothing when the store has no entry at all,
    and otherwise creates an entry for the date, whatever is typed at the
    prompts; with both prompts left empty the entry is empty and the store
    is saved. *)
Theorem edit_delete_absent_date self date_input confirm d :
  strptime date_input "%Y-%m-%d" = Ok d ->
  data self !! date_input = None ->
  (exists self',
     delete_day date_input confirm self = (Ok tt, self') /\
     data self' = data self /\ file self' = file self /\
     stdout self' = (stdout self ++
       [if bool_decide (work_entries (data self) = ∅)
        then MsgNoLogsToDelete else MsgNoEntryFound date_input])%list) /\
  (work_entries (data self) = ∅ ->
   forall new_start new_end,
     edit_past_day date_input new_start new_end self =
     (Ok tt, mkWorkLogger (data self) (file self)
               (stdout self ++ [MsgNoLogsToEdit]))) /\
  (work_entries (data self) <> ∅ ->
   (forall new_start new_end,
      is_Some (data (snd (edit_past_day date_input new_start new_end self))
               !! date_input)) /\
   exists self',
     edit_past_day date_input "" "" self = (Ok tt, self') /\
     data self' = <[date_input := ∅]> (data self) /\
     file self' = data self' /\
     stdout self' = (stdout self ++
       [MsgCreatedEntry date_input; MsgChangesSaved date_input])%list).
Proof.
  intros Hd Hn. split; [|split].
  - eexists. split; [apply (delete_day_absent_run _ _ _ Hn)|].
    cbn [data file stdout]. repeat (split; [reflexivity|]).
    rewrite (strptime_ymd_nonempty _ _ Hd). now destruct (bool_decide _).
  - intros Hw new_start new_end. now apply edit_past_day_no_logs.
  - intros Hw. split.
    + intros new_start new_end.
      apply (edit_past_day_absent_creates _ _ _ _ _ Hw Hd Hn).
    + eexists. split; [apply (edit_past_day_absent_run _ _ _ Hw Hd Hn)|].
      cbn [data file stdout]. auto.
Qed.

Lemma edit_delete_absent_date_witness :
  let self := logger last_week in
  (exists self',
     delete_day "2024-01-03" "y" self = (Ok tt, self') /\
     data self' = data self /\ file self' = file self /\
     stdout self' = [MsgNoEntryFound "2024-01-03"]) /\
  (exists self',
     edit_past_day "2024-01-03" "" "" self = (Ok tt, self') /\
     data self' = <["2024-01-03" := ∅]> last_week).
Proof.
  cbv zeta.
  destruct (edit_delete_absent_date (logger last_week) "2024-01-03" "y"
              (DateTime (Date 2024 1 3) 0 0 0 0))
    as ((s1 & Hdel & Hd1 & Hf1 & Ho1) & _ & Hedit); [by_evaluation | by_evaluation |].
  split.
  - exists s1. split; [exact Hdel|]. split; [exact Hd1|]. split; [exact Hf1|].
    rewrite Ho1. by_evaluation.
  - assert (Hw : work_entries (data (logger last_week)) <> ∅) by by_evaluation.
    destruct (Hedit Hw) as (_ & s2 & Hrun & Hd2 & _).
    exists s2. split; [exact Hrun|exact Hd2].
Defined.

(** C9, as stated, fails for [edit_past_day]: on a date without entry it
    creates an empty entry and writes the data file. *)
Lemma edit_past_day_creates_entry :
  let self := logger last_week in
  let r := edit_past_day "2024-01-03" "" "" self in
  fst r = Ok tt /\
  data self !! "2024-01-03" = None /\
  data (snd r) !! "2024-01-03" = Some ∅ /\
  file (snd r) !! "2024-01-03" = Some ∅ /\
  stdout (snd r) = [MsgCreatedEntry "2024-01-03"; MsgChangesSaved "2024-01-03"].
Proof. cbv zeta. repeat split; by_evaluation. Qed.

Lemma strptime_hm_whole s t :
  strptime s "%H:%M" = Ok t -> whole_minute t /\ nonempty s = true.
Proof.
  intros H. apply strptime_hm_inv in H as (g & l & _ & -> & Hh & Hm & c & s' & -> & _).
  cbn [hour minute] in Hh, Hm. split; [|reflexivity].
  unfold whole_minute, time_ok. cbn [hour minute second microsecond].
  repeat split.
  repeat (apply andb_true_intro; split); try reflexivity;
    first [apply Z.leb_le | apply Z.ltb_lt]; lia.
Qed.

Lemma whole_minute_replace_date t d :
  whole_minute t -> whole_minute (replace_date t d).
Proof. intros H. exact H. Qed.

Lemma numeric_hours_insert d k (e : dict) :
  numeric_hours d -> is_text (e !! "hours_worked") = false ->
  numeric_hours (<[k := e]> d).
Proof. intros Hn He. now apply map_Forall_insert_2. Qed.

Lemma store_worked_lookups entry w :
  store_worked entry w !! "total_minutes" = Some (JNum (of_Z (snd w))) /\
  store_worked entry w !! "hours_worked" = Some (JNum (fst w)) /\
  forall f, f <> "total_minutes" -> f <> "hours_worked" ->
            store_worked entry w !! f = entry !! f.
Proof.
  unfold store_worked. split; [apply lookup_insert_eq|]. split.
  - rewrite lookup_insert_ne by discriminate. apply lookup_insert_eq.
  - intros f H1 H2. now rewrite !lookup_insert_ne by congruence.
Qed.

Lemma store_worked_fields entry h m :
  store_worked entry (h, m) !! "total_minutes" = Some (JNum (inject_Z m)) /\
  store_worked entry (h, m) !! "hours_worked" = Some (JNum h).
Proof. destruct (store_worked_lookups entry (h, m)) as (H1 & H2 & _). auto. Qed.

(** C1.  With a start and an end that read as HH:MM on a date and an
    integer lunch break [L], both [log_end] and the recalculation of the whole
    store put under ["total_minutes"] the minutes from start to end less
    [L], an end before the start on the wall clock being taken on the next
    day, and under ["hours_worked"] that number divided by 60 and rounded
    to two decimals; nothing is clamped. *)
Theorem worked_time_stored d start_str end_str start_t end_t (L : Z) :
  date_ok d = true ->
  strptime start_str "%H:%M" = Ok start_t ->
  strptime end_str "%H:%M" = Ok end_t ->
  let minutes := span_minutes start_t end_t - L in
  let hours := round2 (inject_Z minutes / 60) in
  (forall self now e,
     dt_date now = d ->
     data self !! key_of d = Some e ->
     e !! "start" = Some (JStr start_str) ->
     lunch_of (data self) = Some (JNum (inject_Z L)) ->
     numeric_hours (data self) ->
     exists self' e',
       log_end (Some end_str) now self = (Ok true, self') /\
       file self' = data self' /\
       data self' !! key_of d = Some e' /\
       e' !! "total_minutes" = Some (JNum (inject_Z minutes)) /\
       e' !! "hours_worked" = Some (JNum hours)) /\
  (forall self e,
     data self !! key_of d = Some e ->
     e !! "start" = Some (JStr start_str) ->
     e !! "end" = Some (JStr end_str) ->
     lunch_of (data self) = Some (JNum (inject_Z L)) ->
     exists self' e',
       recalculate_all_entries self = (Ok tt, self') /\
       data self' !! key_of d = Some e' /\
       e' !! "total_minutes" = Some (JNum (inject_Z minutes)) /\
       e' !! "hours_worked" = Some (JNum hours)).
Proof.
  intros Hd Hs He. cbv zeta.
  pose proof (strptime_hm_whole _ _ Hs) as [Hws _].
  pose proof (strptime_hm_whole _ _ He) as [Hwe Hne].
  pose proof (strptime_on_date d _ _ Hd Hs) as Hps.
  pose proof (strptime_on_date d _ _ Hd He) as Hpe.
  assert (Hw : worked (replace_date start_t d) (replace_date end_t d) (inject_Z L)
               = (round2 (inject_Z (span_minutes start_t end_t - L) / 60),
                  span_minutes start_t end_t - L))
    by (apply (worked_whole (replace_date start_t d) (replace_date end_t d));
        [reflexivity | exact Hws | exact Hwe]).
  split.
  - intros self now e <- Hk Hst Hl Hn.
    assert (Ht : command_time (Some end_str) now
                 = Ok (replace_date end_t (dt_date now)))
      by (unfold command_time; rewrite Hne, He; reflexivity).
    pose proof (log_end_run self _ now _ e _ _ _ Ht Hk Hst Hps Hl) as Hrun.
    cbv zeta in Hrun. rewrite Hw in Hrun.
    match type of Hrun with
    | _ = match weekly_hours_of ?d' _ with _ => _ end =>
        destruct (weekly_hours_of_ok d' (dt_date now)) as [w Hwk]
    end.
    { apply numeric_hours_insert; [exact Hn|].
      destruct (store_worked_lookups (<["end" := JStr (strftime (replace_date end_t (dt_date now)) "%H:%M")]> e)
                  (round2 (inject_Z (span_minutes start_t end_t - L) / 60),
                   span_minutes start_t end_t - L)) as (_ & -> & _).
      reflexivity. }
    rewrite Hwk in Hrun. do 2 eexists. split; [exact Hrun|].
    cbn [data file]. split; [reflexivity|].
    split; [apply lookup_insert_eq|]. apply store_worked_fields.
  - intros self e Hk Hst Hen Hl.
    rewrite (recalculate_all_entries_run _ _ Hl). cbv zeta.
    assert (Hr : recalculated (inject_Z L) (data self) !! key_of d
                 = Some (store_worked e
                           (round2 (inject_Z (span_minutes start_t end_t - L) / 60),
                            span_minutes start_t end_t - L))).
    { rewrite lookup_recalculated, Hk. cbn. unfold recalculate_entry.
      replace (String.eqb (key_of d) "settings") with false
        by (symmetry; apply String.eqb_neq, key_not_settings).
      rewrite Hst, Hen. unfold entry_time. fold (key_of d) in Hps, Hpe.
      rewrite Hps, Hpe, Hw. reflexivity. }
    destruct (0 <? _)%nat; do 2 eexists;
      (split; [reflexivity|]); cbn [data]; (split; [exact Hr|]);
      apply store_worked_fields.
Qed.

(** The overnight example: 23:00 to 01:00 with a 30 minute break is
    90 minutes, 1.5 hours.  Nothing is clamped: the recalculation of an
    entry from 09:00 to 09:10 under the same break stores -20 minutes and
    -0.33 hours. *)
Lemma worked_time_stored_witness :
  let self := logger (<["2024-01-02" := {[ "start" := JStr "23:00" ]}]> last_week) in
  let now := DateTime (Date 2024 1 2) 23 59 30 0 in
  let short := logger (<["2024-01-02" := {[ "start" := JStr "09:00";
                                             "end" := JStr "09:10" ]}]> last_week) in
  (exists self' e',
     log_end (Some "01:00") now self = (Ok true, self') /\
     data self' !! "2024-01-02" = Some e' /\
     e' !! "total_minutes" = Some (JNum 90) /\
     e' !! "hours_worked" = Some (JNum (3 # 2))) /\
  (exists self' e',
     recalculate_all_entries short = (Ok tt, self') /\
     data self' !! "2024-01-02" = Some e' /\
     e' !! "total_minutes" = Some (JNum (-20)) /\
     e' !! "hours_worked" = Some (JNum (-33 # 100))).
Proof.
  cbv zeta. split.
  - destruct (worked_time_stored (Date 2024 1 2) "23:00" "01:00"
                (at_time 1900 1 1 23 0) (at_time 1900 1 1 1 0) 30)
      as [Hend _]; [by_evaluation | by_evaluation | by_evaluation |].
    destruct (Hend (logger (<["2024-01-02" := {[ "start" := JStr "23:00" ]}]> last_week))
                (DateTime (Date 2024 1 2) 23 59 30 0) {[ "start" := JStr "23:00" ]})
      as (self' & e' & Hrun & _ & Hk & Hm & Hh);
      [reflexivity | by_evaluation | by_evaluation | by_evaluation | by_evaluation |].
    exists self', e'. repeat split; assumption.
  - destruct (worked_time_stored (Date 2024 1 2) "09:00" "09:10"
                (at_time 1900 1 1 9 0) (at_time 1900 1 1 9 10) 30)
      as [_ Hrec]; [by_evaluation | by_evaluation | by_evaluation |].
    destruct (Hrec (logger (<["2024-01-02" := {[ "start" := JStr "09:00";
                                                "end" := JStr "09:10" ]}]> last_week))
                {[ "start" := JStr "09:00"; "end" := JStr "09:10" ]})
      as (self' & e' & Hrun & Hk & Hm & Hh);
      [by_evaluation | by_evaluation | by_evaluation | by_evaluation |].
    exists self', e'. repeat split; assumption.
Defined.

(** C5.  Changing the lunch break through [configure_lunch_break] stores
    the new value [L] and recomputes the entries that hold a start and an
    end: for a key that reads as a date and two times that read as HH:MM,
    ["total_minutes"] becomes the minutes from the start to the end (an end
    before the start being on the next day) less [L], and ["hours_worked"]
    that number over 60 to two decimals.  Every entry without start or
    without end, every other field and the set of dates are as they were;
    the result is saved. *)
Theorem lunch_change_recalculates self choice custom_input L s q0 :
  new_minutes choice custom_input = Some L ->
  data self !! "settings" = Some s ->
  s !! "lunch_break_minutes" = Some (JNum q0) ->
  exists self',
    configure_lunch_break choice custom_input self = (Ok tt, self') /\
    file self' = data self' /\
    lunch_of (data self') = Some (JNum (inject_Z L)) /\
    (forall k, data self !! k = None <-> data self' !! k = None) /\
    (forall k e, k <> "settings" -> data self !! k = Some e ->
       (e !! "start" = None \/ e !! "end" = None -> data self' !! k = Some e) /\
       (forall day start_str end_str start_t end_t,
          strptime k "%Y-%m-%d" = Ok day ->
          e !! "start" = Some (JStr start_str) ->
          e !! "end" = Some (JStr end_str) ->
          strptime start_str "%H:%M" = Ok start_t ->
          strptime end_str "%H:%M" = Ok end_t ->
          let minutes := span_minutes start_t end_t - L in
          exists e',
            data self' !! k = Some e' /\
            e' !! "total_minutes" = Some (JNum (inject_Z minutes)) /\
            e' !! "hours_worked" = Some (JNum (round2 (inject_Z minutes / 60))) /\
            forall f, f <> "total_minutes" -> f <> "hours_worked" ->
                      e' !! f = e !! f)).
Proof.
  intros Hn Hs Hq.
  rewrite (configure_lunch_break_run _ _ _ _ _ _ Hn Hs Hq). cbv zeta.
  set (d1 := <["settings" := <["lunch_break_minutes" := JNum (inject_Z L)]> s]>
               (data self)).
  assert (Hl : lunch_of d1 = Some (JNum (inject_Z L))).
  { unfold lunch_of, d1. rewrite lookup_insert_eq. cbn. apply lookup_insert_eq. }
  rewrite (recalculate_all_entries_run
             (mkWorkLogger d1 d1 (stdout self ++ [MsgLunchUpdated (inject_Z L)]))
             (inject_Z L) Hl).
  cbn [data stdout file].
  exists (mkWorkLogger (recalculated (inject_Z L) d1) (recalculated (inject_Z L) d1)
            (if (0 <? recalculated_count (inject_Z L) d1)%nat
             then stdout self ++ [MsgLunchUpdated (inject_Z L)]
                    ++ [MsgRecalculated (recalculated_count (inject_Z L) d1)]
             else stdout self ++ [MsgLunchUpdated (inject_Z L)])%list).
  split.
  { destruct (recalculated_count (inject_Z L) d1) eqn:En; cbn.
    - now rewrite (recalculated_none _ _ En).
    - now rewrite <- app_assoc. }
  cbn [data file]. split; [reflexivity|]. split; [|split].
  - unfold lunch_of. rewrite lookup_recalculated. unfold d1 at 1.
    rewrite lookup_insert_eq. cbn. apply lookup_insert_eq.
  - intros k. rewrite lookup_recalculated. unfold d1.
    destruct (decide ("settings" = k)) as [<-|Hne].
    + rewrite lookup_insert_eq, Hs. cbn. split; discriminate.
    + rewrite lookup_insert_ne by exact Hne.
      destruct (data self !! k); cbn; split; congruence.
  - intros k e Hk He.
    assert (Hr : recalculated (inject_Z L) d1 !! k
                 = Some (default e (recalculate_entry (inject_Z L) k e))).
    { rewrite lookup_recalculated. unfold d1.
      rewrite lookup_insert_ne by congruence. now rewrite He. }
    rewrite Hr. unfold recalculate_entry.
    replace (String.eqb k "settings") with false
      by (symmetry; now apply String.eqb_neq).
    split.
    + intros [H|H]; rewrite H; [reflexivity|].
      now destruct (e !! "start").
    + intros day start_str end_str start_t end_t Hday Hvs Hve Hst Het. cbv zeta.
      pose proof (strptime_hm_whole _ _ Hst) as [Hws _].
      pose proof (strptime_hm_whole _ _ Het) as [Hwe _].
      assert (Hw : worked (replace_date start_t (dt_date day))
                     (replace_date end_t (dt_date day)) (inject_Z L)
                   = (round2 (inject_Z (span_minutes start_t end_t - L) / 60),
                      span_minutes start_t end_t - L))
        by (apply (worked_whole (replace_date start_t (dt_date day))
                     (replace_date end_t (dt_date day)));
            [reflexivity | exact Hws | exact Hwe]).
      rewrite Hvs, Hve. unfold entry_time.
      rewrite (strptime_date_time _ _ _ _ Hday Hst).
      rewrite (strptime_date_time _ _ _ _ Hday Het).
      rewrite Hw. cbn [default]. eexists. split; [reflexivity|].
      destruct (store_worked_lookups e
                  (round2 (inject_Z (span_minutes start_t end_t - L) / 60),
                   span_minutes start_t end_t - L)) as (H1 & H2 & H3).
      auto.
Qed.

(** The example of the specification: 450 minutes under a 30 minute break
    become 420 under 60.  A night from 22:00 to 06:30, under a key written
    without padding, goes from 480 minutes to 450, that is 7.5 hours, and an
    entry without end is left alone. *)
Lemma lunch_change_recalculates_witness :
  let d : store :=
    {[ "settings" := default_settings;
       "2024-01-02" := day_entry "09:00" "17:00" (15 # 2) 450;
       "2024-1-4" := day_entry "22:00" "6:30" 8 480;
       "2024-01-03" := {[ "start" := JStr "09:00" ]} ]} in
  exists self',
    configure_lunch_break "5" None (logger d) = (Ok tt, self') /\
    file self' = data self' /\
    data self' !! "2024-01-02" = Some (day_entry "09:00" "17:00" 7 420) /\
    data self' !! "2024-1-4" = Some (day_entry "22:00" "6:30" (15 # 2) 450) /\
    data self' !! "2024-01-03" = Some {[ "start" := JStr "09:00" ]}.
Proof.
  cbv zeta.
  destruct (lunch_change_recalculates
              (logger {[ "settings" := default_settings;
                         "2024-01-02" := day_entry "09:00" "17:00" (15 # 2) 450;
                         "2024-1-4" := day_entry "22:00" "6:30" 8 480;
                         "2024-01-03" := {[ "start" := JStr "09:00" ]} ]})
              "5" None 60 default_settings 30)
    as (self' & Hrun & Hfile & _ & _ & Hent);
    [by_evaluation | by_evaluation | by_evaluation |].
  exists self'. split; [exact Hrun|]. split; [exact Hfile|].
  destruct (Hent "2024-1-4" (day_entry "22:00" "6:30" 8 480)) as [_ Hnight];
    [discriminate | by_evaluation |].
  destruct (Hnight (at_time 2024 1 4 0 0) "22:00" "6:30"
              (at_time 1900 1 1 22 0) (at_time 1900 1 1 6 30))
    as (e' & Hk & Hm & Hh & _);
    [by_evaluation | by_evaluation | by_evaluation | by_evaluation
    | by_evaluation |].
  apply (f_equal snd) in Hrun. cbn [snd] in Hrun. subst self'.
  split; [by_evaluation|]. split; [by_evaluation|]. by_evaluation.
Defined.

(** The hours a date contributes to a week: its ["hours_worked"], or 0
    when the date has no entry or the entry has no such field. *)
Definition day_hours (d : store) (date_str : string) : Q :=
  match d !! date_str ≫= (.!! "hours_worked") with
  | Some (JNum q) => q
  | _ => 0
  end.

Definition week_key (week_start : date) (i : nat) : string :=
  key_of (date_add_days week_start (Z.of_nat i)).

Lemma weekly_fold d week_start l :
  numeric_hours d ->
  forall total dates,
  exists total',
    fold_left (weekly_step d week_start) l (Ok (total, dates)) =
    Ok (total', (dates ++ map (week_key week_start) l)%list) /\
    (total' == total + fold_right (fun i acc => day_hours d (week_key week_start i) + acc) 0 l)%Q.
Proof.
  intros Hn. induction l as [|i l IH]; intros total dates.
  - exists total. cbn. rewrite app_nil_r. split; [reflexivity|ring].
  - cbn [fold_left map fold_right]. unfold weekly_step at 2. cbn [rbind].
    fold (key_of (date_add_days week_start (Z.of_nat i))).
    fold (week_key week_start i). unfold day_hours at 1.
    destruct (d !! week_key week_start i) as [e|] eqn:E; cbn [mbind option_bind].
    + pose proof (Hn _ _ E) as Ht. cbn in Ht.
      destruct (e !! "hours_worked") as [[s|q]|]; [discriminate| |]; cbn.
      * destruct (IH (total + q)%Q (dates ++ [week_key week_start i])%list)
          as (t' & Hf & Ht').
        exists t'. rewrite Hf, <- app_assoc. split; [reflexivity|].
        rewrite Ht'. ring.
      * destruct (IH (total + 0)%Q (dates ++ [week_key week_start i])%list)
          as (t' & Hf & Ht').
        exists t'. rewrite Hf, <- app_assoc. split; [reflexivity|].
        rewrite Ht'. ring.
    + destruct (IH total (dates ++ [week_key week_start i])%list)
        as (t' & Hf & Ht').
      exists t'. rewrite Hf, <- app_assoc. split; [reflexivity|].
      rewrite Ht'. ring.
Qed.

(** C4.  [get_weekly_hours] returns the sum of ["hours_worked"] over the
    seven dates that start at the reference date less its weekday index, a
    Monday; a date without entry, or an entry without hours, counts 0. *)
Theorem weekly_hours_sum self reference_date :
  numeric_hours (data self) ->
  let week_start := date_add_days reference_date (- weekday reference_date) in
  let h i := day_hours (data self) (week_key week_start i) in
  weekday week_start = 0 /\
  get_week_start reference_date = week_start /\
  exists total,
    get_weekly_hours reference_date self =
    (Ok (total, map (week_key week_start) (seq 0 7)), self) /\
    (total == h 0%nat + h 1%nat + h 2%nat + h 3%nat + h 4%nat + h 5%nat + h 6%nat)%Q.
Proof.
  intros Hn. cbv zeta. split; [apply weekday_week_start|].
  split; [reflexivity|].
  rewrite get_weekly_hours_eq. unfold weekly_hours_of, get_week_start.
  destruct (weekly_fold (data self)
              (date_add_days reference_date (- weekday reference_date))
              (seq 0 7) Hn 0%Q []) as (t & Hf & Ht).
  exists t. rewrite Hf. split; [reflexivity|].
  rewrite Ht. cbn [seq fold_right]. ring.
Qed.

(** The example of the specification: Monday 7.0 and Tuesday 7.0, nothing
    else, give 14.0; asked on the Thursday of that week. *)
Lemma weekly_hours_sum_witness :
  let d : store :=
    {[ "settings" := default_settings;
       "2024-01-01" := day_entry "09:00" "16:30" 7 420;
       "2024-01-02" := day_entry "09:00" "16:30" 7 420;
       "2024-01-03" := {[ "start" := JStr "09:00" ]} ]} in
  exists total,
    fst (get_weekly_hours (Date 2024 1 4) (logger d)) =
    Ok (total, ["2024-01-01"; "2024-01-02"; "2024-01-03"; "2024-01-04";
                "2024-01-05"; "2024-01-06"; "2024-01-07"]) /\
    (total == 14)%Q.
Proof.
  cbv zeta.
  destruct (weekly_hours_sum
              (logger {[ "settings" := default_settings;
                         "2024-01-01" := day_entry "09:00" "16:30" 7 420;
                         "2024-01-02" := day_entry "09:00" "16:30" 7 420;
                         "2024-01-03" := {[ "start" := JStr "09:00" ]} ]})
              (Date 2024 1 4))
    as (_ & _ & total & Hrun & Hsum); [by_evaluation|].
  exists total. split.
  - rewrite Hrun. cbn [fst]. repeat f_equal.
  - rewrite Hsum. vm_compute. reflexivity.
Defined.

(** The week of Monday 2024-01-01 with the hours of Monday to Thursday
    given and a session started on Friday at 09:00. *)
Definition week_of (h1 h2 h3 h4 : Q) : store :=
  {[ "settings" := default_settings;
     "2024-01-01" := {[ "hours_worked" := JNum h1 ]};
     "2024-01-02" := {[ "hours_worked" := JNum h2 ]};
     "2024-01-03" := {[ "hours_worked" := JNum h3 ]};
     "2024-01-04" := {[ "hours_worked" := JNum h4 ]};
     "2024-01-05" := {[ "start" := JStr "09:00" ]} ]}.

(** A field of the dictionary [get_current_work_time] returned, if it
    returned one. *)
Definition field_of {A} (f : work_info -> A) (r : result (option work_info))
  : option A :=
  match r with Ok (Some info) => Some (f info) | _ => None end.

Lemma Qltb_lt a b : Qltb a b = true <-> (a < b)%Q.
Proof.
  unfold Qltb. rewrite negb_true_iff, <- not_true_iff_false, Qle_bool_iff.
  split; [apply Qnot_le_lt | apply Qlt_not_le].
Qed.

(** C6.  For a session that is started and not ended, the dictionary of
    [get_current_work_time] has [show_35h_target] true exactly when the
    weekly hours read from the store, as [get_weekly_hours] returns them,
    are above 27. *)
Theorem weekly_target_shown_above_27 self now e start_v start_t lunch :
  data self !! key_of (dt_date now) = Some e ->
  e !! "start" = Some start_v -> e !! "end" = None ->
  entry_time (key_of (dt_date now)) start_v = Ok start_t ->
  lunch_of (data self) = Some (JNum lunch) ->
  numeric_hours (data self) ->
  exists info weekly dates,
    get_weekly_hours (dt_date now) self = (Ok (weekly, dates), self) /\
    get_current_work_time now self = (Ok (Some info), self) /\
    weekly_hours info = weekly /\
    (show_35h_target info = true <-> (27 < weekly)%Q).
Proof.
  intros He Hs Hn Ht Hl Hnum.
  destruct (weekly_hours_of_ok _ (dt_date now) Hnum) as [[weekly dates] Hw].
  exists (projection start_v start_t now lunch weekly), weekly, dates.
  split; [now rewrite get_weekly_hours_eq, Hw|].
  split; [apply (get_current_work_time_run _ _ _ _ _ _ _ He Hs Hn Ht Hl Hw)|].
  unfold projection.
  repeat match goal with
         | |- context [let '(_, _) := ?b in _] => destruct b
         | |- context [if ?b then _ else _] => destruct b eqn:?
         end; cbn [weekly_hours show_35h_target]; (split; [reflexivity|]);
    apply Qltb_lt.
Qed.

(** The examples of the specification: 28 hours in the week show the
    target, 26 hours do not. *)
Lemma weekly_target_shown_above_27_witness :
  let now := at_time 2024 1 5 10 0 in
  field_of show_35h_target
    (fst (get_current_work_time now (logger (week_of 7 7 7 7)))) = Some true /\
  field_of show_35h_target
    (fst (get_current_work_time now
            (logger (week_of (13 # 2) (13 # 2) (13 # 2) (13 # 2))))) = Some false /\
  exists info weekly,
    get_current_work_time now (logger (week_of 7 7 7 7))
    = (Ok (Some info), logger (week_of 7 7 7 7)) /\
    weekly_hours info = weekly /\ (27 < weekly)%Q /\ show_35h_target info = true.
Proof.
  cbv zeta. split; [by_evaluation|]. split; [by_evaluation|].
  destruct (weekly_target_shown_above_27 (logger (week_of 7 7 7 7))
              (at_time 2024 1 5 10 0) {[ "start" := JStr "09:00" ]}
              (JStr "09:00") (at_time 2024 1 5 9 0) 30)
    as (info & weekly & dates & Hw & Hrun & Hwi & Hshow);
    [by_evaluation | by_evaluation | by_evaluation | by_evaluation
     | by_evaluation | by_evaluation |].
  exists info, weekly. split; [exact Hrun|]. split; [exact Hwi|].
  assert (H27 : (27 < weekly)%Q).
  { apply (f_equal (fun r => match fst r with Ok (t, _) => t | Raise _ => 0%Q end)) in Hw.
    cbn [fst] in Hw. subst weekly. vm_compute. reflexivity. }
  split; [exact H27|]. now apply Hshow.
Defined.

(** The elapsed minutes of the projection: [int(elapsed.total_seconds() / 60)]. *)
Definition elapsed_of (start_t now : datetime) : Z :=
  int_of (total_minutes_of (datetime_sub now start_t)).

(** C7 (as amended).  The worked minutes so far are the elapsed minutes
    less the lunch break once more than 240 minutes have elapsed, and the
    elapsed minutes before.  The minutes still needed for the week,
    [(35 - weekly) * 60 - worked], are raised by the lunch break when at most
    240 minutes have elapsed, the weekly hours are above 27 and that need is
    positive before the raise; in every other case they are left as they
    are. *)
Theorem projection_lunch_step self now e start_v start_t lunch :
  data self !! key_of (dt_date now) = Some e ->
  e !! "start" = Some start_v -> e !! "end" = None ->
  entry_time (key_of (dt_date now)) start_v = Ok start_t ->
  lunch_of (data self) = Some (JNum lunch) ->
  numeric_hours (data self) ->
  exists info,
    get_current_work_time now self = (Ok (Some info), self) /\
    let elapsed := elapsed_of start_t now in
    let needed := ((35 - weekly_hours info) * 60 - total_work_minutes info)%Q in
    (total_work_minutes info ==
       if 240 <? elapsed then inject_Z elapsed - lunch else inject_Z elapsed)%Q /\
    minutes_needed_for_35h info =
      Z.max 0 (int_of
        (if Qltb 27 (weekly_hours info) && Qltb 0 needed && (elapsed <=? 240)
         then (needed + lunch)%Q else needed)).
Proof.
  intros He Hs Hn Ht Hl Hnum.
  destruct (weekly_hours_of_ok _ (dt_date now) Hnum) as [[weekly dates] Hw].
  exists (projection start_v start_t now lunch weekly).
  split; [apply (get_current_work_time_run _ _ _ _ _ _ _ He Hs Hn Ht Hl Hw)|].
  cbv zeta. unfold projection, elapsed_of. cbn [fst].
  remember (int_of (total_minutes_of (datetime_sub now start_t))) as elapsed.
  remember (of_Z elapsed - (if 240 <? elapsed then lunch else 0))%Q as work.
  remember ((35 - weekly) * 60 - work)%Q as needed.
  destruct (Qltb 0 (420 + lunch - of_Z elapsed));
    destruct (Qltb 27 weekly) eqn:E27; destruct (Qltb 0 needed) eqn:En;
    destruct (elapsed <=? 240) eqn:E240; cbn [andb];
    cbn [total_work_minutes weekly_hours minutes_needed_for_35h];
    rewrite <- ?Heqneeded, ?E27, ?En; cbn [andb];
    (split; [|reflexivity]);
    subst work; unfold of_Z; destruct (240 <? elapsed); ring.
Qed.

Lemma projection_lunch_step_witness :
  let now := at_time 2024 1 5 10 0 in
  let self := logger (week_of 8 8 8 8) in
  exists info,
    get_current_work_time now self = (Ok (Some info), self) /\
    (total_work_minutes info == 60)%Q /\
    minutes_needed_for_35h info = 150.
Proof.
  cbv zeta.
  destruct (projection_lunch_step (logger (week_of 8 8 8 8))
              (at_time 2024 1 5 10 0) {[ "start" := JStr "09:00" ]}
              (JStr "09:00") (at_time 2024 1 5 9 0) 30)
    as (info & Hrun & Hwork & Hneed);
    [by_evaluation | by_evaluation | by_evaluation | by_evaluation
     | by_evaluation | by_evaluation |].
  exists info. split; [exact Hrun|].
  apply (f_equal (fun r => match fst r with Ok (Some i) => Some i | _ => None end)) in Hrun.
  vm_compute in Hrun. injection Hrun as <-.
  split; vm_compute; reflexivity.
Defined.

(** C7, as stated, fails inside the gate too: with 34.5 hours in the week,
    a 30 minute break and 40 minutes elapsed, 30 - 40 minutes are needed
    before the raise, so the code shows the target (34.5 > 27) and adds
    nothing: it reports 0 minutes and no leaving time, where the claim has
    30 - 40 + 30 = 20 minutes. *)
Lemma lunch_not_added_when_need_not_positive :
  let r := fst (get_current_work_time (at_time 2024 1 5 9 40)
                  (logger (week_of 9 9 9 (15 # 2)))) in
  field_of elapsed_hours r = Some 0 /\
  field_of elapsed_minutes r = Some 40 /\
  field_of lunch_minutes r = Some 30%Q /\
  field_of weekly_hours r = Some (69 # 2) /\
  field_of show_35h_target r = Some true /\
  field_of minutes_needed_for_35h r = Some 0 /\
  field_of time_to_leave_35h r = Some None /\
  field_of (fun info =>
              Z.max 0 (int_of ((35 * 60 - weekly_hours info * 60
                                - total_work_minutes info) + lunch_minutes info)))
    r = Some 20.
Proof. cbv zeta. repeat split; by_evaluation. Qed.

(** The state after a command, for chaining commands. *)
Definition after {A} (c : M A) (self : WorkLogger) : WorkLogger := snd (c self).

(** C8.  The code breaks the invariant.  From an empty data file, on
    Tuesday 2024-01-02: a start at 09:00 and an end at 17:00 store 7.5 hours
    and 450 minutes; a second start at 10:00 the same day replaces the start
    and leaves ["hours_worked"] and ["total_minutes"] as they were, where
    10:00 to 17:00 with the 30 minute break gives 6.5 hours and 390 minutes
    ([edit_past_day] recomputes them when it changes a start).  An end logged
    from the clock at 17:00:59 stores 7.52 hours next to the end 17:00.
    On a date without entry [edit_past_day] with an end only stores an end
    without start. *)
Theorem log_start_leaves_hours_stale :
  let tuesday h mi s := DateTime (Date 2024 1 2) h mi s 0 in
  let st1 := after (log_start (Some "09:00") (tuesday 8 58 0)) (load_data None) in
  let st2 := after (log_end (Some "17:00") (tuesday 17 1 0)) st1 in
  let st3 := after (log_start (Some "10:00") (tuesday 17 2 0)) st2 in
  let st2' := after (log_end None (tuesday 17 0 59)) st1 in
  let st4 := after (edit_past_day "2024-01-05" "" "17:00") st2 in
  data st2 !! "2024-01-02" = Some (day_entry "09:00" "17:00" (15 # 2) 450) /\
  fst (log_start (Some "10:00") (tuesday 17 2 0) st2) = Ok true /\
  data st3 !! "2024-01-02" = Some (day_entry "10:00" "17:00" (15 # 2) 450) /\
  worked (tuesday 10 0 0) (tuesday 17 0 0) 30 = ((13 # 2)%Q, 390) /\
  data st2' !! "2024-01-02" = Some (day_entry "09:00" "17:00" (188 # 25) 450) /\
  worked (tuesday 9 0 0) (tuesday 17 0 0) 30 = ((15 # 2)%Q, 450) /\
  data st4 !! "2024-01-05" = Some {[ "end" := JStr "17:00" ]}.
Proof. cbv zeta. repeat split; by_evaluation. Qed.




End Claims.

(** ** More facts about the calendar *)

Module CalendarMore.
Import Calendar CalendarFacts.

(** The dates of the first 400 years, numbered: 372 numbers a year, 31 a
    month. *)
Definition date_of_index (i : Z) : date :=
  Date (i / 372 + 1) (i mod 372 / 31 + 1) (i mod 31 + 1).

Definition index_ok (i : Z) : bool :=
  let d := date_of_index i in
  if day d <=? days_in_month (year d) (month d) then
    let r := ord2ymd (ymd2ord (year d) (month d) (day d)) in
    (year r =? year d) && (month r =? month d) && (day r =? day d)
  else true.

Lemma index_checked : all_range index_ok 18 0 148800 = true.
Proof. vm_compute. reflexivity. Qed.

Lemma days_in_month_bound y m : days_in_month y m <= 31.
Proof.
  unfold days_in_month. destruct (_ && _); [lia|].
  destruct (Z.to_nat m) as [|[|[|[|[|[|[|[|[|[|[|[|[|k]]]]]]]]]]]]];
    cbn; try lia. destruct k; cbn; lia.
Qed.

Lemma ord2ymd_ymd2ord_cycle y m d :
  1 <= y <= 400 -> 1 <= m <= 12 -> 1 <= d <= days_in_month y m ->
  ord2ymd (ymd2ord y m d) = Date y m d.
Proof.
  intros Hy Hm Hd. pose proof (days_in_month_bound y m) as Hb.
  set (i := (y - 1) * 372 + (m - 1) * 31 + (d - 1)).
  assert (Hi : 0 <= i < 0 + 148800) by (unfold i; lia).
  pose proof (all_range_sound _ _ _ _ index_checked i Hi) as H.
  unfold index_ok, date_of_index in H. cbv zeta in H.
  cbn [year month day] in H.
  assert (E1 : i / 372 + 1 = y)
    by (unfold i; Z.to_euclidean_division_equations; lia).
  assert (E2 : i mod 372 / 31 + 1 = m)
    by (unfold i; Z.to_euclidean_division_equations; lia).
  assert (E3 : i mod 31 + 1 = d)
    by (unfold i; Z.to_euclidean_division_equations; lia).
  rewrite E1, E2, E3 in H.
  replace (d <=? days_in_month y m) with true in H
    by (symmetry; apply Z.leb_le; lia).
  apply andb_prop in H as [H H3]. apply andb_prop in H as [H1 H2].
  apply Z.eqb_eq in H1, H2, H3.
  destruct (ord2ymd (ymd2ord y m d)) as [y' m' d']. cbn in *. congruence.
Qed.

Lemma days_in_month_period y m q : days_in_month (y + 400 * q) m = days_in_month y m.
Proof. unfold days_in_month. now rewrite is_leap_period. Qed.

Lemma ord2ymd_period n q :
  ord2ymd (n + DI400Y * q) =
  let d := ord2ymd n in Date (year d + 400 * q) (month d) (day d).
Proof.
  unfold ord2ymd. cbv zeta.
  replace (n + DI400Y * q - 1) with (n - 1 + q * DI400Y) by lia.
  rewrite Z.div_add, Z.mod_add by (unfold DI400Y; lia).
  rewrite (ord2ymd_cycle_year (((n - 1) / DI400Y + q) * 400 + 1)).
  rewrite (ord2ymd_cycle_year ((n - 1) / DI400Y * 400 + 1)).
  cbv zeta. cbn [year month day]. f_equal. lia.
Qed.

(** [date.fromordinal(d.toordinal())] is [d]. *)
Lemma fromordinal_toordinal d :
  1 <= month d <= 12 -> 1 <= day d <= days_in_month (year d) (month d) ->
  fromordinal (toordinal d) = d.
Proof.
  destruct d as [y m d]. cbn [year month day]. intros Hm Hd.
  unfold fromordinal, toordinal. cbn [year month day].
  set (q := (y - 1) / 400). set (y0 := (y - 1) mod 400 + 1).
  assert (Ey : y = y0 + 400 * q).
  { unfold y0, q. pose proof (Z.div_mod (y - 1) 400 ltac:(lia)). lia. }
  assert (Hy0 : 1 <= y0 <= 400).
  { unfold y0. pose proof (Z.mod_pos_bound (y - 1) 400 ltac:(lia)). lia. }
  rewrite Ey in *. rewrite days_in_month_period in Hd.
  rewrite ymd2ord_period, ord2ymd_period. cbv zeta.
  rewrite (ord2ymd_ymd2ord_cycle y0 m d Hy0 Hm Hd). reflexivity.
Qed.

Lemma date_ok_valid d :
  date_ok d = true ->
  1 <= month d <= 12 /\ 1 <= day d <= days_in_month (year d) (month d).
Proof.
  unfold date_ok. intros H. repeat (apply andb_prop in H as [H ?]). lia.
Qed.

End CalendarMore.

(** ** The stores the program writes

    A store is well formed when it holds the settings with a number for the
    lunch break and when every other key reads as a date and holds an
    entry whose times read on that date, whose derived fields are numbers,
    and which has derived fields only next to both times.  Every command
    keeps a well-formed store well formed, and on such a store no command
    raises an exception.  The counter does so as well when the lunch break
    is a whole number, which every value that the program writes is; with
    another number it can fail, and it leaves the store as it is. *)

Module StoreFacts.
Import Calendar Strptime PyNum WorkLoggerModel Shell.
Import CalendarFacts StrptimeFacts StrptimeMore PyNumFacts WorkedFacts CommandFacts.

#[local] Arguments strftime : simpl never.
#[local] Arguments date_strftime : simpl never.
#[local] Arguments strptime : simpl never.
#[local] Arguments worked : simpl never.
#[local] Arguments weekday : simpl never.
#[local] Arguments get_weekly_hours : simpl never.
#[local] Arguments weekly_hours_of : simpl never.
#[local] Arguments entry_time : simpl never.

(** What is asked of the lunch break: a number, or a whole number. *)
Inductive lunch_kind := AnyNumber | WholeNumber.

Lemma is_int_whole x k : (x == inject_Z k)%Q -> is_int x = true.
Proof.
  intros E. unfold is_int. apply Z.eqb_eq. destruct x as [n d].
  unfold Qeq in E. cbn in *. rewrite Z.mul_1_r in E. rewrite E.
  apply Z_mod_mult.
Qed.

Lemma is_int_spec x : is_int x = true -> (x == inject_Z (floor x))%Q.
Proof.
  unfold is_int, floor. intros E. apply Z.eqb_eq in E. destruct x as [n d].
  cbn in *. unfold Qeq. cbn. rewrite Z.mul_1_r.
  pose proof (Z.div_mod n (Zpos d) ltac:(lia)). lia.
Qed.

Definition is_ok {A} (r : result A) : bool :=
  match r with Ok _ => true | Raise _ => false end.

Ltac lookups :=
  repeat first
    [ rewrite lookup_insert_eq
    | rewrite lookup_insert_ne by discriminate ].

Section Invariant.
Context {kind : lunch_kind}.

Definition present (v : option jval) : bool :=
  match v with Some _ => true | None => false end.

(** A time field: absent, or text that reads as a time on the date [k]. *)
Definition reads (k : string) (v : option jval) : bool :=
  match v with Some v => is_ok (entry_time k v) | None => true end.

Definition entry_ok (k : string) (e : dict) : bool :=
  is_ok (strptime k "%Y-%m-%d")
  && reads k (e !! "start") && reads k (e !! "end")
  && negb (is_text (e !! "hours_worked"))
  && negb (is_text (e !! "total_minutes"))
  && (negb (present (e !! "hours_worked") || present (e !! "total_minutes"))
      || present (e !! "start") && present (e !! "end")).

Definition lunch_ok (q : Q) : bool :=
  match kind with AnyNumber => true | WholeNumber => is_int q end.

Definition settings_ok (s : dict) : bool :=
  match s !! "lunch_break_minutes" with
  | Some (JNum q) => lunch_ok q
  | _ => false
  end.

Definition item_ok (k : string) (e : dict) : bool :=
  if String.eqb k "settings" then settings_ok e else entry_ok k e.

(** Every item of the store is in order. *)
Definition consistent (d : store) : Prop :=
  map_Forall (fun k e => item_ok k e = true) d.

Definition well_formed (d : store) : Prop :=
  is_Some (d !! "settings") /\ consistent d.

Global Instance consistent_dec d : Decision (consistent d).
Proof. unfold consistent. apply _. Defined.

Global Instance well_formed_dec d : Decision (well_formed d).
Proof. unfold well_formed. apply _. Defined.

(** A clock that shows a date and a time of day. *)
Definition clock_ok (now : datetime) : bool :=
  date_ok (dt_date now) && time_ok now.

Lemma consistent_insert d k e :
  consistent d -> item_ok k e = true -> consistent (<[k := e]> d).
Proof. intros Hd He. now apply map_Forall_insert_2. Qed.

Lemma consistent_delete d k : consistent d -> consistent (delete k d).
Proof. apply map_Forall_delete. Qed.

Lemma consistent_lookup d k e :
  consistent d -> d !! k = Some e -> item_ok k e = true.
Proof. intros Hd He. exact (Hd k e He). Qed.

Lemma item_ok_settings s : item_ok "settings" s = settings_ok s.
Proof. reflexivity. Qed.

Lemma item_ok_entry k e : k <> "settings" -> item_ok k e = entry_ok k e.
Proof.
  intros Hk. unfold item_ok.
  destruct (String.eqb_spec k "settings"); [contradiction|reflexivity].
Qed.

Lemma date_key_not_settings k :
  is_ok (strptime k "%Y-%m-%d") = true -> k <> "settings".
Proof. intros H ->. discriminate. Qed.

Lemma well_formed_lunch d :
  well_formed d -> exists q, lunch_of d = Some (JNum q) /\ lunch_ok q = true.
Proof.
  intros [[s Hs] Hd]. pose proof (consistent_lookup _ _ _ Hd Hs) as H.
  rewrite item_ok_settings in H. unfold settings_ok in H. unfold lunch_of.
  rewrite Hs. cbn. destruct (s !! "lunch_break_minutes") as [[t|q]|]; try discriminate.
  eauto.
Qed.

Lemma lunch_ok_int (L : Z) : lunch_ok (inject_Z L) = true.
Proof.
  unfold lunch_ok. destruct kind; [reflexivity|].
  now apply (is_int_whole _ L).
Qed.

(** What [entry_ok] says, field by field. *)
Lemma entry_ok_spec k e :
  entry_ok k e = true <->
  is_ok (strptime k "%Y-%m-%d") = true /\
  reads k (e !! "start") = true /\ reads k (e !! "end") = true /\
  is_text (e !! "hours_worked") = false /\
  is_text (e !! "total_minutes") = false /\
  (present (e !! "hours_worked") || present (e !! "total_minutes") = true ->
   present (e !! "start") = true /\ present (e !! "end") = true).
Proof.
  unfold entry_ok. rewrite !andb_true_iff, !negb_true_iff, orb_true_iff.
  rewrite negb_true_iff, andb_true_iff.
  destruct (present (e !! "hours_worked") || present (e !! "total_minutes"));
    intuition congruence.
Qed.

Lemma entry_ok_empty k :
  is_ok (strptime k "%Y-%m-%d") = true -> entry_ok k ∅ = true.
Proof. intros H. apply entry_ok_spec. rewrite !lookup_empty. cbn. intuition. Qed.

Lemma entry_ok_date k e :
  entry_ok k e = true -> is_ok (strptime k "%Y-%m-%d") = true.
Proof. intros H. now apply entry_ok_spec in H. Qed.

Lemma entry_ok_start k e v :
  entry_ok k e = true -> is_ok (entry_time k v) = true ->
  entry_ok k (<["start" := v]> e) = true.
Proof.
  rewrite !entry_ok_spec. intros (H1 & H2 & H3 & H4 & H5 & H6) Hv.
  lookups. cbn [reads present]. repeat (split; [assumption|]).
  intros H. now destruct (H6 H).
Qed.

Lemma entry_ok_end k e v :
  entry_ok k e = true -> is_ok (entry_time k v) = true ->
  entry_ok k (<["end" := v]> e) = true.
Proof.
  rewrite !entry_ok_spec. intros (H1 & H2 & H3 & H4 & H5 & H6) Hv.
  lookups. cbn [reads present]. repeat (split; [assumption|]).
  intros H. now destruct (H6 H).
Qed.

Lemma entry_ok_worked k e w :
  entry_ok k e = true ->
  present (e !! "start") = true -> present (e !! "end") = true ->
  entry_ok k (store_worked e w) = true.
Proof.
  rewrite !entry_ok_spec. intros (H1 & H2 & H3 & H4 & H5 & H6) Hs He.
  unfold store_worked. lookups. cbn [is_text]. auto 10.
Qed.

(** The weekly total of a consistent store is a number. *)
Lemma weekly_hours_of_consistent d target_date :
  consistent d -> exists w, weekly_hours_of d target_date = Ok w.
Proof.
  intros Hd. unfold weekly_hours_of.
  generalize (seq 0 7). intros l.
  assert (H : exists w : Q * list string, Ok (0%Q, []) = Ok w) by eauto.
  revert H. generalize (Ok (A:=Q * list string) (0%Q, [])).
  induction l as [|i l IH]; intros acc H; cbn [fold_left]; [exact H|].
  apply IH. destruct H as [[total dates] ->]. unfold weekly_step. cbn [rbind].
  destruct (d !! _) as [e|] eqn:E; [|eauto].
  pose proof (consistent_lookup _ _ _ Hd E) as Hi.
  rewrite item_ok_entry in Hi by apply date_strftime_not_settings.
  apply entry_ok_spec in Hi as (_ & _ & _ & Ht & _).
  destruct (e !! "hours_worked") as [[s|q]|]; cbn; eauto. discriminate.
Qed.

(** *** The roll-over *)

Lemma well_formed_cleared d : well_formed d -> well_formed (cleared d).
Proof.
  intros [[s Hs] Hd]. unfold cleared. rewrite Hs. cbn. split.
  - rewrite lookup_singleton_eq. eauto.
  - apply map_Forall_singleton. exact (Hd _ _ Hs).
Qed.

Lemma well_formed_after_rollover self today :
  well_formed (data self) -> consistent (file self) ->
  well_formed (data (after_rollover self today)) /\
  consistent (file (after_rollover self today)).
Proof.
  intros Hd Hf. unfold after_rollover.
  destruct (rollover_due _ _); cbn [data file]; [|auto].
  split; [|apply (well_formed_cleared _ Hd)]. now apply well_formed_cleared.
Qed.

Lemma well_formed_insert d k e :
  well_formed d -> item_ok k e = true -> well_formed (<[k := e]> d).
Proof.
  intros [[s Hs] Hd] He. split; [|now apply consistent_insert].
  destruct (decide (k = "settings")) as [->|Hk].
  - rewrite lookup_insert_eq. eauto.
  - rewrite lookup_insert_ne, Hs by done. eauto.
Qed.


(** *** The commands *)

(** The state of the logger is in order: the store in memory is well
    formed and what the data file holds is consistent. *)
Definition sound (self : WorkLogger) : Prop :=
  well_formed (data self) /\ consistent (file self).

(** The command returns and leaves the logger in order. *)
Definition safe {A} (c : M A) (self : WorkLogger) : Prop :=
  exists a self', c self = (Ok a, self') /\ sound self'.

Lemma strptime_raises s f e : strptime s f = Raise e -> e = ValueError.
Proof.
  unfold strptime. destruct (pattern f) as [rs|]; [|now intros [= <-]].
  destruct (sequence _ _) as [|[g [|c r]] l]; try now intros [= <-].
  destruct (date_ok _); [discriminate|now intros [= <-]].
Qed.

Lemma command_time_raises time_str now e :
  command_time time_str now = Raise e ->
  exists s, time_str = Some s /\ nonempty s = true /\
            strptime s "%H:%M" = Raise ValueError.
Proof.
  unfold command_time. destruct time_str as [s|]; [|discriminate].
  destruct (nonempty s) eqn:Hn; [|discriminate].
  destruct (strptime s "%H:%M") eqn:Hs; cbn; [discriminate|].
  intros _. exists s. rewrite (strptime_raises _ _ _ Hs) in Hs. auto.
Qed.

Lemma strptime_hm_time_ok s t : strptime s "%H:%M" = Ok t -> time_ok t = true.
Proof.
  intros H. apply strptime_hm_inv in H as (g & l & _ & -> & Hh & Hm & _).
  cbn [hour minute] in Hh, Hm. unfold time_ok.
  cbn [hour minute second microsecond].
  repeat (apply andb_true_intro; split); try reflexivity;
    first [apply Z.leb_le | apply Z.ltb_lt]; lia.
Qed.

Lemma command_time_ok time_str now t :
  command_time time_str now = Ok t -> time_ok now = true -> time_ok t = true.
Proof.
  unfold command_time. destruct time_str as [s|]; [|now intros [= <-]].
  destruct (nonempty s); [|now intros [= <-]].
  destruct (strptime s "%H:%M") eqn:Hs; cbn; [|discriminate].
  intros [= <-] _. exact (strptime_hm_time_ok _ _ Hs).
Qed.

Lemma clock_ok_spec now :
  clock_ok now = true -> date_ok (dt_date now) = true /\ time_ok now = true.
Proof. unfold clock_ok. now rewrite andb_true_iff. Qed.

(** The entry of a date in a well-formed store, or the empty entry. *)
Lemma entry_ok_default d today :
  consistent d -> date_ok today = true ->
  entry_ok (key_of today) (default ∅ (d !! key_of today)) = true.
Proof.
  intros Hd Ht. destruct (d !! key_of today) as [e|] eqn:E; cbn.
  - rewrite <- (item_ok_entry _ e (key_not_settings today)).
    exact (consistent_lookup _ _ _ Hd E).
  - apply entry_ok_empty. unfold key_of. now rewrite strptime_date_key.
Qed.

Lemma logged_time_ok today t :
  date_ok today = true -> time_ok t = true ->
  is_ok (entry_time (key_of today) (JStr (strftime t "%H:%M"))) = true.
Proof.
  intros Hd Ht. unfold entry_time, key_of.
  now rewrite logged_time_reads_back.
Qed.

Lemma log_start_safe time_str now self :
  sound self -> clock_ok now = true -> safe (log_start time_str now) self.
Proof.
  intros [Hd Hf] Hc. apply clock_ok_spec in Hc as [Hdate Htime].
  destruct (well_formed_after_rollover self (dt_date now) Hd Hf) as [Hd' Hf'].
  destruct (command_time time_str now) as [t|e] eqn:Ht.
  - eexists _, _. split; [apply (log_start_run _ _ _ _ Ht)|].
    assert (Hw : well_formed
      (<[key_of (dt_date now) :=
           <["start" := JStr (strftime t "%H:%M")]>
             (default ∅ (data (after_rollover self (dt_date now))
                          !! key_of (dt_date now)))]>
         (data (after_rollover self (dt_date now))))).
    { apply well_formed_insert; [exact Hd'|].
      rewrite item_ok_entry by apply key_not_settings.
      apply entry_ok_start.
      - apply entry_ok_default; [apply Hd'|exact Hdate].
      - apply logged_time_ok; [exact Hdate|].
        exact (command_time_ok _ _ _ Ht Htime). }
    split; cbn [data file]; [exact Hw|apply Hw].
  - apply command_time_raises in Ht as (s & -> & Hn & Hs).
    eexists _, _. split; [apply (log_start_invalid_time _ _ _ Hn Hs)|].
    split; cbn [data file]; assumption.
Qed.

Lemma log_end_invalid_time self s now :
  nonempty s = true -> strptime s "%H:%M" = Raise ValueError ->
  log_end (Some s) now self =
  (Ok false,
   let base := after_rollover self (dt_date now) in
   mkWorkLogger (data base) (file base) (stdout base ++ [MsgInvalidTimeFormat])).
Proof.
  intros Hn Hs. unfold log_end.
  unfold bind at 1. rewrite is_first_monday_input_eq.
  unfold after_rollover, clear_previous_entries, command_time. unfold_m.
  rewrite Hn, Hs. cbn.
  destruct (rollover_due (data self) (dt_date now)); reflexivity.
Qed.

Lemma reads_lookup k e f v :
  entry_ok k e = true -> (f = "start" \/ f = "end") -> e !! f = Some v ->
  exists t, entry_time k v = Ok t.
Proof.
  intros H Hf Hv. apply entry_ok_spec in H as (_ & Hs & He & _).
  destruct Hf as [-> | ->]; rewrite Hv in *; cbn in *;
    destruct (entry_time k v); try discriminate; eauto.
Qed.

Lemma log_end_safe time_str now self :
  sound self -> clock_ok now = true -> safe (log_end time_str now) self.
Proof.
  intros [Hd Hf] Hc. apply clock_ok_spec in Hc as [Hdate Htime].
  destruct (well_formed_after_rollover self (dt_date now) Hd Hf) as [Hd' Hf'].
  destruct (command_time time_str now) as [t|e] eqn:Ht.
  - destruct (data self !! key_of (dt_date now) ≫= (.!! "start")) as [v|] eqn:Hv.
    + destruct (data self !! key_of (dt_date now)) as [e|] eqn:He; [|discriminate].
      cbn in Hv.
      pose proof (consistent_lookup _ _ _ (proj2 Hd) He) as Hi.
      rewrite item_ok_entry in Hi by apply key_not_settings.
      destruct (reads_lookup _ _ _ _ Hi (or_introl eq_refl) Hv) as [st Hst].
      destruct (well_formed_lunch _ Hd) as (q & Hq & _).
      pose proof (log_end_run _ _ _ _ _ _ _ _ Ht He Hv Hst Hq) as Hrun.
      cbv zeta in Hrun.
      match type of Hrun with
      | _ = match weekly_hours_of ?d' _ with _ => _ end =>
          assert (Hw : well_formed d')
      end.
      { apply well_formed_insert; [exact Hd|].
        rewrite item_ok_entry by apply key_not_settings.
        apply entry_ok_worked.
        - apply entry_ok_end; [exact Hi|].
          apply logged_time_ok; [exact Hdate|].
          exact (command_time_ok _ _ _ Ht Htime).
        - rewrite lookup_insert_ne, Hv by discriminate. reflexivity.
        - now rewrite lookup_insert_eq. }
      destruct (weekly_hours_of_consistent _ (dt_date now) (proj2 Hw)) as [w Hwk].
      rewrite Hwk in Hrun. eexists _, _. split; [exact Hrun|].
      split; cbn [data file]; [exact Hw|apply Hw].
    + eexists _, _. split; [apply (log_end_missing_start_run _ _ _ _ Ht Hv)|].
      cbv zeta. split; cbn [data file]; [|exact Hf'].
      destruct (data (after_rollover self (dt_date now)) !! key_of (dt_date now))
        eqn:E; [exact Hd'|].
      apply well_formed_insert; [exact Hd'|].
      rewrite item_ok_entry by apply key_not_settings.
      apply entry_ok_empty. unfold key_of. now rewrite strptime_date_key.
  - apply command_time_raises in Ht as (s & -> & Hn & Hs).
    eexists _, _. split; [apply (log_end_invalid_time _ _ _ Hn Hs)|].
    split; cbn [data file]; assumption.
Qed.


(** *** Deleting and configuring *)

Lemma delete_day_safe date_input confirm self :
  sound self -> safe (delete_day date_input confirm) self.
Proof.
  intros [Hd Hf]. unfold safe, delete_day. unfold_m. cbn.
  destruct (bool_decide (work_entries (data self) = ∅)); [eexists _, _; split; [reflexivity|now split]|].
  destruct (nonempty date_input); cbn; [|eexists _, _; split; [reflexivity|now split]].
  destruct (bool_decide (data self !! date_input = None)); cbn;
    [eexists _, _; split; [reflexivity|now split]|].
  destruct (String.eqb_spec date_input "settings") as [->|Hk]; cbn;
    [eexists _, _; split; [reflexivity|now split]|].
  destruct (_ || _); cbn; (eexists _, _; split; [reflexivity|]);
    [|now split].
  assert (Hw : well_formed (delete date_input (data self))).
  { destruct Hd as [[s Hs] Hc]. split; [|now apply consistent_delete].
    rewrite lookup_delete_ne, Hs by done. eauto. }
  split; cbn [data file]; [exact Hw|apply Hw].
Qed.

Lemma consistent_recalculated lunch d :
  consistent d -> consistent (recalculated lunch d).
Proof.
  intros Hd k e' He'. rewrite lookup_recalculated in He'.
  destruct (d !! k) as [e|] eqn:E; [|discriminate]. cbn in He'.
  injection He' as <-. pose proof (Hd k e E) as Hi. cbn in Hi. cbn.
  unfold recalculate_entry, item_ok in *.
  destruct (String.eqb k "settings"); [exact Hi|].
  destruct (e !! "start") as [vs|] eqn:Es; [|exact Hi].
  destruct (e !! "end") as [ve|] eqn:Ee; [|exact Hi].
  destruct (entry_time k vs); [|exact Hi].
  destruct (entry_time k ve); [|exact Hi]. cbn.
  apply entry_ok_worked; [exact Hi| |]; [now rewrite Es|now rewrite Ee].
Qed.

Lemma well_formed_recalculated lunch d :
  well_formed d -> well_formed (recalculated lunch d).
Proof.
  intros [[s Hs] Hd]. split; [|now apply consistent_recalculated].
  rewrite lookup_recalculated, Hs. cbn. eauto.
Qed.

Lemma lunch_of_recalculated lunch d :
  lunch_of (recalculated lunch d) = lunch_of d.
Proof.
  unfold lunch_of. rewrite lookup_recalculated.
  destruct (d !! "settings"); reflexivity.
Qed.

Lemma recalculate_all_entries_safe self :
  sound self -> safe recalculate_all_entries self.
Proof.
  intros [Hd Hf]. destruct (well_formed_lunch _ Hd) as (q & Hq & _).
  eexists _, _. split; [apply (recalculate_all_entries_run _ _ Hq)|].
  cbv zeta. pose proof (well_formed_recalculated q _ Hd) as Hw.
  destruct (0 <? _)%nat; split; cbn [data file]; auto. apply Hw.
Qed.

(** The menu of [configure_lunch_break] when no duration is chosen. *)
Definition rejection (choice : string) (custom_input : option Z) : message :=
  if String.eqb choice "6" then
    match custom_input with
    | Some _ => MsgInvalidDuration
    | None => MsgInvalidNumber
    end
  else if String.eqb choice "7" then MsgConfigurationCancelled
  else MsgInvalidChoice.

Lemma configure_lunch_break_rejected self choice custom_input q0 :
  new_minutes choice custom_input = None ->
  lunch_of (data self) = Some (JNum q0) ->
  configure_lunch_break choice custom_input self =
  (Ok tt, mkWorkLogger (data self) (file self)
            (stdout self ++ [rejection choice custom_input])).
Proof.
  intros Hn Hq. unfold configure_lunch_break.
  unfold bind at 1. rewrite (get_lunch_break_minutes_eq self q0 Hq).
  unfold new_minutes in Hn. unfold rejection.
  destruct (String.eqb choice "1"); [discriminate|].
  destruct (String.eqb choice "2"); [discriminate|].
  destruct (String.eqb choice "3"); [discriminate|].
  destruct (String.eqb choice "4"); [discriminate|].
  destruct (String.eqb choice "5"); [discriminate|].
  destruct (String.eqb_spec choice "6") as [->|H6].
  - destruct custom_input as [m|]; [|reflexivity].
    destruct (_ && _); [discriminate|reflexivity].
  - destruct (String.eqb choice "7"); reflexivity.
Qed.

Lemma configure_lunch_break_safe choice custom_input self :
  sound self -> safe (configure_lunch_break choice custom_input) self.
Proof.
  intros [Hd Hf]. destruct (well_formed_lunch _ Hd) as (q & Hq & _).
  destruct (new_minutes choice custom_input) as [L|] eqn:Hn.
  - pose proof Hq as Hq'. unfold lunch_of in Hq'.
    destruct (data self !! "settings") as [s|] eqn:Hs; [|discriminate].
    cbn in Hq'. unfold safe.
    rewrite (configure_lunch_break_run _ _ _ _ _ _ Hn Hs Hq'). cbv zeta.
    apply recalculate_all_entries_safe.
    assert (Hw : well_formed
      (<["settings" := <["lunch_break_minutes" := JNum (inject_Z L)]> s]>
         (data self))).
    { apply well_formed_insert; [exact Hd|].
      rewrite item_ok_settings. unfold settings_ok.
      rewrite lookup_insert_eq. apply lunch_ok_int. }
    split; cbn [data file]; [exact Hw|apply Hw].
  - eexists _, _.
    split; [apply (configure_lunch_break_rejected _ _ _ _ Hn Hq)|].
    now split.
Qed.


(** *** Editing a day *)

(** [edit_past_day] once the date has been accepted: the entry is created
    when the date has none, ... *)
Definition after_create (date_input : string) (self : WorkLogger) : WorkLogger :=
  match data self !! date_input with
  | None =>
      mkWorkLogger (<[date_input := ∅]> (data self)) (file self)
        (stdout self ++ [MsgCreatedEntry date_input])
  | Some _ => self
  end.

(** ... each prompt stores its answer when that reads as a time, ... *)
Definition after_prompt (field : string) (updated : string -> message)
  (not_changed : message) (input date_input : string) (self : WorkLogger)
  : WorkLogger :=
  if nonempty input then
    match strptime input "%H:%M" with
    | Ok _ =>
        mkWorkLogger
          (<[date_input :=
               <[field := JStr input]> (default ∅ (data self !! date_input))]>
             (data self))
          (file self) (stdout self ++ [updated input])
    | Raise _ =>
        mkWorkLogger (data self) (file self) (stdout self ++ [not_changed])
    end
  else self.

(** ... and the hours are computed again and the store is saved. *)
Definition edit_finish (date_input : string) : M unit :=
  let* d := get_data in
  let* _ :=
    match d !! date_input ≫= (.!! "start"),
          d !! date_input ≫= (.!! "end") with
    | Some start_str, Some end_str =>
        let* start_datetime := lift (entry_time date_input start_str) in
        let* end_datetime := lift (entry_time date_input end_str) in
        let* lunch_minutes := get_lunch_break_minutes in
        let w := worked start_datetime end_datetime lunch_minutes in
        let* _ := setitem2 date_input "hours_worked" (JNum (fst w)) in
        let* _ :=
          setitem2 date_input "total_minutes" (JNum (of_Z (snd w))) in
        print MsgHoursRecalculated
    | _, _ => ret tt
    end in
  let* _ := save_data in
  print (MsgChangesSaved date_input).

Definition after_prompts (date_input new_start new_end : string)
  (self : WorkLogger) : WorkLogger :=
  after_prompt "end" MsgEndUpdated MsgEndNotChanged new_end date_input
    (after_prompt "start" MsgStartUpdated MsgStartNotChanged new_start date_input
       (after_create date_input self)).

Lemma edit_past_day_steps self date_input new_start new_end d :
  work_entries (data self) <> ∅ ->
  strptime date_input "%Y-%m-%d" = Ok d ->
  edit_past_day date_input new_start new_end self =
  edit_finish date_input (after_prompts date_input new_start new_end self).
Proof.
  intros Hw Hd. unfold edit_past_day, edit_finish, after_prompts, after_prompt,
    after_create.
  destruct self as [dat fil out]. unfold_m. cbn [data file stdout] in *.
  rewrite bool_decide_eq_false_2 by exact Hw.
  rewrite (strptime_ymd_nonempty _ _ Hd), Hd. cbn [negb].
  destruct (dat !! date_input) as [e|] eqn:E; cbn;
    destruct (nonempty new_start); cbn;
    try destruct (strptime new_start "%H:%M"); cbn;
    rewrite ?E, ?lookup_insert_eq; cbn;
    destruct (nonempty new_end); cbn;
    try destruct (strptime new_end "%H:%M"); cbn;
    repeat (progress (rewrite ?E, ?lookup_insert_eq; cbn));
    reflexivity.
Qed.

Lemma sound_after_create date_input self d :
  strptime date_input "%Y-%m-%d" = Ok d -> sound self ->
  sound (after_create date_input self) /\
  is_Some (data (after_create date_input self) !! date_input).
Proof.
  intros Hd [Hw Hf]. unfold after_create.
  destruct (data self !! date_input) as [e|] eqn:E.
  - rewrite E. split; [now split|eauto].
  - cbn [data]. rewrite lookup_insert_eq. split; [|eauto].
    split; cbn [data file]; [|exact Hf].
    apply well_formed_insert; [exact Hw|].
    rewrite item_ok_entry by (apply date_key_not_settings; now rewrite Hd).
    apply entry_ok_empty. now rewrite Hd.
Qed.

Lemma sound_after_prompt field updated not_changed input date_input self d :
  field = "start" \/ field = "end" ->
  strptime date_input "%Y-%m-%d" = Ok d -> sound self ->
  is_Some (data self !! date_input) ->
  sound (after_prompt field updated not_changed input date_input self) /\
  is_Some (data (after_prompt field updated not_changed input date_input self)
           !! date_input).
Proof.
  intros Hfield Hd [Hw Hf] [e He]. unfold after_prompt.
  destruct (nonempty input); [|split; [now split|eauto]].
  destruct (strptime input "%H:%M") as [t|x] eqn:Ht; cbn [data file];
    [|split; [now split|eauto]].
  rewrite lookup_insert_eq. split; [|eauto].
  split; cbn [data file]; [|exact Hf].
  assert (Hk : date_input <> "settings")
    by (apply date_key_not_settings; now rewrite Hd).
  apply well_formed_insert; [exact Hw|].
  rewrite item_ok_entry by exact Hk. rewrite He. cbn [default].
  pose proof (consistent_lookup _ _ _ (proj2 Hw) He) as Hi.
  rewrite item_ok_entry in Hi by exact Hk.
  assert (Hr : is_ok (entry_time date_input (JStr input)) = true).
  { unfold entry_time. now rewrite (strptime_date_time _ _ _ _ Hd Ht). }
  destruct Hfield as [-> | ->];
    [now apply entry_ok_start|now apply entry_ok_end].
Qed.

#[local] Arguments get_lunch_break_minutes : simpl never.


(** The last step when the entry lacks a time: the store is saved as it
    is. *)
Lemma edit_finish_skip date_input self e :
  data self !! date_input = Some e ->
  e !! "start" = None \/ e !! "end" = None ->
  edit_finish date_input self =
  (Ok tt,
   mkWorkLogger (data self) (data self)
     (stdout self ++ [MsgChangesSaved date_input])).
Proof.
  intros He Hm. unfold edit_finish. unfold_m. cbn. rewrite He. cbn.
  destruct (e !! "start") as [vs|]; [|reflexivity].
  destruct (e !! "end") as [ve|]; [|reflexivity].
  now destruct Hm.
Qed.

Lemma edit_finish_safe date_input self d :
  strptime date_input "%Y-%m-%d" = Ok d -> sound self ->
  is_Some (data self !! date_input) ->
  safe (edit_finish date_input) self.
Proof.
  intros Hd [Hw Hf] [e He].
  assert (Hk : date_input <> "settings")
    by (apply date_key_not_settings; now rewrite Hd).
  pose proof (consistent_lookup _ _ _ (proj2 Hw) He) as Hi.
  rewrite item_ok_entry in Hi by exact Hk.
  destruct (well_formed_lunch _ Hw) as (q & Hq & _).
  unfold safe, edit_finish. unfold_m. cbn. rewrite He. cbn.
  destruct (e !! "start") as [vs|] eqn:Es;
    [|eexists _, _; split; [reflexivity|]; split; cbn [data file]; [exact Hw|apply Hw]].
  destruct (e !! "end") as [ve|] eqn:Ee;
    [|eexists _, _; split; [reflexivity|]; split; cbn [data file]; [exact Hw|apply Hw]].
  destruct (reads_lookup _ _ _ _ Hi (or_introl eq_refl) Es) as [st Hst].
  destruct (reads_lookup _ _ _ _ Hi (or_intror eq_refl) Ee) as [et Het].
  rewrite Hst, Het, (get_lunch_break_minutes_eq _ _ Hq). cbn.
  rewrite He. cbn. rewrite lookup_insert_eq.
  cbn. rewrite insert_insert_eq.
  eexists _, _. split; [reflexivity|].
  assert (Hw' : well_formed
    (<[date_input :=
         <["total_minutes" := JNum (of_Z (worked st et q).2)]>
           (<["hours_worked" := JNum (worked st et q).1]> e)]> (data self))).
  { apply well_formed_insert; [exact Hw|].
    rewrite item_ok_entry by exact Hk.
    apply (entry_ok_worked _ _ (worked st et q) Hi);
      [now rewrite Es|now rewrite Ee]. }
  split; cbn [data file]; [exact Hw'|apply Hw'].
Qed.

Lemma edit_past_day_safe date_input new_start new_end self :
  sound self -> safe (edit_past_day date_input new_start new_end) self.
Proof.
  intros Hs.
  destruct (decide (work_entries (data self) = ∅)) as [Hw|Hw].
  { eexists _, _. split; [apply (edit_past_day_no_logs _ _ _ _ Hw)|].
    destruct Hs. now split. }
  destruct (strptime date_input "%Y-%m-%d") as [d|x] eqn:Hd.
  - unfold safe. rewrite (edit_past_day_steps _ _ _ _ _ Hw Hd).
    unfold after_prompts.
    destruct (sound_after_create _ _ _ Hd Hs) as [H1 H1'].
    destruct (sound_after_prompt "start" MsgStartUpdated MsgStartNotChanged
                new_start _ _ _ (or_introl eq_refl) Hd H1 H1') as [H2 H2'].
    destruct (sound_after_prompt "end" MsgEndUpdated MsgEndNotChanged
                new_end _ _ _ (or_intror eq_refl) Hd H2 H2') as [H3 H3'].
    exact (edit_finish_safe _ _ _ Hd H3 H3').
  - unfold safe, edit_past_day. unfold_m. cbn.
    rewrite bool_decide_eq_false_2 by exact Hw. rewrite Hd.
    destruct Hs as [Hs1 Hs2].
    destruct (nonempty date_input); cbn;
      (eexists _, _; split; [reflexivity|]; now split).
Qed.


(** *** The counter and the views *)

(** The command returns and leaves the logger as it is. *)
Definition shows {A} (c : M A) (self : WorkLogger) : Prop :=
  exists a, c self = (Ok a, self).


Lemma view_today_shows now self :
  well_formed (data self) -> shows (view_today now) self.
Proof.
  intros Hw. unfold shows, view_today. unfold bind at 1. unfold get_data at 1.
  destruct (data self !! _) as [e|]; [|unfold ret; eauto].
  destruct (weekly_hours_of_consistent _ (dt_date now) (proj2 Hw)) as [w Hwk].
  unfold bind. rewrite get_weekly_hours_eq, Hwk. unfold ret. eauto.
Qed.

Lemma view_week_fold d week_start l :
  consistent d ->
  forall acc, exists w,
    fold_left (view_week_step d week_start) l (Ok acc) = Ok w.
Proof.
  intros Hd. induction l as [|i l IH]; intros [total shown]; cbn [fold_left];
    [eauto|].
  unfold view_week_step at 2. cbn [rbind].
  destruct (d !! _) as [e|] eqn:E; [|apply IH].
  pose proof (consistent_lookup _ _ _ Hd E) as Hi.
  rewrite item_ok_entry in Hi by apply date_strftime_not_settings.
  apply entry_ok_spec in Hi as (_ & _ & _ & Ht & _).
  destruct (e !! "hours_worked") as [[s|q]|]; cbn; try apply IH. discriminate.
Qed.

Lemma view_week_shows now self :
  well_formed (data self) -> shows (view_week now) self.
Proof.
  intros Hw. destruct (well_formed_lunch _ Hw) as (q & Hq & _).
  destruct (view_week_fold (data self) (get_week_start (dt_date now)) (seq 0 7)
              (proj2 Hw) (0%Q, [])) as [w Hf].
  unfold shows, view_week. unfold bind, get_data, lift, ret.
  rewrite Hf, (get_lunch_break_minutes_eq _ _ Hq). eauto.
Qed.

Lemma view_all_fold items :
  Forall (fun item => entry_ok (fst item) (snd item) = true) items ->
  forall st, exists st', fold_left view_all_step items (Ok st) = Ok st'.
Proof.
  induction 1 as [|[k e] items Hi _ IH]; intros st; cbn [fold_left]; [eauto|].
  unfold view_all_step at 2. cbn [rbind fst snd] in *.
  apply entry_ok_spec in Hi as (Hk & _ & _ & Ht & _).
  destruct (strptime k "%Y-%m-%d") as [t|]; [|discriminate].
  destruct (e !! "hours_worked") as [[s|q]|]; cbn; try apply IH. discriminate.
Qed.

Lemma sorted_items_ok d :
  consistent d ->
  Forall (fun item => entry_ok (fst item) (snd item) = true)
    (sorted_items (work_entries d)).
Proof.
  intros Hd. apply Forall_forall. intros [k e] Hin.
  unfold sorted_items in Hin. rewrite merge_sort_Permutation in Hin.
  apply elem_of_map_to_list in Hin. unfold work_entries in Hin.
  apply lookup_delete_Some in Hin as [Hk He]. cbn.
  rewrite <- (item_ok_entry k e) by congruence.
  exact (consistent_lookup _ _ _ Hd He).
Qed.

Lemma view_all_shows self :
  well_formed (data self) -> shows view_all self.
Proof.
  intros Hw. destruct (well_formed_lunch _ Hw) as (q & Hq & _).
  destruct (view_all_fold _ (sorted_items_ok _ (proj2 Hw)) (mkAllState 0 None 0 []))
    as [st Hf].
  unfold shows, view_all. unfold bind, get_data, lift, ret.
  destruct (bool_decide _); [eauto|].
  rewrite Hf, (get_lunch_break_minutes_eq _ _ Hq). eauto.
Qed.

(** *** Reading leaves the logger as it is *)

(** How [get_current_work_time] ends: without session, with an exception,
    or with the projection made from the lunch break of the store. *)
Lemma get_current_work_time_cases now self :
  get_current_work_time now self = (Ok None, self) \/
  (exists x, get_current_work_time now self = (Raise x, self)) \/
  exists start start_datetime lunch weekly,
    lunch_of (data self) = Some (JNum lunch) /\
    get_current_work_time now self =
    (Ok (Some (projection start start_datetime now lunch weekly)), self).
Proof.
  unfold get_current_work_time. unfold_m.
  destruct (data self !! _) as [e|]; [|now left].
  destruct (e !! "start") as [vs|]; [|now left].
  destruct (e !! "end") as [ve|]; [now left|].
  destruct (entry_time _ vs) as [st|[]]; [|now left|right; left; eauto..].
  unfold get_lunch_break_minutes, lunch_of. unfold_m.
  destruct (data self !! "settings") as [s|]; cbn; [|right; left; eauto].
  destruct (s !! "lunch_break_minutes") as [[t|q]|]; cbn;
    [right; left; eauto| |right; left; eauto].
  rewrite get_weekly_hours_eq.
  destruct (weekly_hours_of _ _) as [w|[]]; [|now left|right; left; eauto..].
  right. right. eauto 10.
Qed.

Lemma get_lunch_break_minutes_state self :
  snd (get_lunch_break_minutes self) = self.
Proof.
  unfold get_lunch_break_minutes. unfold_m.
  destruct (data self !! "settings") as [s|]; [|reflexivity].
  destruct (s !! "lunch_break_minutes"); reflexivity.
Qed.

Lemma bind_state {A B} (c : M A) (k : A -> M B) self :
  snd (c self) = self -> (forall a, snd (k a self) = self) ->
  snd ((let* a := c in k a) self) = self.
Proof.
  intros Hc Hk. unfold bind. destruct (c self) as [[a|x] self1]; cbn in *;
    subst self1; [apply Hk|reflexivity].
Qed.

Lemma get_current_work_time_state now self :
  snd (get_current_work_time now self) = self.
Proof.
  destruct (get_current_work_time_cases now self)
    as [H|[[x H]|(start & st & lunch & weekly & _ & H)]]; now rewrite H.
Qed.

Lemma display_work_counter_state now self :
  snd (display_work_counter now self) = self.
Proof.
  apply bind_state; [apply get_current_work_time_state|].
  intros [w|]; reflexivity.
Qed.

Lemma view_today_state now self : snd (view_today now self) = self.
Proof.
  unfold view_today. apply bind_state; [reflexivity|]. intros d.
  destruct (d !! _); [|reflexivity].
  apply bind_state; [reflexivity|reflexivity].
Qed.

Lemma view_week_state now self : snd (view_week now self) = self.
Proof.
  unfold view_week. apply bind_state; [reflexivity|]. intros d.
  apply bind_state; [reflexivity|]. intros week.
  apply bind_state; [apply get_lunch_break_minutes_state|reflexivity].
Qed.

Lemma view_all_state self : snd (view_all self) = self.
Proof.
  unfold view_all. apply bind_state; [reflexivity|]. intros d.
  destruct (bool_decide _); [reflexivity|].
  apply bind_state; [reflexivity|]. intros st.
  apply bind_state; [apply get_lunch_break_minutes_state|reflexivity].
Qed.

(** *** The menu *)

Lemma safe_then {A B} (c : M A) (k : A -> M B) self :
  sound self -> safe c self -> (forall a self', sound self' -> safe (k a) self') ->
  safe (let* a := c in k a) self.
Proof.
  intros Hs (a & self' & Hc & Hs') Hk. unfold safe, bind. rewrite Hc.
  exact (Hk a self' Hs').
Qed.

Lemma shows_then {A B} (c : M A) (k : A -> M B) self :
  shows c self -> (forall a, safe (k a) self) -> safe (let* a := c in k a) self.
Proof.
  intros [a Hc] Hk. unfold safe, bind. rewrite Hc. exact (Hk a).
Qed.

Lemma safe_ret {A} (a : A) self : sound self -> safe (ret a) self.
Proof. intros Hs. exists a, self. now split. Qed.

Lemma run_choice_safe now a counter self :
  sound self -> clock_ok now = true -> safe (run_choice now a counter) self.
Proof.
  intros Hs Hc. unfold run_choice.
  repeat match goal with
         | |- safe (if String.eqb ?x ?y then _ else _) _ =>
             destruct (String.eqb x y)
         end.
  - apply safe_then; [exact Hs| |intros; now apply safe_ret].
    destruct (nonempty _); now apply log_start_safe.
  - apply safe_then; [exact Hs| |intros; now apply safe_ret].
    destruct (nonempty _); now apply log_end_safe.
  - apply shows_then; [apply view_today_shows, Hs|]. intros. now apply safe_ret.
  - apply shows_then; [apply view_week_shows, Hs|]. intros. now apply safe_ret.
  - apply shows_then; [apply view_all_shows, Hs|]. intros. now apply safe_ret.
  - apply safe_then; [exact Hs| |intros; now apply safe_ret].
    now apply edit_past_day_safe.
  - apply safe_then; [exact Hs| |intros; now apply safe_ret].
    now apply delete_day_safe.
  - apply safe_then; [exact Hs| |intros; now apply safe_ret].
    now apply configure_lunch_break_safe.
  - now apply safe_ret.
  - now apply safe_ret.
Qed.

(** A turn leaves the logger in order, also when the counter fails. *)
Lemma menu_turn_kept now a self :
  sound self -> clock_ok now = true -> sound (snd (menu_turn now a self)).
Proof.
  intros Hs Hc. unfold menu_turn, bind.
  pose proof (display_work_counter_state now self) as E.
  destruct (display_work_counter now self) as [[counter|x] self'];
    cbn [snd] in E; subst self'; [|exact Hs].
  destruct (run_choice_safe now a counter self Hs Hc) as (r & s' & -> & Hs').
  exact Hs'.
Qed.

Lemma main_loop_kept turns : forall self,
  sound self -> Forall (fun turn => clock_ok (fst turn) = true) turns ->
  sound (snd (main_loop turns self)).
Proof.
  induction turns as [|[now a] turns IH]; intros self Hs Hc; cbn [main_loop].
  - exact Hs.
  - apply Forall_cons in Hc as [Hnow Hc]. cbn [fst] in Hnow.
    pose proof (menu_turn_kept now a self Hs Hnow) as Hk. unfold bind.
    destruct (menu_turn now a self) as [[[shown continue]|x] self'];
      cbn [snd] in *; [|exact Hk].
    destruct continue; [now apply IH|exact Hk].
Qed.

Lemma sound_load_data contents :
  consistent (default ∅ contents) -> sound (load_data contents).
Proof.
  intros Hc. unfold load_data. split; cbn [data file]; [|exact Hc].
  destruct (default ∅ contents !! "settings") as [s|] eqn:Es.
  - pose proof (consistent_lookup _ _ _ Hc Es) as Hi.
    rewrite item_ok_settings in Hi. unfold settings_ok in Hi.
    destruct (s !! "lunch_break_minutes") as [v|]; [|discriminate].
    split; [rewrite Es; eauto|exact Hc].
  - split; [rewrite lookup_insert_eq; eauto|].
    apply consistent_insert; [exact Hc|].
    unfold item_ok, settings_ok, lunch_ok. destruct kind; reflexivity.
Qed.

End Invariant.

Arguments lunch_ok : clear implicits.
Arguments settings_ok : clear implicits.
Arguments item_ok : clear implicits.
Arguments consistent : clear implicits.
Arguments well_formed : clear implicits.
Arguments sound : clear implicits.
Arguments safe kind {A} c self.

(** *** The counter with a whole lunch break *)

Lemma projection_mins_int start start_datetime now lunch weekly :
  is_int lunch = true ->
  is_int (mins_until_7h (projection start start_datetime now lunch weekly))
  = true.
Proof.
  intros Hl. apply is_int_spec in Hl.
  set (total := int_of (total_minutes_of (datetime_sub now start_datetime))).
  assert (E : mins_until_7h (projection start start_datetime now lunch weekly)
              = if Qltb 0 (420 + lunch - of_Z total)
                then mod60 (420 + lunch - of_Z total) else 0%Q).
  { unfold projection. cbv zeta. fold total.
    destruct (Qltb 0 _); destruct (_ && _); reflexivity. }
  rewrite E. clear E. destruct (Qltb 0 _); [|reflexivity].
  unfold mod60.
  set (z := floordiv60 _). set (k := floor lunch) in *. clearbody z k total.
  apply (is_int_whole _ (420 + k - total - 60 * z)).
  unfold of_Z, Zminus.
  rewrite !inject_Z_plus, !inject_Z_opp, inject_Z_mult.
  change (inject_Z 420) with 420%Q. change (inject_Z 60) with 60%Q. lra.
Qed.





End StoreFacts.

(** ** [load_data] on any JSON value *)

Module RawDataFacts.
Import Calendar Strptime PyNum WorkLoggerModel Shell RawData.

(** X7.  [load_data] on whatever JSON value the data file holds.  It
    raises [TypeError] unless the value is a dict whose settings are
    absent, a dict, or a list or a text that holds the name of the lunch
    setting.  When it returns, every key but the settings is as in the
    file; settings that were absent are the default of 30 minutes,
    settings that are a dict have the lunch break of the file or else 30
    and their other fields as in the file, and settings that are a list or
    a text stay as they are, without a lunch break.  On a store it agrees
    with [WorkLoggerModel.load_data]. *)
Theorem load_data_settings :
  (forall contents : option json,
     let raw := default (JObject ∅) contents in
     match load_data_json contents with
     | Raise x => x = TypeError /\ loadable raw = false
     | Ok data =>
         loadable raw = true /\
         exists m m',
           raw = JObject m /\ data = JObject m' /\
           (forall k, k <> "settings" -> m' !! k = m !! k) /\
           match m !! "settings" with
           | None =>
               m' !! "settings"
               = Some (JObject {[ "lunch_break_minutes" := JNumber 30 ]})
           | Some (JObject s) =>
               exists s',
                 m' !! "settings" = Some (JObject s') /\
                 s' !! "lunch_break_minutes"
                 = Some (default (JNumber 30) (s !! "lunch_break_minutes")) /\
                 forall f, f <> "lunch_break_minutes" -> s' !! f = s !! f
           | Some other => m' !! "settings" = Some other
           end
     end) /\
  (forall contents : option store,
     load_data_json (of_store <$> contents)
     = Ok (of_store (data (load_data contents)))).
Proof.
  split.
  - intros contents. cbv zeta. unfold load_data_json.
    destruct (default (JObject ∅) contents) as [| b | q | s | l | m] eqn:Ed;
      cbn [contains rbind loadable]; try (split; reflexivity).
    + destruct (is_substring "settings" s); cbn [negb setitem getitem rbind];
        split; reflexivity.
    + destruct (existsb (is_string "settings") l);
        cbn [negb setitem getitem rbind]; split; reflexivity.
    + destruct (m !! "settings") as [v|] eqn:Es; cbn [negb setitem getitem rbind].
      * rewrite Es. cbn [rbind].
        destruct v as [| b | q | s | l | s]; cbn [contains rbind];
          try (split; reflexivity).
        -- destruct (is_substring "lunch_break_minutes" s) eqn:E;
             cbn [negb setitem rbind]; [|split; reflexivity].
           split; [reflexivity|]. exists m, m. rewrite Es. auto.
        -- destruct (existsb (is_string "lunch_break_minutes") l) eqn:E;
             cbn [negb setitem rbind]; [|split; reflexivity].
           split; [reflexivity|]. exists m, m. rewrite Es. auto.
        -- destruct (s !! "lunch_break_minutes") as [v|] eqn:El;
             cbn [negb setitem rbind]; (split; [reflexivity|]).
           ++ exists m, m. rewrite Es. repeat split; try reflexivity.
              exists s. rewrite El. auto.
           ++ eexists m, _. split; [reflexivity|]. split; [reflexivity|].
              split; [intros k Hk; now rewrite lookup_insert_ne by congruence|].
              rewrite Es. eexists. split; [apply lookup_insert_eq|].
              rewrite El. split; [apply lookup_insert_eq|].
              intros f Hf. now rewrite lookup_insert_ne by congruence.
      * split; [reflexivity|]. eexists m, _.
        split; [reflexivity|]. split; [reflexivity|].
        split; [intros k Hk; now rewrite lookup_insert_ne by congruence|].
        rewrite Es. apply lookup_insert_eq.
  - intros contents. unfold load_data_json, load_data. cbn [data].
    assert (Ed : default (JObject ∅) (of_store <$> contents)
                 = of_store (default ∅ contents)).
    { destruct contents as [d|]; cbn; [reflexivity|].
      unfold of_store. now rewrite fmap_empty. }
    rewrite Ed. set (d := default ∅ contents). clearbody d. clear Ed.
    change (of_store d) with (JObject (of_dict <$> d)).
    cbn [contains rbind]. rewrite lookup_fmap.
    destruct (d !! "settings") as [s|] eqn:Es; cbn [fmap option_fmap option_map negb].
    + cbn [getitem rbind]. rewrite lookup_fmap, Es.
      cbn [fmap option_fmap option_map rbind].
      change (of_dict s) with (JObject (of_jval <$> s)).
      cbn [contains rbind]. rewrite lookup_fmap.
      destruct (s !! "lunch_break_minutes") as [v|] eqn:El;
        cbn [fmap option_fmap option_map negb rbind setitem]; [reflexivity|].
      unfold of_store, of_dict. now rewrite !fmap_insert.
    + cbn [setitem]. unfold of_store. rewrite fmap_insert.
      unfold default_settings, of_dict. now rewrite map_fmap_singleton.
Qed.

End RawDataFacts.

(** ** Further properties of the program

    The theorems marked X1, X2, ... are read off the code: the behaviour
    of the commands at their edges, what the menu keeps true from turn to
    turn, and how the commands compose. *)

Module Properties.
Import Calendar Strptime PyNum WorkLoggerModel Shell.
Import CalendarFacts CalendarMore StrptimeFacts StrptimeMore PyNumFacts.
Import WorkedFacts CommandFacts StoreFacts Samples.

#[local] Arguments strftime : simpl never.
#[local] Arguments date_strftime : simpl never.
#[local] Arguments strptime : simpl never.
#[local] Arguments entry_time : simpl never.


Definition typed (choice time_input date_input new_start new_end confirm : string)
  : answers :=
  mkAnswers choice time_input date_input new_start new_end confirm "" None.

(** A session: a start, a view, an edit with an unreadable end, an end, a
    deletion, a change of the lunch break, a wrong choice, the exit. *)
Definition session : list (datetime * answers) :=
  [ (DateTime (Date 2024 1 2) 8 58 40 0, typed "1" "" "" "" "" "");
    (DateTime (Date 2024 1 2) 12 0 3 0, typed "5" "" "" "" "" "");
    (DateTime (Date 2024 1 2) 12 1 0 0, typed "6" "" "2024-01-03" "8:5" "25:00" "");
    (DateTime (Date 2024 1 2) 17 30 0 0, typed "2" "17:31" "" "" "" "");
    (DateTime (Date 2024 1 2) 17 31 0 0, typed "7" "" "2023-12-28" "" "" "yes");
    (DateTime (Date 2024 1 2) 17 32 0 0,
     mkAnswers "8" "" "" "" "" "" "6" (Some 45));
    (DateTime (Date 2024 1 2) 17 33 0 0, typed "x" "" "" "" "" "");
    (DateTime (Date 2024 1 2) 17 34 0 0, typed "9" "" "" "" "" "") ].


(** X2.  Whatever is typed during a run of [main] that starts on a
    consistent data file, an entry of the store that holds
    ["hours_worked"] or ["total_minutes"] at the end has a key that reads
    as a date and holds a start and an end, both texts that read as times
    on that date. *)
Theorem stored_hours_have_times contents turns k e :
  consistent AnyNumber (default ∅ contents) ->
  Forall (fun turn => clock_ok (fst turn) = true) turns ->
  data (snd (main contents turns)) !! k = Some e ->
  k <> "settings" ->
  is_Some (e !! "hours_worked") \/ is_Some (e !! "total_minutes") ->
  exists day start_str end_str start_t end_t,
    strptime k "%Y-%m-%d" = Ok day /\
    e !! "start" = Some (JStr start_str) /\ e !! "end" = Some (JStr end_str) /\
    entry_time k (JStr start_str) = Ok start_t /\
    entry_time k (JStr end_str) = Ok end_t.
Proof.
  intros Hc Ht He Hk Hh. unfold main in He.
  pose proof (main_loop_kept turns (load_data contents)
                (sound_load_data contents Hc) Ht) as Hs.
  pose proof (consistent_lookup _ _ _ (proj2 (proj1 Hs)) He) as Hi.
  rewrite item_ok_entry in Hi by exact Hk.
  apply entry_ok_spec in Hi as (Hd & Hrs & Hre & _ & _ & Hp).
  destruct (strptime k "%Y-%m-%d") as [day|] eqn:Ed; [|discriminate].
  assert (Hboth : present (e !! "start") = true /\ present (e !! "end") = true).
  { apply Hp. destruct Hh as [[v Hv]|[v Hv]]; rewrite Hv; cbn;
      [reflexivity|apply orb_true_r]. }
  destruct Hboth as [H1 H2].
  destruct (e !! "start") as [vs|]; [|discriminate].
  destruct (e !! "end") as [ve|]; [|discriminate].
  cbn in Hrs, Hre.
  destruct (entry_time k vs) as [st|] eqn:Est; [|discriminate].
  destruct (entry_time k ve) as [et|] eqn:Eet; [|discriminate].
  destruct vs as [ss|q]; [|discriminate]. destruct ve as [se|q]; [|discriminate].
  exists day, ss, se, st, et. auto.
Qed.

Lemma stored_hours_have_times_witness :
  let self' := snd (main (Some last_week) session) in
  let e := day_entry "08:58" "17:31" (39 # 5) 468 in
  exists day start_str end_str start_t end_t,
    strptime "2024-01-02" "%Y-%m-%d" = Ok day /\
    e !! "start" = Some (JStr start_str) /\ e !! "end" = Some (JStr end_str) /\
    entry_time "2024-01-02" (JStr start_str) = Ok start_t /\
    entry_time "2024-01-02" (JStr end_str) = Ok end_t.
Proof.
  cbv zeta.
  apply (stored_hours_have_times (Some last_week) session "2024-01-02").
  - by_evaluation.
  - by_evaluation.
  - by_evaluation.
  - discriminate.
  - left. by_evaluation.
Defined.

#[local] Arguments worked : simpl never.

Lemma strptime_hm_whole_minute s t :
  strptime s "%H:%M" = Ok t -> whole_minute t.
Proof.
  intros H. split; [exact (strptime_hm_time_ok _ _ H)|].
  apply strptime_hm_inv in H as (g & l & _ & -> & _). split; reflexivity.
Qed.

Lemma lunch_of_insert d k e :
  k <> "settings" -> lunch_of (<[k := e]> d) = lunch_of d.
Proof. intros Hk. unfold lunch_of. now rewrite lookup_insert_ne. Qed.



(** X4.  [edit_past_day] takes an end for a date whose entry has no start
    (or that has no entry): with the first prompt left empty and an answer
    to the second that reads as a time, the entry holds that end and still
    no start, no hours are computed, and the store is saved. *)
Theorem edit_stores_end_without_start self date_input new_end d te :
  work_entries (data self) <> ∅ ->
  strptime date_input "%Y-%m-%d" = Ok d ->
  strptime new_end "%H:%M" = Ok te ->
  data self !! date_input ≫= (.!! "start") = None ->
  exists self',
    edit_past_day date_input "" new_end self = (Ok tt, self') /\
    data self' =
      <[date_input := <["end" := JStr new_end]>
                        (default ∅ (data self !! date_input))]> (data self) /\
    file self' = data self' /\
    data self' !! date_input ≫= (.!! "start") = None /\
    data self' !! date_input ≫= (.!! "end") = Some (JStr new_end).
Proof.
  intros Hw Hd He Hs.
  rewrite (edit_past_day_steps _ _ _ _ _ Hw Hd).
  unfold after_prompts, after_prompt. cbn [nonempty].
  destruct (strptime_hm_inv _ _ He) as (_ & _ & _ & _ & _ & _ & c2 & s2 & E2 & _).
  replace (nonempty new_end) with true by now rewrite E2.
  rewrite He.
  assert (Hdata :
    <[date_input := <["end" := JStr new_end]>
        (default ∅ (data (after_create date_input self) !! date_input))]>
      (data (after_create date_input self)) =
    <[date_input := <["end" := JStr new_end]>
        (default ∅ (data self !! date_input))]> (data self)).
  { unfold after_create. destruct (data self !! date_input) as [e|] eqn:E.
    - now rewrite E.
    - cbn [data]. rewrite lookup_insert_eq. cbn. now rewrite insert_insert_eq. }
  assert (Hstart :
    <["end" := JStr new_end]> (default ∅ (data self !! date_input)) !! "start"
    = None).
  { rewrite lookup_insert_ne by discriminate.
    destruct (data self !! date_input) as [e|]; [exact Hs|apply lookup_empty]. }
  erewrite edit_finish_skip; cycle 1.
  - cbn [data]. rewrite Hdata. apply lookup_insert_eq.
  - left. exact Hstart.
  - cbn [data]. rewrite Hdata. eexists. split; [reflexivity|]. cbn [data file].
    split; [reflexivity|]. split; [reflexivity|].
    rewrite lookup_insert_eq. cbn. split; [exact Hstart|apply lookup_insert_eq].
Qed.

Lemma edit_stores_end_without_start_witness :
  exists self',
    edit_past_day "2023-12-30" "" "17:00" (logger last_week) = (Ok tt, self') /\
    data self' = <["2023-12-30" := {[ "end" := JStr "17:00" ]}]> last_week /\
    file self' = data self'.
Proof.
  destruct (edit_stores_end_without_start (logger last_week) "2023-12-30" "17:00"
              (at_time 2023 12 30 0 0) (at_time 1900 1 1 17 0))
    as (self' & Hrun & Hdata & Hfile & _); try by_evaluation.
  exists self'. split; [exact Hrun|]. split; [|exact Hfile].
  rewrite Hdata. by_evaluation.
Defined.

Lemma numeric_hours_cleared d : numeric_hours d -> numeric_hours (cleared d).
Proof.
  intros Hn. unfold cleared. apply map_Forall_singleton.
  destruct (d !! "settings") as [s|] eqn:E; cbn; [exact (Hn _ _ E)|reflexivity].
Qed.

Lemma lunch_of_cleared d v : lunch_of d = Some v -> lunch_of (cleared d) = Some v.
Proof.
  unfold lunch_of, cleared. rewrite lookup_singleton_eq.
  destruct (d !! "settings"); [now cbn|discriminate].
Qed.

Lemma after_rollover_keeps self today v :
  numeric_hours (data self) -> lunch_of (data self) = Some v ->
  numeric_hours (data (after_rollover self today)) /\
  lunch_of (data (after_rollover self today)) = Some v.
Proof.
  intros Hn Hl. unfold after_rollover. destruct (rollover_due _ _); cbn [data].
  - split; [now apply numeric_hours_cleared|now apply lunch_of_cleared].
  - now split.
Qed.

Lemma whole_minute_on_date t d :
  whole_minute t -> whole_minute (DateTime d (hour t) (minute t) 0 0).
Proof.
  destruct t as [d0 h m sec us]. unfold whole_minute, time_ok.
  cbn [hour minute second microsecond]. intros (H & -> & ->). auto.
Qed.

Lemma strftime_hm t : strftime t "%H:%M" = pad2 (hour t) ++ ":" ++ pad2 (minute t).
Proof. reflexivity. Qed.

(** X5.  A start and then an end logged with times that read as HH:MM, on
    the same valid date: what [log_start] wrote is read back by [log_end]
    as the time typed.  The entry of the day then holds both times
    written as two digits each, the minutes between them (an end before
    the start being on the next day) less the integer lunch break [L], and
    that number in hours to two decimals; it is saved. *)
Theorem start_then_end_of_day self start_str end_str now1 now2 ts te (L : Z) :
  date_ok (dt_date now1) = true -> dt_date now2 = dt_date now1 ->
  strptime start_str "%H:%M" = Ok ts ->
  strptime end_str "%H:%M" = Ok te ->
  lunch_of (data self) = Some (JNum (inject_Z L)) ->
  numeric_hours (data self) ->
  exists self1 self2 e,
    log_start (Some start_str) now1 self = (Ok true, self1) /\
    log_end (Some end_str) now2 self1 = (Ok true, self2) /\
    file self2 = data self2 /\
    data self2 !! key_of (dt_date now1) = Some e /\
    e !! "start" = Some (JStr (strftime ts "%H:%M")) /\
    e !! "end" = Some (JStr (strftime te "%H:%M")) /\
    e !! "total_minutes" = Some (JNum (inject_Z (span_minutes ts te - L))) /\
    e !! "hours_worked" =
      Some (JNum (round2 (inject_Z (span_minutes ts te - L) / 60))).
Proof.
  intros Hdate Hsame Hs He Hl Hn.
  pose proof (strptime_hm_whole_minute _ _ Hs) as Hws.
  pose proof (strptime_hm_whole_minute _ _ He) as Hwe.
  destruct (strptime_hm_inv _ _ Hs) as (_ & _ & _ & _ & _ & _ & c1 & s1 & E1 & _).
  destruct (strptime_hm_inv _ _ He) as (_ & _ & _ & _ & _ & _ & c2 & s2 & E2 & _).
  assert (Ht1 : command_time (Some start_str) now1 = Ok (replace_date ts (dt_date now1))).
  { unfold command_time. rewrite E1. cbn [nonempty]. rewrite <- E1, Hs. reflexivity. }
  assert (Ht2 : command_time (Some end_str) now2 = Ok (replace_date te (dt_date now1))).
  { unfold command_time. rewrite E2. cbn [nonempty]. rewrite <- E2, He, Hsame.
    reflexivity. }
  destruct (after_rollover_keeps self (dt_date now1) _ Hn Hl) as [Hn' Hl'].
  pose proof (log_start_run self _ _ _ Ht1) as Hrun1. cbv zeta in Hrun1.
  set (today := key_of (dt_date now1)) in *.
  set (base := after_rollover self (dt_date now1)) in *.
  set (e1 := <["start" := JStr (strftime (replace_date ts (dt_date now1)) "%H:%M")]>
               (default ∅ (data base !! today))) in *.
  set (d1 := <[today := e1]> (data base)) in *.
  assert (Hn1 : numeric_hours d1).
  { apply map_Forall_insert_2; [|exact Hn']. unfold e1. cbn.
    rewrite lookup_insert_ne by discriminate.
    destruct (data base !! today) as [e|] eqn:E; cbn;
      [exact (Hn' _ _ E)|now rewrite lookup_empty]. }
  assert (Hl1 : lunch_of d1 = Some (JNum (inject_Z L))).
  { unfold d1. rewrite lunch_of_insert by apply key_not_settings. exact Hl'. }
  assert (Hread : entry_time today (JStr (strftime (replace_date ts (dt_date now1)) "%H:%M"))
                  = Ok (DateTime (dt_date now1) (hour ts) (minute ts) 0 0)).
  { unfold entry_time, today, key_of.
    exact (logged_time_reads_back _ (replace_date ts (dt_date now1)) Hdate
             (proj1 Hws)). }
  pose proof (log_end_run (mkWorkLogger d1 d1
                (stdout base ++ [MsgWorkStartLogged today
                   (strftime (replace_date ts (dt_date now1)) "%H:%M")]))
                (Some end_str) now2 _ e1
                (JStr (strftime (replace_date ts (dt_date now1)) "%H:%M"))
                (DateTime (dt_date now1) (hour ts) (minute ts) 0 0)
                (inject_Z L) Ht2) as Hrun2.
  cbn [data stdout] in Hrun2. rewrite Hsame in Hrun2. fold today in Hrun2.
  specialize (Hrun2 (lookup_insert_eq _ _ _) (lookup_insert_eq _ _ _) Hread Hl1).
  cbv zeta in Hrun2.
  rewrite worked_whole in Hrun2;
    [|reflexivity|now apply whole_minute_on_date|exact Hwe].
  match type of Hrun2 with
  | _ = match weekly_hours_of ?d2 _ with _ => _ end =>
      assert (Hn2 : numeric_hours d2)
  end.
  { apply map_Forall_insert_2; [|exact Hn1]. unfold store_worked.
    cbn [fst snd]. now lookups. }
  destruct (weekly_hours_of_ok _ (dt_date now1) Hn2) as [w Hw].
  rewrite Hw in Hrun2.
  eexists _, _, _. split; [exact Hrun1|]. split; [exact Hrun2|]. cbn [data file].
  split; [reflexivity|]. rewrite lookup_insert_eq. split; [reflexivity|].
  unfold store_worked, e1. cbn [fst snd].
  assert (Hspan : span_minutes (DateTime (dt_date now1) (hour ts) (minute ts) 0 0)
                    (replace_date te (dt_date now1)) = span_minutes ts te)
    by reflexivity.
  rewrite Hspan.
  repeat split; lookups; reflexivity.
Qed.

Lemma start_then_end_of_day_witness :
  exists self1 self2,
    log_start (Some "9:5") (DateTime (Date 2024 1 2) 9 7 31 0) (logger last_week)
      = (Ok true, self1) /\
    log_end (Some "17:35") (DateTime (Date 2024 1 2) 17 36 2 0) self1
      = (Ok true, self2) /\
    data self2 !! "2024-01-02" = Some (day_entry "09:05" "17:35" 8 480).
Proof.
  destruct (start_then_end_of_day (logger last_week) "9:5" "17:35"
              (DateTime (Date 2024 1 2) 9 7 31 0)
              (DateTime (Date 2024 1 2) 17 36 2 0)
              (at_time 1900 1 1 9 5) (at_time 1900 1 1 17 35) 30)
    as (self1 & self2 & e & H1 & H2 & _ & He & Hs & Hen & Ht & Hh);
    try by_evaluation.
  exists self1, self2. split; [exact H1|]. split; [exact H2|].
  apply (f_equal snd) in H1, H2. cbn [snd] in H1, H2. subst self1 self2.
  by_evaluation.
Defined.

#[local] Arguments weekday : simpl never.

Lemma weekday_bounds d : 0 <= weekday d < 7.
Proof. unfold weekday. apply Z.mod_pos_bound. lia. Qed.

Lemma weekday_add_days d k :
  0 <= weekday d + k < 7 -> weekday (date_add_days d k) = weekday d + k.
Proof.
  intros H. unfold weekday in *. rewrite toordinal_add_days.
  replace (toordinal d + k + 6) with (toordinal d + 6 + k) by lia.
  pose proof (Z.div_mod (toordinal d + 6) 7 ltac:(lia)) as E.
  replace (toordinal d + 6 + k)
    with ((toordinal d + 6) mod 7 + k + (toordinal d + 6) / 7 * 7) by lia.
  rewrite Z.mod_add by lia. now apply Z.mod_small.
Qed.

(** The days of one week have the same start of the week. *)
Lemma get_week_start_same d k :
  0 <= weekday d + k < 7 ->
  get_week_start (date_add_days d k) = get_week_start d.
Proof.
  intros H. unfold get_week_start. rewrite (weekday_add_days _ _ H).
  unfold date_add_days at 1 3. rewrite toordinal_add_days. f_equal. lia.
Qed.

(** X6.  The start of the week of a date is a Monday, the date itself or
    one of the six days before it, and every day from that Monday to the
    Sunday after it has the same start of the week; so [get_weekly_hours]
    gives the same total and the same seven dates for every day of one
    week. *)
Theorem week_start_of_the_week d :
  weekday (get_week_start d) = 0 /\
  toordinal (get_week_start d) = toordinal d - weekday d /\
  0 <= weekday d <= 6 /\
  (forall k, 0 <= weekday d + k <= 6 ->
     get_week_start (date_add_days d k) = get_week_start d /\
     forall self,
       get_weekly_hours (date_add_days d k) self = get_weekly_hours d self).
Proof.
  split; [apply weekday_week_start|].
  split; [unfold get_week_start; rewrite toordinal_add_days; lia|].
  pose proof (weekday_bounds d). split; [lia|].
  intros k Hk.
  assert (E : get_week_start (date_add_days d k) = get_week_start d)
    by (apply get_week_start_same; lia).
  split; [exact E|]. intros self. unfold get_weekly_hours.
  now rewrite E.
Qed.

(** X8.  [delete_day] returns whatever is typed, and it either leaves the
    store and the data file as they are or removes the one key typed and
    saves the store; it removes the key exactly when something was typed
    for the date, the key is in the store and is not ["settings"], and the
    answer to the confirmation is [y] or [yes]. *)
Theorem delete_day_removes_on_confirmation self date_input confirm :
  exists self',
    delete_day date_input confirm self = (Ok tt, self') /\
    if nonempty date_input
       && bool_decide (is_Some (data self !! date_input))
       && negb (String.eqb date_input "settings")
       && (String.eqb confirm "y" || String.eqb confirm "yes")
    then data self' = delete date_input (data self) /\ file self' = data self' /\
         stdout self' = (stdout self ++ [MsgEntryDeleted date_input])%list
    else data self' = data self /\ file self' = file self.
Proof.
  unfold delete_day. unfold_m. cbn.
  destruct (nonempty date_input) eqn:Hn; cbn;
    [|destruct (bool_decide (work_entries (data self) = ∅));
      eexists; (split; [reflexivity|]); now cbn].
  destruct (data self !! date_input) as [e|] eqn:He.
  - rewrite (bool_decide_eq_true_2 (is_Some (Some e))) by eauto.
    rewrite (bool_decide_eq_false_2 (Some e = None)) by discriminate. cbn.
    destruct (String.eqb_spec date_input "settings") as [->|Hk]; cbn.
    + destruct (bool_decide (work_entries (data self) = ∅));
        eexists; (split; [reflexivity|]); now cbn.
    + assert (Hw : work_entries (data self) <> ∅).
      { intros H. apply (f_equal (.!! date_input)) in H.
        unfold work_entries in H.
        rewrite lookup_empty, lookup_delete_ne, He in H by congruence.
        discriminate. }
      rewrite bool_decide_eq_false_2 by exact Hw.
      destruct (_ || _); eexists; (split; [reflexivity|]); now cbn.
  - rewrite (bool_decide_eq_false_2 (is_Some None)) by (intros [? ?]; discriminate).
    rewrite (bool_decide_eq_true_2 (None = None)) by reflexivity. cbn.
    destruct (bool_decide (work_entries (data self) = ∅));
      eexists; (split; [reflexivity|]); now cbn.
Qed.

(** X9.  [configure_lunch_break] on a store with a numeric lunch setting:
    the choices 1 to 5 set 0, 15, 30, 45 and 60 minutes, the choice 6 sets
    the number typed when it lies between 0 and 120, and the new value is
    then the setting in memory and in the data file; a number outside that
    range, an answer that is no number, the choice 7 and any other choice
    leave the store and the data file as they are. *)
Theorem configure_lunch_break_outcome self choice custom_input q0 :
  lunch_of (data self) = Some (JNum q0) ->
  exists self',
    configure_lunch_break choice custom_input self = (Ok tt, self') /\
    match
      (if String.eqb choice "1" then Some 0
       else if String.eqb choice "2" then Some 15
       else if String.eqb choice "3" then Some 30
       else if String.eqb choice "4" then Some 45
       else if String.eqb choice "5" then Some 60
       else if String.eqb choice "6" then
         match custom_input with
         | Some m => if (0 <=? m) && (m <=? 120) then Some m else None
         | None => None
         end
       else None)
    with
    | Some minutes =>
        0 <= minutes <= 120 /\
        lunch_of (data self') = Some (JNum (inject_Z minutes)) /\
        lunch_of (file self') = Some (JNum (inject_Z minutes)) /\
        get_lunch_break_minutes self' = (Ok (inject_Z minutes), self')
    | None =>
        data self' = data self /\ file self' = file self /\
        stdout self' = (stdout self ++ [rejection choice custom_input])%list
    end.
Proof.
  intros Hq. fold (new_minutes choice custom_input).
  destruct (new_minutes choice custom_input) as [L|] eqn:Hn.
  - assert (HL : 0 <= L <= 120).
    { unfold new_minutes in Hn.
      repeat match type of Hn with
             | (if ?b then _ else _) = _ => destruct b
             end; try (injection Hn as <-; lia); try discriminate.
      destruct custom_input as [m|]; [|discriminate].
      destruct (Z.leb_spec 0 m), (Z.leb_spec m 120); cbn in Hn;
        try discriminate. injection Hn as <-. lia. }
    pose proof Hq as Hq'. unfold lunch_of in Hq'.
    destruct (data self !! "settings") as [s|] eqn:Hs; [|discriminate].
    cbn in Hq'.
    rewrite (configure_lunch_break_run _ _ _ _ _ _ Hn Hs Hq'). cbv zeta.
    set (d1 := <["settings" := <["lunch_break_minutes" := JNum (inject_Z L)]> s]>
                 (data self)).
    assert (Hl1 : lunch_of d1 = Some (JNum (inject_Z L))).
    { unfold lunch_of, d1. rewrite lookup_insert_eq. cbn. apply lookup_insert_eq. }
    rewrite (recalculate_all_entries_run _ (inject_Z L)) by exact Hl1.
    cbv zeta. cbn [data file stdout].
    eexists. split; [reflexivity|]. split; [exact HL|].
    assert (Hl2 : lunch_of (recalculated (inject_Z L) d1) = Some (JNum (inject_Z L)))
      by now rewrite lunch_of_recalculated.
    destruct (0 <? _)%nat; cbn [data file];
      (split; [exact Hl2|]); (split; [assumption|]);
      now apply get_lunch_break_minutes_eq.
  - eexists. split; [apply (configure_lunch_break_rejected _ _ _ _ Hn Hq)|].
    cbn [data file stdout]. auto.
Qed.

Lemma configure_lunch_break_outcome_witness :
  exists self',
    configure_lunch_break "6" (Some 90) (logger last_week) = (Ok tt, self') /\
    lunch_of (data self') = Some (JNum 90) /\
    lunch_of (file self') = Some (JNum 90) /\
    get_lunch_break_minutes self' = (Ok 90%Q, self').
Proof.
  destruct (configure_lunch_break_outcome (logger last_week) "6" (Some 90) 30)
    as (self' & Hrun & H); [by_evaluation|].
  exists self'. split; [exact Hrun|]. exact (proj2 H).
Defined.

#[local] Arguments datetime_add : simpl never.
#[local] Arguments datetime_sub : simpl never.
#[local] Arguments get_weekly_hours : simpl never.
#[local] Arguments get_lunch_break_minutes : simpl never.

Lemma Qltb_inject a b : Qltb (inject_Z a) (inject_Z b) = (a <? b).
Proof.
  unfold Qltb. destruct (Z.ltb_spec a b) as [H|H].
  - apply negb_true_iff. destruct (Qle_bool _ _) eqn:E; [|reflexivity].
    apply Qle_bool_iff in E. rewrite <- Zle_Qle in E. lia.
  - apply negb_false_iff. apply Qle_bool_iff. rewrite <- Zle_Qle. lia.
Qed.

Lemma Qltb_proper a a' b b' : a == a' -> b == b' -> Qltb a b = Qltb a' b'.
Proof.
  intros Ha Hb. unfold Qltb. f_equal.
  destruct (Qle_bool b a) eqn:E1, (Qle_bool b' a') eqn:E2; try reflexivity.
  - apply Qle_bool_iff in E1. rewrite Ha, Hb in E1.
    apply Qle_bool_iff in E1. congruence.
  - apply Qle_bool_iff in E2. rewrite <- Ha, <- Hb in E2.
    apply Qle_bool_iff in E2. congruence.
Qed.

(** X11.  The counter words the lunch break by the work time, the
    projection deducts it by the time elapsed: with more than 240 minutes
    elapsed, a whole lunch break [L] and at most 240 minutes left after the
    deduction, the work time shown is the time elapsed less the lunch
    break, and the note beside it says that the lunch break will be
    deducted. *)
Theorem counter_note_lags_deduction self now e start_v start_t (L : Z) weekly :
  data self !! key_of (dt_date now) = Some e ->
  e !! "start" = Some start_v -> e !! "end" = None ->
  entry_time (key_of (dt_date now)) start_v = Ok start_t ->
  lunch_of (data self) = Some (JNum (inject_Z L)) ->
  weekly_hours_of (data self) (dt_date now) = Ok weekly ->
  let elapsed := int_of (total_minutes_of (datetime_sub now start_t)) in
  240 < elapsed -> 0 < L < elapsed -> elapsed - L <= 240 ->
  exists shown hours minutes,
    display_work_counter now self = (Ok shown, self) /\
    In (LWorkTime hours minutes (LunchWillBeDeducted (inject_Z L))) shown /\
    (of_Z hours * 60 + minutes == of_Z (elapsed - L))%Q.
Proof.
  intros He Hv Hn Hs Hl Hw. cbv zeta. intros H240 [Hpos Hlt] Hle.
  unfold display_work_counter, bind, lift.
  rewrite (get_current_work_time_run _ _ _ _ _ _ _ He Hv Hn Hs Hl Hw).
  set (elapsed := int_of (total_minutes_of (datetime_sub now start_t))) in *.
  set (w := projection start_v start_t now (inject_Z L) weekly.1).
  assert (Ework : total_work_minutes w = (of_Z elapsed - inject_Z L)%Q).
  { unfold w, projection. cbv zeta. fold elapsed.
    replace (240 <? elapsed) with true by (symmetry; now apply Z.ltb_lt).
    destruct (Qltb 0 _); destruct (_ && _); reflexivity. }
  assert (Elunch : lunch_minutes w = inject_Z L).
  { unfold w, projection. cbv zeta.
    destruct (Qltb 0 _); destruct (_ && _); reflexivity. }
  assert (Emin : work_minutes w = mod60 (total_work_minutes w)).
  { unfold w, projection. cbv zeta.
    destruct (Qltb 0 _); destruct (_ && _); reflexivity. }
  assert (Ehours : work_hours w = floordiv60 (total_work_minutes w)).
  { unfold w, projection. cbv zeta.
    destruct (Qltb 0 _); destruct (_ && _); reflexivity. }
  assert (Ediff : (of_Z elapsed - inject_Z L == inject_Z (elapsed - L))%Q).
  { unfold of_Z, Zminus. rewrite inject_Z_plus, inject_Z_opp. reflexivity. }
  assert (Hint : is_int (mins_until_7h w) = true).
  { apply projection_mins_int. now apply (is_int_whole _ L). }
  assert (Hshown : exists rule,
            counter_lines w =
            Ok ([LSessionActive; LStarted (start_time w);
                 LElapsed (elapsed_hours w) (elapsed_minutes w)]
                ++ [LWorkTime (work_hours w) (work_minutes w)
                      (LunchWillBeDeducted (inject_Z L))]
                ++ [LWeeklyProgress (weekly_hours w) (remaining_weekly_hours w)]
                ++ rule ++ [LBlank])%list).
  { unfold counter_lines, format_02d. rewrite Hint, Elunch, Ework.
    rewrite (Qltb_proper 0 (inject_Z 0) _ (inject_Z (elapsed - L)))
      by (try reflexivity; exact Ediff).
    rewrite (Qltb_proper 240 (inject_Z 240) _ (inject_Z (elapsed - L)))
      by (try reflexivity; exact Ediff).
    change (Qltb 0 (inject_Z L)) with (Qltb (inject_Z 0) (inject_Z L)).
    rewrite !Qltb_inject.
    replace (0 <? elapsed - L) with true by (symmetry; apply Z.ltb_lt; lia).
    replace (0 <? L) with true by (symmetry; apply Z.ltb_lt; lia).
    replace (240 <? elapsed - L) with false by (symmetry; apply Z.ltb_ge; lia).
    destruct (weekly_target_reached w); [cbn [rbind]; eauto|].
    destruct (daily_target_reached w); cbn [rbind]; eauto. }
  destruct Hshown as [rule Hshown].
  eexists _, (work_hours w), (work_minutes w).
  rewrite Hshown. split; [reflexivity|]. split.
  - apply in_or_app. right. now left.
  - rewrite Emin, Ehours, Ework, <- Ediff. unfold mod60. ring.
Qed.

Lemma counter_note_lags_deduction_witness :
  let self := logger (<["2024-01-02" := {[ "start" := JStr "09:00" ]}]> last_week) in
  let now := DateTime (Date 2024 1 2) 13 20 0 0 in
  (exists shown hours minutes,
     display_work_counter now self = (Ok shown, self) /\
     In (LWorkTime hours minutes (LunchWillBeDeducted 30)) shown /\
     (of_Z hours * 60 + minutes == of_Z (260 - 30))%Q) /\
  display_work_counter now self =
    (Ok [LSessionActive; LStarted (JStr "09:00"); LElapsed 4 20;
         LWorkTime 3 50 (LunchWillBeDeducted 30); LWeeklyProgress 0 35;
         LLeaveDaily (Some "16:30") 3 10; LBlank], self).
Proof.
  cbv zeta. split; [|by_evaluation].
  apply (counter_note_lags_deduction
           (logger (<["2024-01-02" := {[ "start" := JStr "09:00" ]}]> last_week))
           (DateTime (Date 2024 1 2) 13 20 0 0)
           {[ "start" := JStr "09:00" ]} (JStr "09:00")
           (at_time 2024 1 2 9 0) 30
           (0%Q, ["2024-01-01"; "2024-01-02"; "2024-01-03"; "2024-01-04";
                  "2024-01-05"; "2024-01-06"; "2024-01-07"])).
  - by_evaluation.
  - by_evaluation.
  - by_evaluation.
  - by_evaluation.
  - by_evaluation.
  - by_evaluation.
  - by_evaluation.
  - by_evaluation.
  - by_evaluation.
Defined.

#[local] Arguments weekly_hours_of : simpl never.

(** The loops of [view_week] and of [get_weekly_hours] run in step: they
    stop on the same exception or reach the same total. *)
Lemma view_week_fold_weekly d week_start l : forall total shown dates,
  match fold_left (weekly_step d week_start) l (Ok (total, dates)) with
  | Ok w =>
      exists days,
        fold_left (view_week_step d week_start) l (Ok (total, shown)) =
        Ok (fst w, (shown ++ days)%list) /\
        length days = length l
  | Raise x =>
      fold_left (view_week_step d week_start) l (Ok (total, shown)) = Raise x
  end.
Proof.
  assert (Hraise : forall (x : exn) l',
    fold_left (weekly_step d week_start) l' (Raise x) = Raise x /\
    fold_left (view_week_step d week_start) l' (Raise x) = Raise x).
  { intros x l'. induction l' as [|i l' IH]; [now split|exact IH]. }
  induction l as [|i l IH]; intros total shown dates; cbn [fold_left].
  - exists []. now rewrite app_nil_r.
  - set (day_i := date_add_days week_start (Z.of_nat i)).
    set (key := date_strftime day_i "%Y-%m-%d").
    assert (Hw : weekly_step d week_start (Ok (total, dates)) i =
      match d !! key with
      | Some entry =>
          rbind (number (default (JNum 0) (entry !! "hours_worked")))
            (fun hours => Ok ((total + hours)%Q, (dates ++ [key])%list))
      | None => Ok (total, (dates ++ [key])%list)
      end) by reflexivity.
    assert (Hv : view_week_step d week_start (Ok (total, shown)) i =
      match d !! key with
      | Some entry =>
          rbind (number (default (JNum 0) (entry !! "hours_worked")))
            (fun hours =>
               Ok ((total + hours)%Q,
                   (shown ++ [LDay (Qltb 0 hours) (weekday day_i) key hours])%list))
      | None => Ok (total, (shown ++ [LDayNoLog (weekday day_i) key])%list)
      end) by reflexivity.
    rewrite Hw, Hv. clear Hw Hv.
    destruct (d !! key) as [e|].
    + destruct (number _) as [hours|x]; cbn [rbind].
      * specialize (IH (total + hours)%Q
                      (shown ++ [LDay (Qltb 0 hours) (weekday day_i) key hours])%list
                      (dates ++ [key])%list).
        destruct (fold_left (weekly_step d week_start) l _) as [w|x]; [|exact IH].
        destruct IH as (days & Hf & Hlen). eexists (_ :: days).
        rewrite Hf, <- app_assoc. split; [reflexivity|]. cbn. now rewrite Hlen.
      * destruct (Hraise x l) as [-> ->]. reflexivity.
    + specialize (IH total (shown ++ [LDayNoLog (weekday day_i) key])%list
                    (dates ++ [key])%list).
      destruct (fold_left (weekly_step d week_start) l _) as [w|x]; [|exact IH].
      destruct IH as (days & Hf & Hlen). eexists (_ :: days).
      rewrite Hf, <- app_assoc. split; [reflexivity|]. cbn. now rewrite Hlen.
Qed.

(** X12.  [view_week] shows the total that [get_weekly_hours] returns for
    today, after seven lines for the days of the week; it says that the
    target is reached exactly when that total is 35 or more, and it fails
    with the same exception when [get_weekly_hours] fails.  It changes
    nothing. *)
Theorem view_week_shows_weekly_hours now self :
  match get_weekly_hours (dt_date now) self with
  | (Ok w, _) =>
      forall q, lunch_of (data self) = Some (JNum q) ->
      exists days,
        length days = 7%nat /\
        view_week now self =
        (Ok ([LWeekHeader (key_of (get_week_start (dt_date now)))] ++ days ++
             [LWeekTotal (fst w);
              if Qltb 0 (35 - fst w) then LRemaining (35 - fst w)
              else LTargetReached;
              lunch_line q; LBlank])%list, self)
  | (Raise x, _) => view_week now self = (Raise x, self)
  end.
Proof.
  rewrite get_weekly_hours_eq. unfold weekly_hours_of.
  pose proof (view_week_fold_weekly (data self) (get_week_start (dt_date now))
                (seq 0 7) 0%Q [] []) as H.
  destruct (fold_left (weekly_step _ _) _ _) as [w|x].
  - destruct H as (days & Hf & Hlen). intros q Hq. exists days.
    split; [exact Hlen|].
    unfold view_week, bind, get_data, lift, ret.
    rewrite Hf, (get_lunch_break_minutes_eq _ _ Hq). reflexivity.
  - unfold view_week, bind, get_data, lift. now rewrite H.
Qed.

(** *** The listing of [view_all] *)

(** The key of an entry line, the hours it shows, the hours of a week
    subtotal. *)
Definition entry_keys (shown : list line) : list string :=
  flat_map (fun l => match l with LEntry k _ _ _ => [k] | _ => [] end) shown.

Definition hours_shown (l : line) : Q :=
  match l with LEntry _ _ _ h => h | _ => 0 end.

Definition subtotal_shown (l : line) : Q :=
  match l with LWeekSubtotal h => h | _ => 0 end.

Definition entry_hours (shown : list line) : Q :=
  fold_right (fun l acc => (hours_shown l + acc)%Q) 0%Q shown.

Definition subtotals (shown : list line) : Q :=
  fold_right (fun l acc => (subtotal_shown l + acc)%Q) 0%Q shown.

Lemma entry_keys_app a b : entry_keys (a ++ b) = (entry_keys a ++ entry_keys b)%list.
Proof. apply flat_map_app. Qed.

Lemma entry_hours_app a b : (entry_hours (a ++ b) == entry_hours a + entry_hours b)%Q.
Proof.
  induction a as [|l a IH].
  - change (entry_hours ([] ++ b)) with (entry_hours b).
    change (entry_hours []) with 0%Q. ring.
  - change (entry_hours ((l :: a) ++ b))
      with (hours_shown l + entry_hours (a ++ b))%Q.
    change (entry_hours (l :: a)) with (hours_shown l + entry_hours a)%Q.
    rewrite IH. ring.
Qed.

Lemma subtotals_app a b : (subtotals (a ++ b) == subtotals a + subtotals b)%Q.
Proof.
  induction a as [|l a IH].
  - change (subtotals ([] ++ b)) with (subtotals b).
    change (subtotals []) with 0%Q. ring.
  - change (subtotals ((l :: a) ++ b))
      with (subtotal_shown l + subtotals (a ++ b))%Q.
    change (subtotals (l :: a)) with (subtotal_shown l + subtotals a)%Q.
    rewrite IH. ring.
Qed.

Lemma entry_hours_cons l a : entry_hours (l :: a) = (hours_shown l + entry_hours a)%Q.
Proof. reflexivity. Qed.

Lemma subtotals_cons l a : subtotals (l :: a) = (subtotal_shown l + subtotals a)%Q.
Proof. reflexivity. Qed.

(** What holds of the variables of the loop after every turn. *)
Definition listing_ok (done : list string) (st : all_state) : Prop :=
  entry_keys (lines st) = done /\
  (total_hours st == entry_hours (lines st))%Q /\
  (total_hours st == subtotals (lines st) + week_total st)%Q /\
  (current_week_start st = None -> (week_total st == 0)%Q).

Lemma view_all_step_listing done st k e st' :
  listing_ok done st ->
  view_all_step (Ok st) (k, e) = Ok st' ->
  listing_ok (done ++ [k]) st'.
Proof.
  intros (Hk & Hh & Hs & Hn). unfold view_all_step. cbn [rbind].
  destruct (number _) as [hours|]; [|discriminate]. cbn [rbind].
  destruct (strptime k "%Y-%m-%d") as [t|]; [|discriminate]. cbn [rbind].
  intros [= <-]. unfold listing_ok.
  cbn [lines total_hours week_total current_week_start].
  split; [|split; [|split; [|discriminate]]].
  - rewrite !entry_keys_app, Hk.
    destruct (negb _); [destruct (current_week_start st)|]; reflexivity.
  - rewrite !entry_hours_app, Hh.
    destruct (negb _); [destruct (current_week_start st)|]; cbn; ring.
  - rewrite !subtotals_app, Hs.
    destruct (negb _); [destruct (current_week_start st) eqn:E|]; cbn;
      try ring. rewrite (Hn eq_refl). ring.
Qed.

Lemma view_all_fold_listing items : forall done st st',
  listing_ok done st ->
  fold_left view_all_step items (Ok st) = Ok st' ->
  listing_ok (done ++ map fst items) st'.
Proof.
  induction items as [|[k e] items IH]; intros done st st' Hst Hf.
  - cbn in Hf. injection Hf as <-. cbn. now rewrite app_nil_r.
  - cbn [fold_left] in Hf.
    destruct (view_all_step (Ok st) (k, e)) as [st1|x] eqn:E.
    + cbn [map fst]. replace (done ++ k :: map fst items)%list
        with ((done ++ [k]) ++ map fst items)%list by now rewrite <- app_assoc.
      apply (IH _ st1); [|exact Hf]. exact (view_all_step_listing _ _ _ _ _ Hst E).
    + exfalso. clear -Hf. induction items as [|i items IH]; [discriminate|].
      apply IH. exact Hf.
Qed.

Global Instance key_le_total : Total key_le.
Proof. intros a b. unfold key_le. apply String.leb_total. Qed.

(** X13.  When [view_all] shows the logs, it lists every entry other than
    the settings once, in ascending order of the keys; the hours on the
    entry lines add up to the total at the foot, and so do the week
    subtotals.  It changes nothing in the logger. *)
Theorem view_all_lists_and_totals self shown self' :
  view_all self = (Ok shown, self') ->
  work_entries (data self) <> ∅ ->
  self' = self /\
  entry_keys shown = map fst (sorted_items (work_entries (data self))) /\
  Sorted (fun a b => String.leb a b = true) (entry_keys shown) /\
  entry_keys shown ≡ₚ map fst (map_to_list (work_entries (data self))) /\
  exists total,
    In (LGrandTotal total) shown /\
    (entry_hours shown == total)%Q /\ (subtotals shown == total)%Q.
Proof.
  intros Hrun Hw. revert Hrun. unfold view_all, bind, get_data, lift, ret.
  rewrite bool_decide_eq_false_2 by exact Hw.
  destruct (fold_left view_all_step _ _) as [st|x] eqn:Ef; [|discriminate].
  destruct (get_lunch_break_minutes self) as [[q|x] self1] eqn:El; [|discriminate].
  intros [= <- <-].
  assert (self1 = self) as ->.
  { revert El. unfold get_lunch_break_minutes, bind, get_data, raise, lift.
    destruct (data self !! "settings") as [s|]; [|discriminate].
    destruct (s !! "lunch_break_minutes") as [v|]; [|discriminate].
    now intros [= _ <-]. }
  split; [reflexivity|].
  assert (H0 : listing_ok [] (mkAllState 0 None 0 [])).
  { repeat split; cbn; try reflexivity. }
  destruct (view_all_fold_listing _ _ _ _ H0 Ef) as (Hk & Hh & Hs & Hn).
  cbn [app] in Hk.
  match goal with |- entry_keys ?l = _ /\ _ => set (shown := l) end.
  assert (Ekeys : entry_keys shown
                  = map fst (sorted_items (work_entries (data self)))).
  { unfold shown. change (entry_keys (LAllHeader :: ?l)) with (entry_keys l).
    rewrite !entry_keys_app, Hk. unfold lunch_line.
    destruct (current_week_start st), (Qltb 0 q); cbn; now rewrite app_nil_r. }
  split; [exact Ekeys|]. rewrite Ekeys. split; [|split].
  - unfold sorted_items.
    pose proof (Sorted_merge_sort key_le (map_to_list (work_entries (data self))))
      as Hsorted.
    induction Hsorted as [|a l Hl IH Hhd]; cbn; constructor; [exact IH|].
    destruct Hhd; cbn; constructor. assumption.
  - unfold sorted_items. now rewrite merge_sort_Permutation.
  - exists (total_hours st). split; [|split].
    + unfold shown. right. apply in_or_app. right.
      apply in_or_app. right. now left.
    + unfold shown. rewrite entry_hours_cons, !entry_hours_app, <- Hh.
      unfold lunch_line.
      destruct (current_week_start st), (Qltb 0 q);
        rewrite ?entry_hours_cons; cbn; ring.
    + unfold shown. rewrite subtotals_cons, !subtotals_app. unfold lunch_line.
      destruct (current_week_start st) eqn:E, (Qltb 0 q);
        rewrite ?subtotals_cons; cbn;
        rewrite Hs, ?(Hn eq_refl); ring.
Qed.

Lemma view_all_lists_and_totals_witness :
  let self := logger (<["2024-01-02" := day_entry "09:00" "17:00" (15 # 2) 450]>
                        last_week) in
  exists shown,
    view_all self = (Ok shown, self) /\
    entry_keys shown = ["2023-12-28"; "2023-12-29"; "2024-01-02"] /\
    exists total,
      In (LGrandTotal total) shown /\
      (entry_hours shown == total)%Q /\ (subtotals shown == total)%Q.
Proof.
  cbv zeta.
  set (self := logger (<["2024-01-02" := day_entry "09:00" "17:00" (15 # 2) 450]>
                         last_week)).
  assert (Hrun : view_all self =
    (Ok [LAllHeader; LWeekOf "2023-12-25";
         LEntry "2023-12-28" (JStr "09:00") (JStr "17:00") (15 # 2);
         LEntry "2023-12-29" (JStr "09:00") (JStr "16:30") 7;
         LWeekSubtotal (29 # 2); LWeekOf "2024-01-01";
         LEntry "2024-01-02" (JStr "09:00") (JStr "17:00") (15 # 2);
         LWeekSubtotal (15 # 2); LGrandTotal (88 # 4); LLunchSetting 30; LBlank],
     self)) by by_evaluation.
  destruct (view_all_lists_and_totals self _ self Hrun)
    as (_ & _ & _ & _ & Htotal); [by_evaluation|].
  eexists. split; [exact Hrun|]. split; [reflexivity|]. exact Htotal.
Defined.

Lemma store_worked_twice e w :
  store_worked (store_worked e w) w = store_worked e w.
Proof.
  unfold store_worked. apply map_eq. intros f.
  destruct (decide (f = "total_minutes")) as [->|H1]; [now rewrite !lookup_insert_eq|].
  destruct (decide (f = "hours_worked")) as [->|H2].
  - rewrite !(lookup_insert_ne _ "total_minutes") by congruence.
    now rewrite !lookup_insert_eq.
  - now rewrite !lookup_insert_ne by congruence.
Qed.

Lemma store_worked_times e w :
  store_worked e w !! "start" = e !! "start" /\
  store_worked e w !! "end" = e !! "end".
Proof. unfold store_worked. now lookups. Qed.

Lemma recalculate_entry_again lunch k e :
  let e' := default e (recalculate_entry lunch k e) in
  default e' (recalculate_entry lunch k e') = e'.
Proof.
  cbv zeta. unfold recalculate_entry.
  destruct (String.eqb k "settings"); [reflexivity|].
  destruct (e !! "start") as [vs|] eqn:Es; cbn; [|now rewrite ?Es].
  destruct (e !! "end") as [ve|] eqn:Ee; cbn; [|now rewrite ?Es, ?Ee].
  destruct (entry_time k vs) as [st|] eqn:Est; cbn; [|now rewrite ?Es, ?Ee, ?Est].
  destruct (entry_time k ve) as [et|] eqn:Eet; cbn; [|now rewrite ?Es, ?Ee, ?Est, ?Eet].
  destruct (store_worked_times e (worked st et lunch)) as [-> ->].
  rewrite Es, Ee, Est, Eet. cbn. apply store_worked_twice.
Qed.

Lemma recalculated_twice lunch d :
  recalculated lunch (recalculated lunch d) = recalculated lunch d.
Proof.
  apply map_eq. intros k. rewrite !lookup_recalculated.
  destruct (d !! k) as [e|]; [|reflexivity]. cbn. f_equal.
  apply recalculate_entry_again.
Qed.

(** X14.  [recalculate_all_entries] is idempotent on the store: run a
    second time, with the same lunch setting, it leaves the store in
    memory as the first run left it, and the data file holds that store
    unless no entry has both times. *)
Theorem recalculate_all_entries_twice self q :
  lunch_of (data self) = Some (JNum q) ->
  exists self1 self2,
    recalculate_all_entries self = (Ok tt, self1) /\
    recalculate_all_entries self1 = (Ok tt, self2) /\
    data self2 = data self1 /\ file self2 = file self1 /\
    (forall k, k = "settings" \/ data self !! k ≫= (.!! "start") = None \/
               data self !! k ≫= (.!! "end") = None ->
               data self1 !! k = data self !! k).
Proof.
  intros Hq.
  rewrite (recalculate_all_entries_run _ _ Hq). cbv zeta.
  set (d1 := recalculated q (data self)).
  assert (Hq1 : lunch_of d1 = Some (JNum q))
    by (unfold d1; now rewrite lunch_of_recalculated).
  assert (Hcount : recalculated_count q d1 = recalculated_count q (data self)).
  { unfold recalculated_count, d1. f_equal. apply map_eq. intros k.
    rewrite !map_lookup_imap, lookup_recalculated.
    destruct (data self !! k) as [e|]; [|reflexivity]. cbn.
    unfold recalculate_entry.
    destruct (String.eqb k "settings"); [reflexivity|].
    destruct (e !! "start") as [vs|] eqn:Es; cbn; [|now rewrite ?Es].
    destruct (e !! "end") as [ve|] eqn:Ee; cbn; [|now rewrite ?Es, ?Ee].
    destruct (entry_time k vs) as [st|] eqn:Est; cbn; [|now rewrite ?Es, ?Ee, ?Est].
    destruct (entry_time k ve) as [et|] eqn:Eet; cbn;
      [|now rewrite ?Es, ?Ee, ?Est, ?Eet].
    destruct (store_worked_times e (worked st et q)) as [-> ->].
    rewrite Es, Ee, Est, Eet. cbn. now rewrite store_worked_twice. }
  assert (Hkeep : forall k,
    k = "settings" \/ data self !! k ≫= (.!! "start") = None \/
    data self !! k ≫= (.!! "end") = None -> d1 !! k = data self !! k).
  { intros k Hk. unfold d1. rewrite lookup_recalculated.
    destruct (data self !! k) as [e|]; [|reflexivity]. cbn in *. f_equal.
    unfold recalculate_entry.
    destruct Hk as [->|[Hk|Hk]]; [reflexivity|..];
      destruct (String.eqb k "settings"); try reflexivity; rewrite Hk;
      [reflexivity|]. now destruct (e !! "start"). }
  assert (Htw : recalculated q d1 = d1) by apply recalculated_twice.
  destruct (0 <? recalculated_count q (data self))%nat eqn:Hc;
    (eexists _, _; split; [reflexivity|]);
    rewrite (recalculate_all_entries_run _ q) by exact Hq1; cbv zeta;
    cbn [data file stdout]; rewrite Hcount, Hc;
    (split; [reflexivity|]); cbn [data file]; rewrite !Htw; auto.
Qed.

Lemma recalculate_all_entries_twice_witness :
  let self := logger (<["settings" := {[ "lunch_break_minutes" := JNum 60 ]}]>
                        last_week) in
  exists self1 self2,
    recalculate_all_entries self = (Ok tt, self1) /\
    recalculate_all_entries self1 = (Ok tt, self2) /\
    data self2 = data self1 /\ file self2 = file self1 /\
    data self1 !! "2023-12-28" = Some (day_entry "09:00" "17:00" 7 420).
Proof.
  cbv zeta.
  destruct (recalculate_all_entries_twice
              (logger (<["settings" := {[ "lunch_break_minutes" := JNum 60 ]}]>
                         last_week)) 60)
    as (self1 & self2 & H1 & H2 & Hd & Hf & _); [by_evaluation|].
  exists self1, self2. repeat (split; [assumption|]).
  apply (f_equal snd) in H1. cbn [snd] in H1. subst self1. by_evaluation.
Defined.

(** X15.  With a time that does not read as HH:MM, [log_start] and
    [log_end] return [False] and write nothing for the day; the only
    change is the one made before the time is read: on a Monday whose
    entry is absent or empty the store has been cleared and saved, on any
    other day the store and the data file are as they were. *)
Theorem unreadable_time_logs_nothing self s now :
  nonempty s = true -> strptime s "%H:%M" = Raise ValueError ->
  exists self',
    log_start (Some s) now self = (Ok false, self') /\
    log_end (Some s) now self = (Ok false, self') /\
    if (weekday (dt_date now) =? 0)
       && bool_decide (default ∅ (data self !! key_of (dt_date now)) = ∅)
    then data self' = {[ "settings" := default default_settings
                                         (data self !! "settings") ]} /\
         file self' = data self' /\
         stdout self' = (stdout self ++ [MsgEntriesCleared; MsgInvalidTimeFormat])%list
    else data self' = data self /\ file self' = file self /\
         stdout self' = (stdout self ++ [MsgInvalidTimeFormat])%list.
Proof.
  intros Hn Hs. eexists. split; [apply (log_start_invalid_time _ _ _ Hn Hs)|].
  split; [apply (log_end_invalid_time _ _ _ Hn Hs)|].
  cbv zeta. unfold after_rollover, rollover_due, cleared.
  destruct (weekday (dt_date now) =? 0); cbn [andb]; [|auto].
  destruct (data self !! key_of (dt_date now)) as [e|].
  - change (default ∅ (Some e)) with e.
    destruct (bool_decide (e = ∅)); cbn [data file stdout]; [|auto].
    rewrite <- app_assoc. auto.
  - change (default (∅ : dict) None) with (∅ : dict).
    rewrite bool_decide_eq_true_2 by reflexivity. cbn [data file stdout].
    rewrite <- app_assoc. auto.
Qed.

Lemma unreadable_time_logs_nothing_witness :
  exists self',
    log_start (Some "9h30") (at_time 2024 1 1 9 30) (logger last_week)
      = (Ok false, self') /\
    log_end (Some "9h30") (at_time 2024 1 1 9 30) (logger last_week)
      = (Ok false, self') /\
    data self' = {[ "settings" := default_settings ]} /\
    file self' = data self'.
Proof.
  destruct (unreadable_time_logs_nothing (logger last_week) "9h30"
              (at_time 2024 1 1 9 30))
    as (self' & H1 & H2 & H3); try by_evaluation.
  exists self'. split; [exact H1|]. split; [exact H2|].
  change ((weekday (dt_date (at_time 2024 1 1 9 30)) =? 0)
          && bool_decide (default ∅ (data (logger last_week)
                                       !! key_of (dt_date (at_time 2024 1 1 9 30))) = ∅))
    with true in H3.
  destruct H3 as (Hd & Hf & _). split; [|exact Hf].
  rewrite Hd. by_evaluation.
Defined.

(** X16.  The counter and the views only read: a turn of the menu with a
    choice other than 1, 2, 6, 7 and 8 leaves the store, the data file and
    the messages of the commands as they are, whether it ends well or an
    exception escapes. *)
Theorem viewing_changes_nothing now a self :
  Forall (fun c => choice a <> c) ["1"; "2"; "6"; "7"; "8"] ->
  snd (menu_turn now a self) = self.
Proof.
  intros H. unfold menu_turn.
  apply bind_state; [apply display_work_counter_state|]. intros counter.
  unfold run_choice.
  repeat match goal with
         | |- context [String.eqb (choice a) ?c] =>
             destruct (String.eqb_spec (choice a) c) as [E|_]
         end;
    try (exfalso; rewrite E in H; repeat (apply Forall_cons in H as [? H]);
         congruence);
    try reflexivity;
    (apply bind_state; [|reflexivity]).
  - apply view_today_state.
  - apply view_week_state.
  - apply view_all_state.
Qed.

Lemma viewing_changes_nothing_witness :
  let self := logger (<["2024-01-02" := {[ "start" := JStr "09:00" ]}]> last_week) in
  let a := mkAnswers "5" "" "" "" "" "" "" None in
  snd (menu_turn (at_time 2024 1 2 12 0) a self) = self /\
  fst (menu_turn (at_time 2024 1 2 12 0) a self) =
  Ok ([LSessionActive; LStarted (JStr "09:00"); LElapsed 3 0;
       LWorkTime 3 0 (LunchWillBeDeducted 30); LWeeklyProgress 0 35;
       LLeaveDaily (Some "16:30") 4 30; LBlank;
       LAllHeader; LWeekOf "2023-12-25";
       LEntry "2023-12-28" (JStr "09:00") (JStr "17:00") (15 # 2);
       LEntry "2023-12-29" (JStr "09:00") (JStr "16:30") 7;
       LWeekSubtotal (29 # 2); LWeekOf "2024-01-01";
       LEntry "2024-01-02" (JStr "09:00") (JStr "N/A") 0;
       LWeekSubtotal 0; LGrandTotal (29 # 2); LLunchSetting 30; LBlank], true).
Proof.
  cbv zeta. split.
  - apply viewing_changes_nothing. cbn [choice].
    repeat constructor; discriminate.
  - by_evaluation.
Defined.

(** The dates that the loop of [get_weekly_hours] collects. *)
Lemma weekly_step_dates d week_start l : forall total dates w,
  fold_left (weekly_step d week_start) l (Ok (total, dates)) = Ok w ->
  snd w =
  (dates ++ map (fun i => key_of (date_add_days week_start (Z.of_nat i))) l)%list.
Proof.
  induction l as [|i l IH]; intros total dates w; cbn [fold_left map].
  - intros [= <-]. cbn. now rewrite app_nil_r.
  - set (key := key_of (date_add_days week_start (Z.of_nat i))).
    assert (Hw : weekly_step d week_start (Ok (total, dates)) i =
      match d !! key with
      | Some entry =>
          rbind (number (default (JNum 0) (entry !! "hours_worked")))
            (fun hours => Ok ((total + hours)%Q, (dates ++ [key])%list))
      | None => Ok (total, (dates ++ [key])%list)
      end) by reflexivity.
    rewrite Hw. clear Hw.
    destruct (d !! key) as [e|].
    + destruct (number _) as [hours|x]; cbn [rbind].
      * intros H. rewrite (IH _ _ _ H), <- app_assoc. reflexivity.
      * intros H. exfalso. clear -H.
        induction l as [|j l IHl]; [discriminate|]. apply IHl. exact H.
    + intros H. rewrite (IH _ _ _ H), <- app_assoc. reflexivity.
Qed.

(** X17.  For a date that the calendar has, the start of its week plus
    its weekday is the date itself, so that the date is one of the seven
    dates of [get_weekly_hours]: the list returned holds the keys of the
    seven days from the Monday on, and the key of the date is the one at
    the place of its weekday. *)
Theorem weekly_hours_cover_the_date d :
  date_ok d = true ->
  date_add_days (get_week_start d) (weekday d) = d /\
  forall self w,
    fst (get_weekly_hours d self) = Ok w ->
    snd w = map (fun i => key_of (date_add_days (get_week_start d) (Z.of_nat i)))
              (seq 0 7) /\
    nth (Z.to_nat (weekday d)) (snd w) "" = key_of d.
Proof.
  intros Hd. apply date_ok_valid in Hd as [Hm Hday].
  assert (E : date_add_days (get_week_start d) (weekday d) = d).
  { unfold date_add_days at 1, get_week_start. rewrite toordinal_add_days.
    replace (toordinal d + - weekday d + weekday d) with (toordinal d) by lia.
    now apply fromordinal_toordinal. }
  split; [exact E|]. intros self w Hw.
  rewrite get_weekly_hours_eq in Hw. cbn [fst] in Hw. unfold weekly_hours_of in Hw.
  pose proof (weekly_step_dates _ _ _ _ _ _ Hw) as Hdates. cbn [app] in Hdates.
  split; [exact Hdates|]. rewrite Hdates.
  pose proof (weekday_bounds d) as Hb.
  set (f := fun i => key_of (date_add_days (get_week_start d) (Z.of_nat i))).
  assert (Ek : key_of d = f (Z.to_nat (weekday d))).
  { unfold f. rewrite Z2Nat.id by lia. now rewrite E. }
  rewrite Ek.
  assert (Hn : (Z.to_nat (weekday d) < 7)%nat) by lia.
  revert Hn. generalize (Z.to_nat (weekday d)). intros n Hn.
  do 7 (destruct n as [|n]; [reflexivity|]). lia.
Qed.

Lemma weekly_hours_cover_the_date_witness :
  let d := Date 2023 12 29 in
  date_add_days (get_week_start d) (weekday d) = d /\
  forall self w,
    fst (get_weekly_hours d self) = Ok w ->
    snd w = map (fun i => key_of (date_add_days (get_week_start d) (Z.of_nat i)))
              (seq 0 7) /\
    nth (Z.to_nat (weekday d)) (snd w) "" = key_of d.
Proof.
  cbv zeta. apply weekly_hours_cover_the_date. reflexivity.
Defined.

(** X18.  There is no active session, and the counter shows nothing,
    when today has no entry, when the entry has no start, when it has an
    end, and when its start does not read as a time on today's date. *)
Theorem no_session_shows_nothing self now :
  let today := key_of (dt_date now) in
  data self !! today ≫= (.!! "start") = None \/
  is_Some (data self !! today ≫= (.!! "end")) \/
  (exists v, data self !! today ≫= (.!! "start") = Some v /\
             entry_time today v = Raise ValueError) ->
  get_current_work_time now self = (Ok None, self) /\
  display_work_counter now self = (Ok [], self).
Proof.
  cbv zeta. intros H.
  assert (Hg : get_current_work_time now self = (Ok None, self)).
  { unfold get_current_work_time. fold (key_of (dt_date now)). unfold_m.
    destruct (data self !! key_of (dt_date now)) as [e|]; [|reflexivity].
    cbn in H. destruct (e !! "start") as [vs|]; [|reflexivity].
    destruct (e !! "end") as [ve|]; [reflexivity|].
    destruct H as [H|[[v H]|(v & Hv & Hr)]]; try discriminate.
    injection Hv as <-. now rewrite Hr. }
  split; [exact Hg|]. unfold display_work_counter, bind, ret. now rewrite Hg.
Qed.

Lemma no_session_shows_nothing_witness :
  display_work_counter (at_time 2023 12 29 18 0) (logger last_week) = (Ok [], logger last_week)
  /\ display_work_counter (at_time 2023 12 30 18 0) (logger last_week)
     = (Ok [], logger last_week).
Proof.
  split.
  - apply (no_session_shows_nothing (logger last_week) (at_time 2023 12 29 18 0)).
    right. left. exists (JStr "16:30"). by_evaluation.
  - apply (no_session_shows_nothing (logger last_week) (at_time 2023 12 30 18 0)).
    left. by_evaluation.
Defined.

(** X19.  When no roll-over is due, [log_start] with a time that reads, or
    with none, writes the start of today's entry and nothing else: every
    other field of the entry, an end and hours logged before included,
    and every other key are as they were; the store is saved. *)
Theorem log_start_writes_the_start_only self time_str now start_time :
  command_time time_str now = Ok start_time ->
  rollover_due (data self) (dt_date now) = false ->
  let today := key_of (dt_date now) in
  exists self',
    log_start time_str now self = (Ok true, self') /\
    file self' = data self' /\
    data self' !! today ≫= (.!! "start")
      = Some (JStr (strftime start_time "%H:%M")) /\
    (forall f, f <> "start" ->
       data self' !! today ≫= (.!! f) = data self !! today ≫= (.!! f)) /\
    (forall k, k <> today -> data self' !! k = data self !! k).
Proof.
  intros Ht Hr. cbv zeta. eexists. split; [apply (log_start_run _ _ _ _ Ht)|].
  cbv zeta. unfold after_rollover. rewrite Hr. cbn [data file].
  split; [reflexivity|]. rewrite lookup_insert_eq. cbn. split; [apply lookup_insert_eq|].
  split.
  - intros f Hf. rewrite lookup_insert_ne by congruence.
    destruct (data self !! key_of (dt_date now)); [reflexivity|apply lookup_empty].
  - intros k Hk. now rewrite lookup_insert_ne by congruence.
Qed.

Lemma log_start_writes_the_start_only_witness :
  exists self',
    log_start (Some "10:00") (at_time 2023 12 29 18 0) (logger last_week)
      = (Ok true, self') /\
    data self' !! "2023-12-29" = Some (day_entry "10:00" "16:30" 7 420).
Proof.
  destruct (log_start_writes_the_start_only (logger last_week) (Some "10:00")
              (at_time 2023 12 29 18 0) (at_time 2023 12 29 10 0))
    as (self' & Hrun & _); try by_evaluation.
  exists self'. split; [exact Hrun|].
  apply (f_equal snd) in Hrun. cbn [snd] in Hrun. subst self'. by_evaluation.
Defined.

(** The weekly total of a store in which no entry of the week has hours. *)
Lemma weekly_fold_no_hours d week_start l : forall dates,
  (forall i e, d !! key_of (date_add_days week_start (Z.of_nat i)) = Some e ->
               e !! "hours_worked" = None) ->
  fold_left (weekly_step d week_start) l (Ok (0%Q, dates)) =
  Ok (0%Q, (dates ++ map (fun i => key_of (date_add_days week_start (Z.of_nat i))) l)%list).
Proof.
  induction l as [|i l IH]; intros dates Hd; cbn [fold_left map].
  - now rewrite app_nil_r.
  - set (key := key_of (date_add_days week_start (Z.of_nat i))).
    assert (Hw : weekly_step d week_start (Ok (0%Q, dates)) i =
      match d !! key with
      | Some entry =>
          rbind (number (default (JNum 0) (entry !! "hours_worked")))
            (fun hours => Ok ((0 + hours)%Q, (dates ++ [key])%list))
      | None => Ok (0%Q, (dates ++ [key])%list)
      end) by reflexivity.
    rewrite Hw. clear Hw.
    destruct (d !! key) as [e|] eqn:E.
    + rewrite (Hd i e E). cbn. rewrite (IH _ Hd), <- app_assoc. reflexivity.
    + rewrite (IH _ Hd), <- app_assoc. reflexivity.
Qed.

(** X20.  After the roll-over of a Monday the week starts from nothing:
    once [log_start] has cleared the store and written the start of that
    Monday, [get_weekly_hours] returns 0 for it. *)
Theorem monday_start_resets_the_week self time_str now start_time :
  command_time time_str now = Ok start_time ->
  weekday (dt_date now) = 0 ->
  data self !! key_of (dt_date now) = None \/
  data self !! key_of (dt_date now) = Some ∅ ->
  exists self' dates,
    log_start time_str now self = (Ok true, self') /\
    get_weekly_hours (dt_date now) self' = (Ok (0%Q, dates), self') /\
    length dates = 7%nat.
Proof.
  intros Ht Hw He.
  assert (Hr : rollover_due (data self) (dt_date now) = true)
    by (apply rollover_due_true; auto).
  eexists _, _. split; [apply (log_start_run _ _ _ _ Ht)|].
  cbv zeta. unfold after_rollover. rewrite Hr. cbn [data file stdout].
  rewrite get_weekly_hours_eq. cbn [data]. unfold weekly_hours_of.
  rewrite weekly_fold_no_hours.
  - split; [reflexivity|]. reflexivity.
  - intros i e. unfold cleared.
    rewrite lookup_singleton_ne by (apply not_eq_sym, key_not_settings).
    cbn [default].
    destruct (decide (key_of (dt_date now)
                      = key_of (date_add_days (get_week_start (dt_date now))
                                  (Z.of_nat i)))) as [<-|Hne].
    + rewrite lookup_insert_eq. intros [= <-].
      rewrite lookup_insert_ne by discriminate. apply lookup_empty.
    + rewrite lookup_insert_ne by exact Hne.
      rewrite lookup_singleton_ne by (apply not_eq_sym, key_not_settings).
      discriminate.
Qed.

Lemma monday_start_resets_the_week_witness :
  exists self' dates,
    log_start (Some "09:00") (at_time 2024 1 1 8 55) (logger last_week)
      = (Ok true, self') /\
    get_weekly_hours (Date 2024 1 1) self' = (Ok (0%Q, dates), self') /\
    length dates = 7%nat.
Proof.
  apply (monday_start_resets_the_week (logger last_week) (Some "09:00")
           (at_time 2024 1 1 8 55) (at_time 2024 1 1 9 0)).
  - by_evaluation.
  - by_evaluation.
  - left. by_evaluation.
Defined.

Lemma round_half_even_integer k : round_half_even (inject_Z k) = k.
Proof.
  unfold round_half_even. rewrite Qfloor_Z.
  replace (Qcompare (inject_Z k - inject_Z k) (1 # 2)) with Lt; [reflexivity|].
  symmetry. apply Qlt_alt.
  assert (E : inject_Z k - inject_Z k == 0) by ring. rewrite E. reflexivity.
Qed.

Lemma minutes_delta_whole (m : Z) :
  minutes_delta (inject_Z m) = m * 60000000.
Proof.
  unfold minutes_delta.
  rewrite (round_half_even_proper _ (inject_Z (m * 60000000))).
  - apply round_half_even_integer.
  - rewrite inject_Z_mult. reflexivity.
Qed.

(** The wall clock a whole number of minutes after a time on the minute. *)
Lemma leave_time_on_the_clock t (m : Z) :
  whole_minute t -> 0 <= m ->
  let leave := (wall_minutes t + m) mod 1440 in
  strftime (datetime_add t (m * 60000000)) "%H:%M"
  = pad2 (leave / 60) ++ ":" ++ pad2 (leave mod 60).
Proof.
  intros Hw Hm. cbv zeta. rewrite strftime_hm. unfold datetime_add. cbv zeta.
  cbn [hour minute]. rewrite (tod_us_whole _ Hw).
  replace (wall_minutes t * 60000000 + m * 60000000)
    with ((wall_minutes t + m) * 60000000) by lia.
  unfold DAY_US. change 86400000000 with (1440 * 60000000).
  rewrite Z.mul_mod_distr_r by lia.
  set (leave := (wall_minutes t + m) mod 1440).
  assert (Hl : 0 <= leave < 1440) by (apply Z.mod_pos_bound; lia).
  change 3600000000 with (60 * 60000000).
  rewrite Z.div_mul_cancel_r by lia.
  rewrite Z.div_mul by lia. reflexivity.
Qed.

Lemma floordiv60_whole k : floordiv60 (inject_Z k) = k / 60.
Proof.
  unfold floordiv60, floor.
  rewrite (Qfloor_comp _ (k # 60)); [reflexivity|].
  unfold Qeq. cbn. lia.
Qed.

(** X21.  The daily target of a session that started on the minute, with
    an integer lunch break [L]: it is reached once 420 + [L] minutes have
    elapsed; until then the time to leave is the start plus 7 hours plus
    the lunch break on the wall clock, past midnight if need be, and the
    countdown shows the minutes still to go as hours and minutes.  The
    elapsed time is shown as hours and minutes below 60. *)
Theorem daily_target_of_session self now e start_v start_t (L : Z) weekly :
  data self !! key_of (dt_date now) = Some e ->
  e !! "start" = Some start_v -> e !! "end" = None ->
  entry_time (key_of (dt_date now)) start_v = Ok start_t ->
  lunch_of (data self) = Some (JNum (inject_Z L)) ->
  weekly_hours_of (data self) (dt_date now) = Ok weekly ->
  whole_minute start_t -> 0 <= L ->
  let elapsed := int_of (total_minutes_of (datetime_sub now start_t)) in
  let leave := (wall_minutes start_t + (420 + L)) mod 1440 in
  exists w,
    get_current_work_time now self = (Ok (Some w), self) /\
    elapsed_hours w * 60 + elapsed_minutes w = elapsed /\
    0 <= elapsed_minutes w < 60 /\
    if elapsed <? 420 + L
    then daily_target_reached w = false /\
         time_to_leave_7h w = Some (pad2 (leave / 60) ++ ":" ++ pad2 (leave mod 60)) /\
         hours_until_7h w = (420 + L - elapsed) / 60 /\
         (mins_until_7h w == inject_Z ((420 + L - elapsed) mod 60))%Q
    else daily_target_reached w = true /\
         time_to_leave_7h w = None /\
         hours_until_7h w = 0 /\ mins_until_7h w = 0%Q.
Proof.
  intros He Hv Hn Hs Hl Hw Hwhole HL. cbv zeta.
  rewrite (get_current_work_time_run _ _ _ _ _ _ _ He Hv Hn Hs Hl Hw).
  set (elapsed := int_of (total_minutes_of (datetime_sub now start_t))).
  set (w := projection start_v start_t now (inject_Z L) weekly.1).
  set (until := (420 + inject_Z L - of_Z elapsed)%Q).
  assert (Euntil : until == inject_Z (420 + L - elapsed)).
  { unfold until, of_Z, Zminus. rewrite !inject_Z_plus, inject_Z_opp. reflexivity. }
  assert (F1 : daily_target_reached w = Qleb until 0).
  { unfold w, projection. cbv zeta. fold elapsed. fold until.
    destruct (Qltb 0 until); destruct (_ && _); reflexivity. }
  assert (F2 : (time_to_leave_7h w, hours_until_7h w, mins_until_7h w) =
               if Qltb 0 until
               then (Some (strftime (datetime_add start_t
                                       (minutes_delta (420 + inject_Z L))) "%H:%M"),
                     floordiv60 until, mod60 until)
               else (None, 0, 0%Q)).
  { unfold w, projection. cbv zeta. fold elapsed. fold until.
    destruct (Qltb 0 until); destruct (_ && _); reflexivity. }
  assert (F3 : elapsed_hours w = elapsed / 60 /\ elapsed_minutes w = elapsed mod 60).
  { unfold w, projection. cbv zeta. fold elapsed. fold until.
    destruct (Qltb 0 until); destruct (_ && _); split; reflexivity. }
  assert (Hlt : Qltb 0 until = (elapsed <? 420 + L)).
  { rewrite (Qltb_proper 0 (inject_Z 0) until (inject_Z (420 + L - elapsed)))
      by (try reflexivity; exact Euntil).
    rewrite Qltb_inject.
    destruct (Z.ltb_spec 0 (420 + L - elapsed)), (Z.ltb_spec elapsed (420 + L));
      reflexivity || lia. }
  exists w. split; [reflexivity|].
  destruct F3 as [-> ->].
  split; [pose proof (Z.div_mod elapsed 60 ltac:(lia)); lia|].
  split; [apply Z.mod_pos_bound; lia|].
  rewrite Hlt in F2. rewrite F1.
  destruct (Z.ltb_spec elapsed (420 + L)) as [Hlt'|Hge];
    injection F2 as -> -> ->.
  - split.
    { unfold Qleb. destruct (Qle_bool until 0) eqn:E; [|reflexivity].
      apply Qle_bool_iff in E. rewrite Euntil in E.
      change 0%Q with (inject_Z 0) in E. rewrite <- Zle_Qle in E. lia. }
    split.
    { f_equal.
      assert (Ed : minutes_delta (420 + inject_Z L) = (420 + L) * 60000000).
      { rewrite <- minutes_delta_whole. unfold minutes_delta.
        apply round_half_even_proper. rewrite inject_Z_plus. reflexivity. }
      rewrite Ed. apply (leave_time_on_the_clock _ _ Hwhole). lia. }
    split.
    { unfold floordiv60, floor.
      rewrite (Qfloor_comp _ ((420 + L - elapsed) # 60)); [reflexivity|].
      rewrite Euntil. unfold Qeq. cbn. lia. }
    unfold mod60.
    assert (Ef : floordiv60 until = (420 + L - elapsed) / 60).
    { unfold floordiv60, floor.
      rewrite (Qfloor_comp _ ((420 + L - elapsed) # 60)); [reflexivity|].
      rewrite Euntil. unfold Qeq. cbn. lia. }
    rewrite Ef, Euntil. unfold of_Z.
    pose proof (Z.div_mod (420 + L - elapsed) 60 ltac:(lia)) as Hdm.
    rewrite Hdm at 1. rewrite inject_Z_plus, inject_Z_mult. ring.
  - split; [|auto].
    unfold Qleb. apply Qle_bool_iff. rewrite Euntil.
    change 0%Q with (inject_Z 0). rewrite <- Zle_Qle. lia.
Qed.

Lemma daily_target_of_session_witness :
  let self := logger (<["2024-01-02" := {[ "start" := JStr "17:45" ]}]> last_week) in
  exists w,
    get_current_work_time (DateTime (Date 2024 1 2) 19 0 30 0) self = (Ok (Some w), self) /\
    elapsed_hours w * 60 + elapsed_minutes w = 75 /\
    daily_target_reached w = false /\
    time_to_leave_7h w = Some "01:15" /\
    hours_until_7h w = 6 /\ (mins_until_7h w == 15)%Q.
Proof.
  cbv zeta.
  destruct (daily_target_of_session
              (logger (<["2024-01-02" := {[ "start" := JStr "17:45" ]}]> last_week))
              (DateTime (Date 2024 1 2) 19 0 30 0)
              {[ "start" := JStr "17:45" ]} (JStr "17:45")
              (at_time 2024 1 2 17 45) 30
              (0%Q, ["2024-01-01"; "2024-01-02"; "2024-01-03"; "2024-01-04";
                     "2024-01-05"; "2024-01-06"; "2024-01-07"]))
    as (w & Hrun & Hel & _ & Hd).
  - by_evaluation.
  - by_evaluation.
  - by_evaluation.
  - by_evaluation.
  - by_evaluation.
  - by_evaluation.
  - repeat split; reflexivity.
  - lia.
  - exists w. split; [exact Hrun|]. split; [exact Hel|]. exact Hd.
Defined.

(** X22.  [edit_past_day] refuses a date that does not read as
    YYYY-MM-DD, the key of the settings among them, and stops when
    nothing is typed for the date: no entry is created, the store and the
    data file are as they were, whatever is typed for the times. *)
Theorem edit_past_day_refuses_the_date self date_input new_start new_end :
  nonempty date_input = false \/
  (exists x, strptime date_input "%Y-%m-%d" = Raise x) ->
  exists self',
    edit_past_day date_input new_start new_end self = (Ok tt, self') /\
    data self' = data self /\ file self' = file self /\
    stdout self' =
      if bool_decide (work_entries (data self) = ∅)
      then (stdout self ++ [MsgNoLogsToEdit])%list
      else if nonempty date_input
           then (stdout self ++ [MsgInvalidDateFormat])%list
           else stdout self.
Proof.
  intros H. unfold edit_past_day. unfold_m. cbn.
  destruct (bool_decide (work_entries (data self) = ∅));
    [eexists; split; [reflexivity|]; now cbn|].
  destruct (nonempty date_input) eqn:Hn; cbn;
    [|eexists; split; [reflexivity|]; now cbn].
  destruct H as [H|[x H]]; [discriminate|]. rewrite H.
  eexists. split; [reflexivity|]. now cbn.
Qed.

Lemma edit_past_day_refuses_the_date_witness :
  exists self',
    edit_past_day "settings" "09:00" "17:00" (logger last_week) = (Ok tt, self') /\
    data self' = last_week /\ file self' = last_week /\
    stdout self' = [MsgInvalidDateFormat].
Proof.
  destruct (edit_past_day_refuses_the_date (logger last_week) "settings"
              "09:00" "17:00") as (self' & Hrun & Hd & Hf & Hout).
  - right. exists ValueError. by_evaluation.
  - exists self'. split; [exact Hrun|]. split; [exact Hd|]. split; [exact Hf|].
    rewrite Hout. by_evaluation.
Defined.

#[local] Arguments command_time : simpl never.
#[local] Arguments rollover_due : simpl never.

(** The store in memory is what the data file holds. *)
Definition saved (self : WorkLogger) : Prop := file self = data self.

(** A command that returns leaves the store saved. *)
Definition saves {A} (c : M A) (self : WorkLogger) : Prop :=
  forall a self', c self = (Ok a, self') -> saved self'.

Ltac leaf :=
  let H := fresh in
  intros H;
  first [ apply (f_equal fst) in H; cbn [fst] in H; discriminate H
        | apply (f_equal snd) in H; cbn [snd] in H; rewrite <- H; reflexivity ].

Lemma log_start_saves time_str now self :
  saved self -> saves (log_start time_str now) self.
Proof.
  intros Hs a self'. destruct (command_time time_str now) as [t|x] eqn:Ht.
  - rewrite (log_start_run _ _ _ _ Ht). cbv zeta. intros [= _ <-]. reflexivity.
  - destruct (command_time_raises _ _ _ Ht) as (s & -> & Hn & Hr).
    rewrite (log_start_invalid_time _ _ _ Hn Hr). cbv zeta. intros [= _ <-].
    unfold saved, after_rollover. cbn [data file].
    destruct (rollover_due _ _); [reflexivity|exact Hs].
Qed.

(** [log_end] leaves the store saved unless it stops for want of a start
    on a day that had no entry: that day has an empty entry in memory
    then. *)
Lemma log_end_saves time_str now self :
  saved self ->
  forall a self', log_end time_str now self = (Ok a, self') ->
  saved self' \/
  (file self' !! key_of (dt_date now) = None /\
   data self' = <[key_of (dt_date now) := ∅]> (file self')).
Proof.
  intros Hs a self'. destruct (command_time time_str now) as [t|x] eqn:Ht.
  - destruct (data self !! key_of (dt_date now) ≫= (.!! "start")) as [v|] eqn:Hv.
    + intros H. left. revert H.
      destruct (data self !! key_of (dt_date now)) as [e|] eqn:He; [|discriminate].
      cbn in Hv. unfold log_end.
      pose proof (command_time_date _ _ _ Ht) as Hd.
      unfold bind at 1. rewrite is_first_monday_input_eq.
      rewrite (entry_with_start_no_rollover _ _ _ _ He Hv).
      unfold get_lunch_break_minutes. unfold_m. rewrite Ht.
      rewrite !strftime_date, Hd. unfold saved.
      repeat first
        [ rewrite He | rewrite Hv | rewrite lookup_insert_eq
        | rewrite insert_insert_eq | progress cbn ].
      destruct (entry_time _ v) as [st|]; [|discriminate].
      rewrite lookup_insert_ne by apply key_not_settings.
      destruct (data self !! "settings") as [s|]; [|discriminate].
      destruct (s !! "lunch_break_minutes") as [v0|]; [|discriminate].
      unfold lift. destruct (number v0) as [q|]; [|discriminate].
      repeat first
        [ rewrite lookup_insert_eq | rewrite insert_insert_eq
        | rewrite get_weekly_hours_eq | progress cbn ].
      destruct (weekly_hours_of _ _); leaf.
    + rewrite (log_end_missing_start_run _ _ _ _ Ht Hv). cbv zeta.
      intros [= _ <-]. cbn [data file]. unfold saved, after_rollover.
      destruct (rollover_due _ _); cbn [data file].
      * right. unfold cleared.
        rewrite lookup_singleton_ne by (apply not_eq_sym, key_not_settings).
        split; reflexivity.
      * destruct (data self !! key_of (dt_date now)) eqn:E; [left; exact Hs|].
        right. rewrite Hs. split; [exact E|reflexivity].
  - destruct (command_time_raises _ _ _ Ht) as (s & -> & Hn & Hr).
    rewrite (log_end_invalid_time _ _ _ Hn Hr). cbv zeta. intros [= _ <-].
    left. unfold saved, after_rollover. cbn [data file].
    destruct (rollover_due _ _); [reflexivity|exact Hs].
Qed.

Lemma delete_day_saves date_input confirm self :
  saved self -> saves (delete_day date_input confirm) self.
Proof.
  intros Hs a self'. unfold delete_day, saved in *. unfold_m. cbn.
  repeat first [ progress cbn | split_innermost ]; intros [= _ <-]; cbn;
    first [reflexivity | exact Hs].
Qed.

Lemma get_lunch_break_minutes_inv self q self1 :
  get_lunch_break_minutes self = (Ok q, self1) ->
  lunch_of (data self) = Some (JNum q) /\ self1 = self.
Proof.
  unfold get_lunch_break_minutes, lunch_of. unfold_m.
  destruct (data self !! "settings") as [s|]; [|discriminate]. cbn.
  destruct (s !! "lunch_break_minutes") as [[t|q']|]; try discriminate.
  now intros [= -> <-].
Qed.

Lemma recalculate_all_entries_saves self :
  saved self -> saves recalculate_all_entries self.
Proof.
  intros Hs a self' H.
  destruct (get_lunch_break_minutes self) as [[q|x] self1] eqn:El.
  - apply get_lunch_break_minutes_inv in El as [Hq _].
    rewrite (recalculate_all_entries_run _ _ Hq) in H. cbv zeta in H.
    injection H as _ <-. unfold saved.
    destruct (0 <? recalculated_count q (data self))%nat eqn:Hc; cbn [data file];
      [reflexivity|].
    rewrite recalculated_none; [exact Hs|].
    apply Nat.ltb_ge in Hc. lia.
  - unfold recalculate_all_entries, bind in H. rewrite El in H. discriminate.
Qed.

Lemma configure_lunch_break_saves choice custom_input self :
  saved self -> saves (configure_lunch_break choice custom_input) self.
Proof.
  intros Hs a self' H.
  destruct (get_lunch_break_minutes self) as [[q|x] self1] eqn:El.
  - apply get_lunch_break_minutes_inv in El as [Hq _].
    destruct (new_minutes choice custom_input) as [L|] eqn:Hn.
    + pose proof Hq as Hq'. unfold lunch_of in Hq'.
      destruct (data self !! "settings") as [s|] eqn:Es; [|discriminate].
      cbn in Hq'.
      rewrite (configure_lunch_break_run _ _ _ _ _ _ Hn Es Hq') in H.
      cbv zeta in H. revert H. apply recalculate_all_entries_saves. reflexivity.
    + rewrite (configure_lunch_break_rejected _ _ _ _ Hn Hq) in H.
      injection H as _ <-. exact Hs.
  - unfold configure_lunch_break, bind in H. rewrite El in H. discriminate.
Qed.

Lemma edit_finish_saves date_input self : saves (edit_finish date_input) self.
Proof.
  intros a self'. unfold edit_finish, get_lunch_break_minutes, saved. unfold_m. cbn.
  repeat first
    [ rewrite lookup_insert_eq | rewrite insert_insert_eq | progress cbn
    | split_innermost ];
    leaf.
Qed.

Lemma edit_past_day_saves date_input new_start new_end self :
  saved self -> saves (edit_past_day date_input new_start new_end) self.
Proof.
  intros Hs a self'.
  destruct (decide (work_entries (data self) = ∅)) as [Hw|Hw].
  { rewrite (edit_past_day_no_logs _ _ _ _ Hw). intros [= _ <-]. exact Hs. }
  destruct (strptime date_input "%Y-%m-%d") as [d|x] eqn:Hd.
  - rewrite (edit_past_day_steps _ _ _ _ _ Hw Hd). apply edit_finish_saves.
  - unfold edit_past_day. unfold_m. cbn.
    rewrite bool_decide_eq_false_2 by exact Hw. rewrite Hd.
    destruct (nonempty date_input); cbn; intros [= _ <-]; exact Hs.
Qed.

(** X23.  Every turn of the menu that returns leaves the store saved: if
    the data file held the store before the turn, it holds the store
    after it.  There is one exception: an end logged on a day without
    entry creates an empty entry for the day in memory and stops for want
    of a start without saving it. *)
Theorem returning_turn_is_saved now a self shown self' :
  file self = data self ->
  menu_turn now a self = (Ok shown, self') ->
  file self' = data self' \/
  (choice a = "2" /\ file self' !! key_of (dt_date now) = None /\
   data self' = <[key_of (dt_date now) := ∅]> (file self')).
Proof.
  intros Hs. unfold menu_turn. unfold bind at 1.
  pose proof (display_work_counter_state now self) as Hc.
  destruct (display_work_counter now self) as [[counter|x] self0]; [|discriminate].
  cbn [snd] in Hc. subst self0.
  assert (Hthen : forall (A : Type) (c : M A) (v : list line * bool),
            saves c self ->
            (let* _ := c in ret v) self = (Ok shown, self') -> saved self').
  { intros A c v Hsv. unfold bind, ret.
    destruct (c self) as [[r|x] s1] eqn:E; [|discriminate].
    intros [= _ <-]. exact (Hsv _ _ E). }
  unfold run_choice.
  destruct (String.eqb (choice a) "1").
  { intros H. left. revert H. apply Hthen.
    destruct (nonempty _); now apply log_start_saves. }
  destruct (String.eqb_spec (choice a) "2") as [E2|_].
  { unfold bind, ret.
    destruct ((if nonempty (time_input a)
               then log_end (Some (time_input a)) now
               else log_end None now) self) as [[r|x] s1] eqn:E; [|discriminate].
    intros [= _ <-].
    assert (H : saved s1 \/
                (file s1 !! key_of (dt_date now) = None /\
                 data s1 = <[key_of (dt_date now) := ∅]> (file s1))).
    { destruct (nonempty (time_input a)); exact (log_end_saves _ _ _ Hs _ _ E). }
    destruct H as [H|H]; [now left|right; now split]. }
  destruct (String.eqb (choice a) "3").
  { intros H. left. apply (f_equal snd) in H. cbn [snd] in H. rewrite <- H.
    rewrite (bind_state (view_today now) _ self (view_today_state now self));
      [exact Hs|reflexivity]. }
  destruct (String.eqb (choice a) "4").
  { intros H. left. apply (f_equal snd) in H. cbn [snd] in H. rewrite <- H.
    rewrite (bind_state (view_week now) _ self (view_week_state now self));
      [exact Hs|reflexivity]. }
  destruct (String.eqb (choice a) "5").
  { intros H. left. apply (f_equal snd) in H. cbn [snd] in H. rewrite <- H.
    rewrite (bind_state view_all _ self (view_all_state self));
      [exact Hs|reflexivity]. }
  destruct (String.eqb (choice a) "6").
  { intros H. left. revert H. apply Hthen. now apply edit_past_day_saves. }
  destruct (String.eqb (choice a) "7").
  { intros H. left. revert H. apply Hthen. now apply delete_day_saves. }
  destruct (String.eqb (choice a) "8").
  { intros H. left. revert H. apply Hthen. now apply configure_lunch_break_saves. }
  destruct (String.eqb (choice a) "9"); intros [= _ <-]; left; exact Hs.
Qed.

Lemma returning_turn_is_saved_witness :
  let self := logger last_week in
  let a := mkAnswers "2" "17:00" "" "" "" "" "" None in
  let r := menu_turn (at_time 2023 12 30 17 0) a self in
  fst r = Ok ([], true) /\
  (file (snd r) = data (snd r) \/
   (choice a = "2" /\ file (snd r) !! "2023-12-30" = None /\
    data (snd r) = <["2023-12-30" := ∅]> (file (snd r)))) /\
  file (snd r) <> data (snd r).
Proof.
  cbv zeta. split; [by_evaluation|]. split; [|by_evaluation].
  apply (returning_turn_is_saved (at_time 2023 12 30 17 0)
           (mkAnswers "2" "17:00" "" "" "" "" "" None) (logger last_week)
           ([], true)).
  - reflexivity.
  - by_evaluation.
Defined.

(** Before the daily target is reached, the minutes of the countdown are
    whole only if the lunch break is. *)
Lemma projection_mins_fraction start start_datetime now lunch weekly :
  let w := projection start start_datetime now lunch weekly in
  is_int lunch = false -> daily_target_reached w = false ->
  is_int (mins_until_7h w) = false.
Proof.
  cbv zeta. intros Hl Hd.
  set (total := int_of (total_minutes_of (datetime_sub now start_datetime))).
  set (until := (420 + lunch - of_Z total)%Q).
  assert (E : (mins_until_7h (projection start start_datetime now lunch weekly),
               daily_target_reached (projection start start_datetime now lunch weekly))
              = (if Qltb 0 until then mod60 until else 0%Q, Qleb until 0)).
  { unfold projection. cbv zeta. fold total. fold until.
    destruct (Qltb 0 until); destruct (_ && _); reflexivity. }
  apply (f_equal snd) in E as Ed. apply (f_equal fst) in E. cbn [fst snd] in E, Ed.
  rewrite E. rewrite Hd in Ed. unfold Qltb. fold (Qleb until 0). rewrite <- Ed.
  cbn [negb]. destruct (is_int (mod60 until)) eqn:Hm; [|reflexivity].
  apply is_int_spec in Hm. rewrite <- Hl. symmetry.
  set (k := floor (mod60 until)) in Hm. unfold mod60 in Hm.
  set (z := floordiv60 until) in Hm. clearbody k z. unfold until in Hm.
  apply (is_int_whole _ (k + 60 * z + total - 420)).
  unfold of_Z, Zminus in *.
  rewrite !inject_Z_plus, inject_Z_opp, inject_Z_mult.
  change (inject_Z 420) with 420%Q. change (inject_Z 60) with 60%Q. lra.
Qed.

(** X24.  With a lunch break that is not a whole number, the counter of an
    active session fails as long as its projection has neither the weekly
    nor the daily target reached: the countdown to the daily target is
    then no int, the format [02d] raises [ValueError], and the exception
    ends every turn of the menu before the choice is read.  Nothing is
    changed. *)
Theorem counter_refuses_fractional_lunch self now w lunch :
  lunch_of (data self) = Some (JNum lunch) -> is_int lunch = false ->
  get_current_work_time now self = (Ok (Some w), self) ->
  weekly_target_reached w = false -> daily_target_reached w = false ->
  display_work_counter now self = (Raise ValueError, self) /\
  forall a, menu_turn now a self = (Raise ValueError, self).
Proof.
  intros Hl Hint Hrun Hweek Hday.
  assert (Hc : display_work_counter now self = (Raise ValueError, self)).
  { unfold display_work_counter, bind, lift. rewrite Hrun.
    destruct (get_current_work_time_cases now self)
      as [H|[[x H]|(start & st & lunch' & weekly & Hl' & H)]];
      rewrite H in Hrun; apply (f_equal fst) in Hrun; cbn [fst] in Hrun;
      try discriminate Hrun.
    injection Hrun as <-. rewrite Hl in Hl'. injection Hl' as <-.
    unfold counter_lines, format_02d. rewrite Hweek, Hday.
    now rewrite (projection_mins_fraction start st now lunch weekly Hint Hday). }
  split; [exact Hc|]. intros a. unfold menu_turn, bind. now rewrite Hc.
Qed.

(** A lunch break of 30.5 minutes, three hours into the day. *)
Lemma counter_refuses_fractional_lunch_witness :
  let d : store :=
    {[ "settings" := {[ "lunch_break_minutes" := JNum (61 # 2) ]};
       "2024-01-02" := {[ "start" := JStr "09:00" ]} ]} in
  let now := at_time 2024 1 2 12 0 in
  display_work_counter now (logger d) = (Raise ValueError, logger d) /\
  forall a, menu_turn now a (logger d) = (Raise ValueError, logger d).
Proof.
  cbv zeta.
  apply (counter_refuses_fractional_lunch _ _
           (projection (JStr "09:00") (at_time 2024 1 2 9 0)
              (at_time 2024 1 2 12 0) (61 # 2) 0) (61 # 2)).
  - by_evaluation.
  - reflexivity.
  - apply (get_current_work_time_run _ _ {[ "start" := JStr "09:00" ]}
             (JStr "09:00") (at_time 2024 1 2 9 0) (61 # 2)
             (0%Q, ["2024-01-01"; "2024-01-02"; "2024-01-03"; "2024-01-04";
                    "2024-01-05"; "2024-01-06"; "2024-01-07"]));
      by_evaluation.
  - vm_compute. reflexivity.
  - vm_compute. reflexivity.
Defined.

End Properties.
